(** * Sony IMX290 CMOS image sensor driver

    Shallow embedding of [drivers/media/i2c/imx290.c]: the conditional
    register tables, the condition evaluator and sequence applier, the
    control plane (gain, exposure, flip, test pattern, conversion gain),
    the frame-interval selection and the format / pixel-rate derivation.

    Conventions.
    - C integers are [Z]; every conversion that can wrap is written out
      with the helpers of module [CInt].
    - The driver state is the record [imx290], as [struct imx290]; the
      register bus ([struct regmap]) lives inside it and records every
      write that was issued together with the code it returned.
    - A driver function is a computation of type [drv A]: it takes the
      state and returns [Some (result, state')], or [None] where the C
      code has no defined behaviour (NULL dereference, division by zero,
      out-of-bounds array read).
    - [mutex_lock]/[mutex_unlock] and [dev_err]/[dev_dbg] have no effect on
      the sequential behaviour and are left out. *)

From Stdlib Require Import ZArith List Bool Lia.
Import ListNotations.
Local Open Scope Z_scope.

(** ** C integer conversions *)

Module CInt.

Definition BIT (n : Z) : Z := Z.shiftl 1 n.

Definition to_u8 (x : Z) : Z := x mod 2 ^ 8.
Definition to_u16 (x : Z) : Z := x mod 2 ^ 16.
Definition to_u32 (x : Z) : Z := x mod 2 ^ 32.
Definition to_u64 (x : Z) : Z := x mod 2 ^ 64.
Definition to_s64 (x : Z) : Z := (x + 2 ^ 63) mod 2 ^ 64 - 2 ^ 63.

(** [unsigned long] is [bits] wide: 32 on arm, 64 on arm64. *)
Definition to_ulong (bits : Z) (x : Z) : Z := x mod 2 ^ bits.

End CInt.
Import CInt.

Notation "a .| b" := (Z.lor a b) (at level 50, left associativity).
Notation "a .& b" := (Z.land a b) (at level 40, left associativity).

(** ** Register addresses and bit masks (lines 25-56) *)

Definition IMX290_STANDBY : Z := 0x3000.
Definition IMX290_REGHOLD : Z := 0x3001.
Definition IMX290_XMSTA : Z := 0x3002.
Definition IMX290_BLKLEVEL_LOW : Z := 0x300a.
Definition IMX290_BLKLEVEL_HIGH : Z := 0x300b.
Definition IMX290_GAIN : Z := 0x3014.
Definition IMX290_PGCTRL : Z := 0x308c.

Definition IMX290_PGCTRL_REGEN : Z := BIT 0.
Definition IMX290_PGCTRL_THRU : Z := BIT 1.
Definition IMX290_PGCTRL_MODE (n : Z) : Z := Z.shiftl n 4.

Definition COND_25_FPS : Z := BIT 0.
Definition COND_30_FPS : Z := BIT 1.
Definition COND_50_FPS : Z := BIT 2.
Definition COND_60_FPS : Z := BIT 3.
Definition COND_25_30_FPS : Z := COND_25_FPS .| COND_30_FPS.
Definition COND_50_60_FPS : Z := COND_50_FPS .| COND_60_FPS.
Definition COND_FPS_msk : Z :=
  COND_25_FPS .| COND_30_FPS .| COND_50_FPS .| COND_60_FPS.
Definition COND_2_LANES : Z := BIT 4.
Definition COND_4_LANES : Z := BIT 5.
Definition COND_LANES_msk : Z := COND_2_LANES .| COND_4_LANES.
Definition COND_INCK_37 : Z := BIT 6.
Definition COND_INCK_74 : Z := BIT 7.
Definition COND_INCK_msk : Z := COND_INCK_37 .| COND_INCK_74.

(** ** Constants of the V4L2 framework headers

    The control ids, media-bus codes and enumerators below are declared in
    [include/uapi/linux/v4l2-controls.h], [media-bus-format.h],
    [v4l2-subdev.h] and [videodev2.h]; the driver only compares and stores
    them. *)

Definition V4L2_CID_USER_BASE : Z := 0x00980900.
Definition V4L2_CID_EXPOSURE : Z := V4L2_CID_USER_BASE + 17.
Definition V4L2_CID_GAIN : Z := V4L2_CID_USER_BASE + 19.
Definition V4L2_CID_HFLIP : Z := V4L2_CID_USER_BASE + 20.
Definition V4L2_CID_VFLIP : Z := V4L2_CID_USER_BASE + 21.
Definition V4L2_CID_IMAGE_PROC_CLASS_BASE : Z := 0x009f0900.
Definition V4L2_CID_LINK_FREQ : Z := V4L2_CID_IMAGE_PROC_CLASS_BASE + 1.
Definition V4L2_CID_PIXEL_RATE : Z := V4L2_CID_IMAGE_PROC_CLASS_BASE + 2.
Definition V4L2_CID_TEST_PATTERN : Z := V4L2_CID_IMAGE_PROC_CLASS_BASE + 3.
Definition V4L2_CID_IMX290_CG_SWITCH : Z := V4L2_CID_USER_BASE .| 0x1000.

Definition MEDIA_BUS_FMT_SRGGB10_1X10 : Z := 0x300f.
Definition MEDIA_BUS_FMT_SRGGB12_1X12 : Z := 0x3012.

Definition V4L2_SUBDEV_FORMAT_TRY : Z := 0.
Definition V4L2_SUBDEV_FORMAT_ACTIVE : Z := 1.
Definition V4L2_FIELD_NONE : Z := 1.
Definition V4L2_COLORSPACE_SRGB : Z := 8.

Definition EIO : positive := 5.
Definition EINVAL : positive := 22.

(** ** Data model (lines 58-139) *)

Inductive imx290_fps := FPS_25 | FPS_30 | FPS_50 | FPS_60.
Inductive imx290_inck := INCK_37 | INCK_74.
Inductive imx290_type := IMX290_TYPE_290 | IMX290_TYPE_327.

(** [struct imx290_regval]: [reg] is a u16, [val] and [cond] are u8.  An
    initialiser that leaves [cond] out gives it the value 0. *)
Record imx290_regval := rv { reg : Z; val : Z; cond : Z }.

(** [struct imx290_mode]; [data_size] is the length of [data]. *)
Record imx290_mode := {
  width : Z;
  height : Z;
  link_freq_index : Z;
  data : list imx290_regval
}.

Record imx290_pixfmt := { code : Z; pix_bpp : Z }.

Record v4l2_fract := { numerator : Z; denominator : Z }.

Record v4l2_mbus_framefmt := {
  fmt_width : Z;
  fmt_height : Z;
  fmt_code : Z;
  fmt_field : Z;
  fmt_colorspace : Z
}.

Record v4l2_subdev_format := {
  which : Z;
  pad : Z;
  format : v4l2_mbus_framefmt
}.

(** The fields of [struct v4l2_ctrl] the driver reads: [id] (u32), [val]
    (s32) and [maximum] (s64). *)
Record v4l2_ctrl := { id : Z; ctrl_val : Z; maximum : Z }.

(** *** The register bus

    [regmap_write] is the only bus primitive the modelled functions use.
    It returns 0 or a negative errno.  The bus is driven by a script of
    outcomes, one per write attempt in order (an exhausted script means
    success), and it records every attempt with the code it returned,
    interleaved with the sleeps of the driver. *)

Inductive bus_outcome := BusOk | BusError (errno : positive).

Definition outcome_code (o : bus_outcome) : Z :=
  match o with
  | BusOk => 0
  | BusError e => Z.neg e
  end.

Inductive event :=
| EvWrite (addr value ret : Z)
| EvSleep (us_min us_max : Z).

Record regmap_t := { faults : list bus_outcome; trace : list event }.

(** Power state of the device as runtime PM sees it. *)
Inductive power_state := OFF | POWERED_IDLE | STREAMING.

(** [struct imx290].  [link_freq] and [pixel_rate] are the two control
    pointers: [None] is NULL, [Some v] a control currently holding [v]. *)
Record imx290 := {
  dev : power_state;
  regmap : regmap_t;
  nlanes : Z;
  bpp : Z;
  fps : imx290_fps;
  inck : imx290_inck;
  type : imx290_type;
  current_format : v4l2_mbus_framefmt;
  current_mode : option imx290_mode;
  link_freq : option Z;
  pixel_rate : option Z;
  reg_3007 : Z;
  vmax : Z
}.

Definition set_regmap (s : imx290) (m : regmap_t) : imx290 :=
  {| dev := dev s; regmap := m; nlanes := nlanes s; bpp := bpp s;
     fps := fps s; inck := inck s; type := type s;
     current_format := current_format s; current_mode := current_mode s;
     link_freq := link_freq s; pixel_rate := pixel_rate s;
     reg_3007 := reg_3007 s; vmax := vmax s |}.

Definition set_reg_3007 (s : imx290) (v : Z) : imx290 :=
  {| dev := dev s; regmap := regmap s; nlanes := nlanes s; bpp := bpp s;
     fps := fps s; inck := inck s; type := type s;
     current_format := current_format s; current_mode := current_mode s;
     link_freq := link_freq s; pixel_rate := pixel_rate s;
     reg_3007 := v; vmax := vmax s |}.

Definition set_vmax (s : imx290) (v : Z) : imx290 :=
  {| dev := dev s; regmap := regmap s; nlanes := nlanes s; bpp := bpp s;
     fps := fps s; inck := inck s; type := type s;
     current_format := current_format s; current_mode := current_mode s;
     link_freq := link_freq s; pixel_rate := pixel_rate s;
     reg_3007 := reg_3007 s; vmax := v |}.

Definition set_fps (s : imx290) (f : imx290_fps) : imx290 :=
  {| dev := dev s; regmap := regmap s; nlanes := nlanes s; bpp := bpp s;
     fps := f; inck := inck s; type := type s;
     current_format := current_format s; current_mode := current_mode s;
     link_freq := link_freq s; pixel_rate := pixel_rate s;
     reg_3007 := reg_3007 s; vmax := vmax s |}.

Definition set_current_format (s : imx290) (f : v4l2_mbus_framefmt) : imx290 :=
  {| dev := dev s; regmap := regmap s; nlanes := nlanes s; bpp := bpp s;
     fps := fps s; inck := inck s; type := type s;
     current_format := f; current_mode := current_mode s;
     link_freq := link_freq s; pixel_rate := pixel_rate s;
     reg_3007 := reg_3007 s; vmax := vmax s |}.

Definition set_mode_bpp (s : imx290) (m : imx290_mode) (b : Z) : imx290 :=
  {| dev := dev s; regmap := regmap s; nlanes := nlanes s; bpp := b;
     fps := fps s; inck := inck s; type := type s;
     current_format := current_format s; current_mode := Some m;
     link_freq := link_freq s; pixel_rate := pixel_rate s;
     reg_3007 := reg_3007 s; vmax := vmax s |}.

Definition set_link_freq (s : imx290) (v : option Z) : imx290 :=
  {| dev := dev s; regmap := regmap s; nlanes := nlanes s; bpp := bpp s;
     fps := fps s; inck := inck s; type := type s;
     current_format := current_format s; current_mode := current_mode s;
     link_freq := v; pixel_rate := pixel_rate s;
     reg_3007 := reg_3007 s; vmax := vmax s |}.

Definition set_pixel_rate (s : imx290) (v : option Z) : imx290 :=
  {| dev := dev s; regmap := regmap s; nlanes := nlanes s; bpp := bpp s;
     fps := fps s; inck := inck s; type := type s;
     current_format := current_format s; current_mode := current_mode s;
     link_freq := link_freq s; pixel_rate := v;
     reg_3007 := reg_3007 s; vmax := vmax s |}.

(** *** Static tables (lines 136-139, 158-431, 525-609, 999-1004) *)

Definition imx290_formats : list imx290_pixfmt :=
  [ {| code := MEDIA_BUS_FMT_SRGGB10_1X10; pix_bpp := 10 |};
    {| code := MEDIA_BUS_FMT_SRGGB12_1X12; pix_bpp := 12 |} ].

Definition imx290_global_init_settings : list imx290_regval :=
  [ rv 0x3009 0x01 COND_50_60_FPS; rv 0x3009 0x02 COND_25_30_FPS;
    rv 0x3405 0x10 (COND_25_30_FPS .| COND_2_LANES);
    rv 0x3405 0x00 (COND_50_60_FPS .| COND_2_LANES);
    rv 0x3405 0x20 (COND_25_30_FPS .| COND_4_LANES);
    rv 0x3405 0x10 (COND_50_60_FPS .| COND_4_LANES); rv 0x3040 0x00 0;
    rv 0x3041 0x00 0; rv 0x303c 0x00 0; rv 0x303d 0x00 0; rv 0x3042 0x9c 0;
    rv 0x3043 0x07 0; rv 0x303e 0x49 0; rv 0x303f 0x04 0; rv 0x304b 0x0a 0 ].

Definition imx290_1080p_settings : list imx290_regval :=
  [ rv 0x3007 0x00 0; rv 0x301c 0xa0 COND_25_FPS; rv 0x301d 0x14 COND_25_FPS;
    rv 0x301c 0x30 COND_30_FPS; rv 0x301d 0x11 COND_30_FPS;
    rv 0x301c 0x50 COND_50_FPS; rv 0x301d 0x0a COND_50_FPS;
    rv 0x301c 0x98 COND_60_FPS; rv 0x301d 0x08 COND_60_FPS; rv 0x3018 0x65 0;
    rv 0x3019 0x04 0; rv 0x301a 0x00 0; rv 0x303a 0x0c 0; rv 0x3414 0x0a 0;
    rv 0x3472 0x80 0; rv 0x3473 0x07 0; rv 0x3418 0x38 0; rv 0x3419 0x04 0;
    rv 0x3012 0x64 0; rv 0x3013 0x00 0; rv 0x305c 0x18 COND_INCK_37;
    rv 0x305d 0x03 COND_INCK_37; rv 0x305e 0x20 COND_INCK_37;
    rv 0x305f 0x01 COND_INCK_37; rv 0x315e 0x1a COND_INCK_37;
    rv 0x3164 0x1a COND_INCK_37; rv 0x3444 0x20 COND_INCK_37;
    rv 0x3445 0x25 COND_INCK_37; rv 0x3480 0x49 COND_INCK_37;
    rv 0x305c 0x0c COND_INCK_74; rv 0x305d 0x03 COND_INCK_74;
    rv 0x305e 0x10 COND_INCK_74; rv 0x305f 0x01 COND_INCK_74;
    rv 0x315e 0x1b COND_INCK_74; rv 0x3164 0x1b COND_INCK_74;
    rv 0x3444 0x40 COND_INCK_74; rv 0x3445 0x4a COND_INCK_74;
    rv 0x3480 0x92 COND_INCK_74;
    rv 0x3446 0x57 (COND_25_30_FPS .| COND_2_LANES);
    rv 0x3447 0x00 (COND_25_30_FPS .| COND_2_LANES);
    rv 0x3448 0x37 (COND_25_30_FPS .| COND_2_LANES);
    rv 0x3449 0x00 (COND_25_30_FPS .| COND_2_LANES);
    rv 0x344a 0x1f (COND_25_30_FPS .| COND_2_LANES);
    rv 0x344b 0x00 (COND_25_30_FPS .| COND_2_LANES);
    rv 0x344c 0x1f (COND_25_30_FPS .| COND_2_LANES);
    rv 0x344d 0x00 (COND_25_30_FPS .| COND_2_LANES);
    rv 0x344e 0x1f (COND_25_30_FPS .| COND_2_LANES);
    rv 0x344f 0x00 (COND_25_30_FPS .| COND_2_LANES);
    rv 0x3450 0x77 (COND_25_30_FPS .| COND_2_LANES);
    rv 0x3451 0x00 (COND_25_30_FPS .| COND_2_LANES);
    rv 0x3452 0x1f (COND_25_30_FPS .| COND_2_LANES);
    rv 0x3453 0x00 (COND_25_30_FPS .| COND_2_LANES);
    rv 0x3454 0x17 (COND_25_30_FPS .| COND_2_LANES);
    rv 0x3455 0x00 (COND_25_30_FPS .| COND_2_LANES);
    rv 0x3446 0x77 (COND_50_60_FPS .| COND_2_LANES);
    rv 0x3447 0x00 (COND_50_60_FPS .| COND_2_LANES);
    rv 0x3448 0x67 (COND_50_60_FPS .| COND_2_LANES);
    rv 0x3449 0x00 (COND_50_60_FPS .| COND_2_LANES);
    rv 0x344a 0x47 (COND_50_60_FPS .| COND_2_LANES);
    rv 0x344b 0x00 (COND_50_60_FPS .| COND_2_LANES);
    rv 0x344c 0x37 (COND_50_60_FPS .| COND_2_LANES);
    rv 0x344d 0x00 (COND_50_60_FPS .| COND_2_LANES);
    rv 0x344e 0x3f (COND_50_60_FPS .| COND_2_LANES);
    rv 0x344f 0x00 (COND_50_60_FPS .| COND_2_LANES);
    rv 0x3450 0xff (COND_50_60_FPS .| COND_2_LANES);
    rv 0x3451 0x00 (COND_50_60_FPS .| COND_2_LANES);
    rv 0x3452 0x3f (COND_50_60_FPS .| COND_2_LANES);
    rv 0x3453 0x00 (COND_50_60_FPS .| COND_2_LANES);
    rv 0x3454 0x37 (COND_50_60_FPS .| COND_2_LANES);
    rv 0x3455 0x00 (COND_50_60_FPS .| COND_2_LANES);
    rv 0x3446 0x47 (COND_25_30_FPS .| COND_4_LANES);
    rv 0x3447 0x00 (COND_25_30_FPS .| COND_4_LANES);
    rv 0x3448 0x1f (COND_25_30_FPS .| COND_4_LANES);
    rv 0x3449 0x00 (COND_25_30_FPS .| COND_4_LANES);
    rv 0x344a 0x17 (COND_25_30_FPS .| COND_4_LANES);
    rv 0x344b 0x00 (COND_25_30_FPS .| COND_4_LANES);
    rv 0x344c 0x0f (COND_25_30_FPS .| COND_4_LANES);
    rv 0x344d 0x00 (COND_25_30_FPS .| COND_4_LANES);
    rv 0x344e 0x17 (COND_25_30_FPS .| COND_4_LANES);
    rv 0x344f 0x00 (COND_25_30_FPS .| COND_4_LANES);
    rv 0x3450 0x47 (COND_25_30_FPS .| COND_4_LANES);
    rv 0x3451 0x00 (COND_25_30_FPS .| COND_4_LANES);
    rv 0x3452 0x0f (COND_25_30_FPS .| COND_4_LANES);
    rv 0x3453 0x00 (COND_25_30_FPS .| COND_4_LANES);
    rv 0x3454 0x0f (COND_25_30_FPS .| COND_4_LANES);
    rv 0x3455 0x00 (COND_25_30_FPS .| COND_4_LANES);
    rv 0x3446 0x57 (COND_50_60_FPS .| COND_4_LANES);
    rv 0x3447 0x00 (COND_50_60_FPS .| COND_4_LANES);
    rv 0x3448 0x37 (COND_50_60_FPS .| COND_4_LANES);
    rv 0x3449 0x00 (COND_50_60_FPS .| COND_4_LANES);
    rv 0x344a 0x1f (COND_50_60_FPS .| COND_4_LANES);
    rv 0x344b 0x00 (COND_50_60_FPS .| COND_4_LANES);
    rv 0x344c 0x1f (COND_50_60_FPS .| COND_4_LANES);
    rv 0x344d 0x00 (COND_50_60_FPS .| COND_4_LANES);
    rv 0x344e 0x1f (COND_50_60_FPS .| COND_4_LANES);
    rv 0x344f 0x00 (COND_50_60_FPS .| COND_4_LANES);
    rv 0x3450 0x77 (COND_50_60_FPS .| COND_4_LANES);
    rv 0x3451 0x00 (COND_50_60_FPS .| COND_4_LANES);
    rv 0x3452 0x1f (COND_50_60_FPS .| COND_4_LANES);
    rv 0x3453 0x00 (COND_50_60_FPS .| COND_4_LANES);
    rv 0x3454 0x17 (COND_50_60_FPS .| COND_4_LANES);
    rv 0x3455 0x00 (COND_50_60_FPS .| COND_4_LANES) ].

Definition imx290_720p_settings : list imx290_regval :=
  [ rv 0x3007 0x10 0; rv 0x301c 0xf0 COND_25_FPS; rv 0x301d 0x1e COND_25_FPS;
    rv 0x301c 0xc8 COND_30_FPS; rv 0x301d 0x19 COND_30_FPS;
    rv 0x301c 0x78 COND_50_FPS; rv 0x301d 0x0f COND_50_FPS;
    rv 0x301c 0xe4 COND_60_FPS; rv 0x301d 0x0c COND_60_FPS; rv 0x3018 0xee 0;
    rv 0x3019 0x02 0; rv 0x301a 0x00 0; rv 0x303a 0x06 0; rv 0x3414 0x04 0;
    rv 0x3472 0x00 0; rv 0x3473 0x05 0; rv 0x3418 0xd0 0; rv 0x3419 0x02 0;
    rv 0x3012 0x64 0; rv 0x3013 0x00 0; rv 0x305c 0x20 COND_INCK_37;
    rv 0x305d 0x00 COND_INCK_37; rv 0x305e 0x20 COND_INCK_37;
    rv 0x305f 0x01 COND_INCK_37; rv 0x315e 0x1a COND_INCK_37;
    rv 0x3164 0x1a COND_INCK_37; rv 0x3444 0x20 COND_INCK_37;
    rv 0x3445 0x25 COND_INCK_37; rv 0x3480 0x49 COND_INCK_37;
    rv 0x305c 0x10 COND_INCK_74; rv 0x305d 0x00 COND_INCK_74;
    rv 0x305e 0x10 COND_INCK_74; rv 0x305f 0x01 COND_INCK_74;
    rv 0x315e 0x1b COND_INCK_74; rv 0x3164 0x1b COND_INCK_74;
    rv 0x3444 0x40 COND_INCK_74; rv 0x3445 0x4a COND_INCK_74;
    rv 0x3480 0x92 COND_INCK_74;
    rv 0x3446 0x4f (COND_25_30_FPS .| COND_2_LANES);
    rv 0x3447 0x00 (COND_25_30_FPS .| COND_2_LANES);
    rv 0x3448 0x2f (COND_25_30_FPS .| COND_2_LANES);
    rv 0x3449 0x00 (COND_25_30_FPS .| COND_2_LANES);
    rv 0x344a 0x17 (COND_25_30_FPS .| COND_2_LANES);
    rv 0x344b 0x00 (COND_25_30_FPS .| COND_2_LANES);
    rv 0x344c 0x17 (COND_25_30_FPS .| COND_2_LANES);
    rv 0x344d 0x00 (COND_25_30_FPS .| COND_2_LANES);
    rv 0x344e 0x17 (COND_25_30_FPS .| COND_2_LANES);
    rv 0x344f 0x00 (COND_25_30_FPS .| COND_2_LANES);
    rv 0x3450 0x57 (COND_25_30_FPS .| COND_2_LANES);
    rv 0x3451 0x00 (COND_25_30_FPS .| COND_2_LANES);
    rv 0x3452 0x17 (COND_25_30_FPS .| COND_2_LANES);
    rv 0x3453 0x00 (COND_25_30_FPS .| COND_2_LANES);
    rv 0x3454 0x17 (COND_25_30_FPS .| COND_2_LANES);
    rv 0x3455 0x00 (COND_25_30_FPS .| COND_2_LANES);
    rv 0x3446 0x67 (COND_50_60_FPS .| COND_2_LANES);
    rv 0x3447 0x00 (COND_50_60_FPS .| COND_2_LANES);
    rv 0x3448 0x57 (COND_50_60_FPS .| COND_2_LANES);
    rv 0x3449 0x00 (COND_50_60_FPS .| COND_2_LANES);
    rv 0x344a 0x2f (COND_50_60_FPS .| COND_2_LANES);
    rv 0x344b 0x00 (COND_50_60_FPS .| COND_2_LANES);
    rv 0x344c 0x27 (COND_50_60_FPS .| COND_2_LANES);
    rv 0x344d 0x00 (COND_50_60_FPS .| COND_2_LANES);
    rv 0x344e 0x2f (COND_50_60_FPS .| COND_2_LANES);
    rv 0x344f 0x00 (COND_50_60_FPS .| COND_2_LANES);
    rv 0x3450 0xbf (COND_50_60_FPS .| COND_2_LANES);
    rv 0x3451 0x00 (COND_50_60_FPS .| COND_2_LANES);
    rv 0x3452 0x2f (COND_50_60_FPS .| COND_2_LANES);
    rv 0x3453 0x00 (COND_50_60_FPS .| COND_2_LANES);
    rv 0x3454 0x27 (COND_50_60_FPS .| COND_2_LANES);
    rv 0x3455 0x00 (COND_50_60_FPS .| COND_2_LANES);
    rv 0x3446 0x47 (COND_25_30_FPS .| COND_4_LANES);
    rv 0x3447 0x00 (COND_25_30_FPS .| COND_4_LANES);
    rv 0x3448 0x17 (COND_25_30_FPS .| COND_4_LANES);
    rv 0x3449 0x00 (COND_25_30_FPS .| COND_4_LANES);
    rv 0x344a 0x0f (COND_25_30_FPS .| COND_4_LANES);
    rv 0x344b 0x00 (COND_25_30_FPS .| COND_4_LANES);
    rv 0x344c 0x0f (COND_25_30_FPS .| COND_4_LANES);
    rv 0x344d 0x00 (COND_25_30_FPS .| COND_4_LANES);
    rv 0x344e 0x0f (COND_25_30_FPS .| COND_4_LANES);
    rv 0x344f 0x00 (COND_25_30_FPS .| COND_4_LANES);
    rv 0x3450 0x2b (COND_25_30_FPS .| COND_4_LANES);
    rv 0x3451 0x00 (COND_25_30_FPS .| COND_4_LANES);
    rv 0x3452 0x0b (COND_25_30_FPS .| COND_4_LANES);
    rv 0x3453 0x00 (COND_25_30_FPS .| COND_4_LANES);
    rv 0x3454 0x0f (COND_25_30_FPS .| COND_4_LANES);
    rv 0x3455 0x00 (COND_25_30_FPS .| COND_4_LANES);
    rv 0x3446 0x4f (COND_50_60_FPS .| COND_4_LANES);
    rv 0x3447 0x00 (COND_50_60_FPS .| COND_4_LANES);
    rv 0x3448 0x2f (COND_50_60_FPS .| COND_4_LANES);
    rv 0x3449 0x00 (COND_50_60_FPS .| COND_4_LANES);
    rv 0x344a 0x17 (COND_50_60_FPS .| COND_4_LANES);
    rv 0x344b 0x00 (COND_50_60_FPS .| COND_4_LANES);
    rv 0x344c 0x17 (COND_50_60_FPS .| COND_4_LANES);
    rv 0x344d 0x00 (COND_50_60_FPS .| COND_4_LANES);
    rv 0x344e 0x17 (COND_50_60_FPS .| COND_4_LANES);
    rv 0x344f 0x00 (COND_50_60_FPS .| COND_4_LANES);
    rv 0x3450 0x57 (COND_50_60_FPS .| COND_4_LANES);
    rv 0x3451 0x00 (COND_50_60_FPS .| COND_4_LANES);
    rv 0x3452 0x17 (COND_50_60_FPS .| COND_4_LANES);
    rv 0x3453 0x00 (COND_50_60_FPS .| COND_4_LANES);
    rv 0x3454 0x17 (COND_50_60_FPS .| COND_4_LANES);
    rv 0x3455 0x00 (COND_50_60_FPS .| COND_4_LANES) ].

Definition FREQ_INDEX_1080P : Z := 0.
Definition FREQ_INDEX_720P : Z := 1.

Definition imx290_link_freq_2lanes_37mhz : list Z := [445500000; 297000000].
Definition imx290_link_freq_4lanes_37mhz : list Z := [222750000; 148500000].
Definition imx290_link_freq_2lanes_74mhz : list Z := [891000000; 594000000].
Definition imx290_link_freq_4lanes_74mhz : list Z := [445500000; 297000000].

Definition imx290_modes_2lanes : list imx290_mode :=
  [ {| width := 1920; height := 1080; link_freq_index := FREQ_INDEX_1080P;
       data := imx290_1080p_settings |};
    {| width := 1280; height := 720; link_freq_index := FREQ_INDEX_720P;
       data := imx290_720p_settings |} ].

Definition imx290_modes_4lanes : list imx290_mode :=
  [ {| width := 1920; height := 1080; link_freq_index := FREQ_INDEX_1080P;
       data := imx290_1080p_settings |};
    {| width := 1280; height := 720; link_freq_index := FREQ_INDEX_720P;
       data := imx290_720p_settings |} ].

(** Indexed by [enum imx290_fps]; the source notes that the list must be
    ordered. *)
Definition imx290_intervals : list v4l2_fract :=
  [ {| numerator := 1; denominator := 25 |};
    {| numerator := 1; denominator := 30 |};
    {| numerator := 1; denominator := 50 |};
    {| numerator := 1; denominator := 60 |} ].

Definition imx290_fps_index (f : imx290_fps) : nat :=
  match f with
  | FPS_25 => 0%nat
  | FPS_30 => 1%nat
  | FPS_50 => 2%nat
  | FPS_60 => 3%nat
  end.

Definition imx290_fps_of_index (i : nat) : option imx290_fps :=
  match i with
  | 0%nat => Some FPS_25
  | 1%nat => Some FPS_30
  | 2%nat => Some FPS_50
  | 3%nat => Some FPS_60
  | _ => None
  end.

(** ** The driver monad *)

Definition drv (A : Type) : Type := imx290 -> option (A * imx290).

Definition Ret {A : Type} (a : A) : drv A := fun s => Some (a, s).

Definition Bind {A B : Type} (c : drv A) (k : A -> drv B) : drv B :=
  fun s =>
    match c s with
    | Some (a, s') => k a s'
    | None => None
    end.

(** The C code has no defined behaviour here. *)
Definition Undefined {A : Type} : drv A := fun _ => None.

Definition Get : drv imx290 := fun s => Some (s, s).

Definition Modify (f : imx290 -> imx290) : drv unit := fun s => Some (tt, f s).

Definition Lift {A : Type} (o : option A) : drv A :=
  match o with
  | Some a => Ret a
  | None => Undefined
  end.

Notation "x <- c ;; k" := (Bind c (fun x => k))
  (at level 61, c at next level, right associativity).
Notation "c ;;; k" := (Bind c (fun _ => k))
  (at level 61, right associativity).

(** ** External collaborators *)

(** Modelled from the spec: the Bus Adapter [write(addr, byte) -> () | Error]
    ([regmap_write] of the kernel's regmap layer, not part of the driver
    file).  The next outcome of the script decides the result; the attempt
    is recorded whether it succeeds or not. *)
Definition regmap_write (addr value : Z) : drv Z :=
  fun s =>
    let m := regmap s in
    let r := match faults m with
             | [] => 0
             | o :: _ => outcome_code o
             end in
    Some (r, set_regmap s {| faults := tl (faults m);
                             trace := trace m ++ [EvWrite addr value r] |}).

(** Modelled from the spec: a fixed settle delay ([usleep_range] of the
    kernel); it only shows in the trace. *)
Definition usleep_range (us_min us_max : Z) : drv unit :=
  Modify (fun s =>
    set_regmap s {| faults := faults (regmap s);
                    trace := trace (regmap s) ++ [EvSleep us_min us_max] |}).

(** Modelled from the spec: controls operate only while the device is
    POWERED ([pm_runtime_get_if_in_use] of the kernel's runtime PM).  The
    result is 0 when the device is off and 1 when it is in use; the usage
    count taken here is given back by [pm_runtime_put]. *)
Definition pm_runtime_get_if_in_use : drv Z :=
  s <- Get ;;
  match dev s with
  | OFF => Ret 0
  | POWERED_IDLE | STREAMING => Ret 1
  end.

(** Modelled from the spec: gives back the usage count taken by
    [pm_runtime_get_if_in_use]; the power state seen by the driver does not
    change. *)
Definition pm_runtime_put : drv unit := Ret tt.

(** Modelled from the spec: "nearest" mode selection
    ([v4l2_find_nearest_size] of v4l2-common, not part of the driver file):
    the catalog entry with the smallest axis distance to the request, an
    exact match being distance 0; among equally near entries the later one
    is kept.  NULL ([None]) on an empty catalog. *)
Definition size_error (m : imx290_mode) (w h : Z) : Z :=
  Z.abs (width m - w) + Z.abs (height m - h).

Fixpoint find_nearest_from (l : list imx290_mode) (w h : Z)
  (best : option imx290_mode) : option imx290_mode :=
  match l with
  | [] => best
  | m :: l' =>
      match best with
      | Some b =>
          if size_error b w h <? size_error m w h
          then find_nearest_from l' w h best
          else find_nearest_from l' w h (Some m)
      | None => find_nearest_from l' w h (Some m)
      end
  end.

Definition v4l2_find_nearest_size (l : list imx290_mode) (w h : Z)
  : option imx290_mode :=
  find_nearest_from l w h None.

(** Modelled from the spec: integer division with floor semantics on an
    unsigned 64-bit dividend ([do_div] of asm/div64.h); the divisor is a
    u32 and must not be 0. *)
Definition do_div (n base : Z) : option Z :=
  if to_u32 base =? 0 then None else Some (n / to_u32 base).

(** Modelled from the spec: derived values are "pushed to a read-only
    control value" ([__v4l2_ctrl_s_ctrl] and [__v4l2_ctrl_s_ctrl_int64] of
    the control framework).  The control then holds the value; the driver
    ignores the result of the call. *)
Definition v4l2_ctrl_s_ctrl_link_freq (v : Z) : drv unit :=
  Modify (fun s => set_link_freq s (Some v)).

Definition v4l2_ctrl_s_ctrl_pixel_rate (v : Z) : drv unit :=
  Modify (fun s => set_pixel_rate s (Some v)).

(** ** Catalog accessors (lines 550-625) *)

Definition imx290_link_freqs_ptr (imx290 : imx290) : list Z :=
  match nlanes imx290 =? 4, inck imx290 with
  | false, INCK_37 => imx290_link_freq_2lanes_37mhz
  | false, INCK_74 => imx290_link_freq_2lanes_74mhz
  | true, INCK_37 => imx290_link_freq_4lanes_37mhz
  | true, INCK_74 => imx290_link_freq_4lanes_74mhz
  end.

Definition imx290_modes_ptr (imx290 : imx290) : list imx290_mode :=
  if nlanes imx290 =? 2 then imx290_modes_2lanes else imx290_modes_4lanes.

Definition imx290_modes_num (imx290 : imx290) : Z :=
  if nlanes imx290 =? 2
  then Z.of_nat (length imx290_modes_2lanes)
  else Z.of_nat (length imx290_modes_4lanes).

(** ** Condition evaluator and sequence applier (lines 648-736) *)

(** [dev_err] is the only thing the failure branch adds. *)
Definition imx290_write_reg (addr value : Z) : drv Z :=
  regmap_write addr value.

(** [fps] and [inck] are enumerations, so the [default:] arms of the first
    and third switch have no value to catch; [nlanes] is a u8 and keeps
    its [default:] arm. *)
Definition imx290_settings_match (imx290 : imx290) (cond : Z) : bool :=
  let reject := false in
  let reject :=
    if negb (cond .& COND_FPS_msk =? 0) then
      match fps imx290 with
      | FPS_25 => reject || (cond .& COND_25_FPS =? 0)
      | FPS_30 => reject || (cond .& COND_30_FPS =? 0)
      | FPS_50 => reject || (cond .& COND_50_FPS =? 0)
      | FPS_60 => reject || (cond .& COND_60_FPS =? 0)
      end
    else reject in
  let reject :=
    if negb (cond .& COND_LANES_msk =? 0) then
      if nlanes imx290 =? 2 then reject || (cond .& COND_2_LANES =? 0)
      else if nlanes imx290 =? 4 then reject || (cond .& COND_4_LANES =? 0)
      else reject || true
    else reject in
  let reject :=
    if negb (cond .& COND_INCK_msk =? 0) then
      match inck imx290 with
      | INCK_37 => reject || (cond .& COND_INCK_74 =? 0)
      | INCK_74 => reject || (cond .& COND_INCK_37 =? 0)
      end
    else reject in
  negb reject.

Fixpoint imx290_set_register_array (settings : list imx290_regval)
  : drv Z :=
  match settings with
  | [] =>
      (* Provide 10ms settle time *)
      usleep_range 10000 11000 ;;;
      Ret 0
  | s :: settings' =>
      imx290 <- Get ;;
      if negb (imx290_settings_match imx290 (cond s))
      then imx290_set_register_array settings'
      else
        ret <- imx290_write_reg (reg s) (val s) ;;
        if ret <? 0 then Ret ret
        else imx290_set_register_array settings'
  end.

(** ** Control plane (lines 738-953) *)

(** The loop of lines 750-758 from counter [i] on, with [n] rounds to go.
    [value] is a u32: shifting it by 32 bits or more has no defined
    behaviour. *)
Fixpoint write_buffered_loop (address_low value : Z) (i : Z) (n : nat)
  : drv Z :=
  match n with
  | O => Ret 0
  | S n' =>
      if 32 <=? i * 8 then Undefined
      else
        ret <- imx290_write_reg (to_u16 (address_low + i))
                                (to_u8 (Z.shiftr value (i * 8))) ;;
        if negb (ret =? 0) then Ret ret
        else write_buffered_loop address_low value (i + 1) n'
  end.

(** The parameters [nr_regs] and [value] are a u8 and a u32: the arguments
    are converted on entry. *)
Definition imx290_write_buffered_reg (address_low nr_regs value : Z)
  : drv Z :=
  let nr_regs := to_u8 nr_regs in
  let value := to_u32 value in
  ret <- imx290_write_reg IMX290_REGHOLD 0x01 ;;
  if negb (ret =? 0) then Ret ret
  else
    ret <- write_buffered_loop address_low value 0 (Z.to_nat nr_regs) ;;
    if negb (ret =? 0) then Ret ret
    else
      ret <- imx290_write_reg IMX290_REGHOLD 0x00 ;;
      Ret ret.

Definition imx290_set_gain (value : Z) : drv Z :=
  imx290_write_buffered_reg IMX290_GAIN 1 value.

(** The value [val] of lines 811-828, from [vmax] (unsigned int),
    [ctrl->val] (s32) and [ctrl->maximum] (s64, not 0).  The product is an
    unsigned int product; the division is carried out in s64, where it
    truncates. *)
Definition imx290_exposure_val (vmax ctrl_val ctrl_max : Z) : Z :=
  let val := to_u32 ctrl_val in
  let val := to_u32 (val * to_u32 (vmax - 2)) in
  let val := to_u32 (Z.quot val ctrl_max) in
  let val := if val =? 0 then 1 else val in
  to_u32 (to_u32 (vmax - 2) - val).

Definition imx290_exposure_regs (val : Z) : list imx290_regval :=
  [ rv 0x3001 0x01 0;
    rv 0x3020 (Z.shiftr val 0 .& 0xff) 0;
    rv 0x3021 (Z.shiftr val 8 .& 0xff) 0;
    rv 0x3022 (Z.shiftr val 16 .& 0x01) 0;
    rv 0x3001 0x00 0 ].

Definition imx290_set_exposure (ctrl : v4l2_ctrl) : drv Z :=
  imx290 <- Get ;;
  if vmax imx290 =? 0 then Ret 0
  else if maximum ctrl =? 0 then Undefined
  else
    let val := imx290_exposure_val (vmax imx290) (ctrl_val ctrl)
                                   (maximum ctrl) in
    imx290_set_register_array (imx290_exposure_regs val).

Definition imx290_flip_msk (ctrl : v4l2_ctrl) : Z :=
  if id ctrl =? V4L2_CID_HFLIP then BIT 1 else BIT 0.

(** The byte [r3007] of lines 851-855. *)
Definition imx290_flip_r3007 (reg_3007 : Z) (ctrl : v4l2_ctrl) : Z :=
  let msk := imx290_flip_msk ctrl in
  if negb (ctrl_val ctrl =? 0)
  then to_u8 (reg_3007 .| msk)
  else to_u8 (reg_3007 .& Z.lnot msk).

Definition imx290_flip_regs (r3007 : Z) : list imx290_regval :=
  [ rv 0x3001 0x01 0;
    rv 0x3007 r3007 0;
    rv 0x3001 0x00 0 ].

Definition imx290_set_flip (ctrl : v4l2_ctrl) : drv Z :=
  imx290 <- Get ;;
  let r3007 := imx290_flip_r3007 (reg_3007 imx290) ctrl in
  rc <- imx290_set_register_array (imx290_flip_regs r3007) ;;
  if rc <? 0 then Ret rc
  else
    Modify (fun s => set_reg_3007 s r3007) ;;;
    Ret 0.

Definition imx290_cg_switch_regs (v : Z) : list imx290_regval :=
  [ rv 0x3001 0x01 0;
    rv 0x3009 (0x01 .| v) COND_50_60_FPS;
    rv 0x3009 (0x02 .| v) COND_25_30_FPS;
    rv 0x3001 0x00 0 ].

Definition imx290_set_ctrl (ctrl : v4l2_ctrl) : drv Z :=
  (* V4L2 controls values will be applied only when power is already up *)
  in_use <- pm_runtime_get_if_in_use ;;
  if in_use =? 0 then Ret 0
  else
    ret <-
      (if id ctrl =? V4L2_CID_GAIN then
         imx290_set_gain (to_u32 (ctrl_val ctrl))
       else if id ctrl =? V4L2_CID_TEST_PATTERN then
         imx290 <- Get ;;
         (if negb (ctrl_val ctrl =? 0) then
            imx290_write_reg IMX290_BLKLEVEL_LOW 0x00 ;;;
            imx290_write_reg IMX290_BLKLEVEL_HIGH 0x00 ;;;
            usleep_range 10000 11000 ;;;
            imx290_write_reg IMX290_PGCTRL
              (to_u8 (IMX290_PGCTRL_REGEN .| IMX290_PGCTRL_THRU .|
                      IMX290_PGCTRL_MODE (ctrl_val ctrl))) ;;;
            Ret 0
          else
            imx290_write_reg IMX290_PGCTRL 0x00 ;;;
            usleep_range 10000 11000 ;;;
            (if bpp imx290 =? 10
             then imx290_write_reg IMX290_BLKLEVEL_LOW 0x3c
             else imx290_write_reg IMX290_BLKLEVEL_LOW 0xf0) ;;;
            imx290_write_reg IMX290_BLKLEVEL_HIGH 0x00 ;;;
            Ret 0)
       else if id ctrl =? V4L2_CID_EXPOSURE then
         imx290_set_exposure ctrl
       else if (id ctrl =? V4L2_CID_VFLIP) || (id ctrl =? V4L2_CID_HFLIP) then
         imx290_set_flip ctrl
       else if id ctrl =? V4L2_CID_IMX290_CG_SWITCH then
         let v := if ctrl_val ctrl =? 0 then 0 else BIT 4 in
         imx290_set_register_array (imx290_cg_switch_regs v)
       else if (id ctrl =? V4L2_CID_LINK_FREQ)
               || (id ctrl =? V4L2_CID_PIXEL_RATE) then
         (* read-only, index always valid *)
         Ret 0
       else Ret (Z.neg EINVAL)) ;;
    pm_runtime_put ;;;
    Ret ret.

(** ** Frame interval (lines 1035-1067) *)

(** The loop of lines 1055-1061; [i] is the index of the head of [rest]
    and [m] the current value of [match].  [a] and [b] are [unsigned
    long], and so are the two products. *)
Fixpoint frame_interval_loop (bits a b : Z) (rest : list v4l2_fract)
  (i m : nat) : nat :=
  match rest with
  | [] => m
  | iv :: rest' =>
      let m := i in
      if to_ulong bits (b * numerator iv) <=? to_ulong bits (a * denominator iv)
      then m
      else frame_interval_loop bits a b rest' (S i) m
  end.

Definition mipi_csis_g_frame_interval : drv (Z * v4l2_fract) :=
  imx290 <- Get ;;
  iv <- Lift (nth_error imx290_intervals (imx290_fps_index (fps imx290))) ;;
  Ret (0, iv).

(** [BITS_PER_LONG] is the width of [unsigned long] on the target.  The
    result pairs the return value with the interval written back to the
    caller. *)
Definition mipi_csis_s_frame_interval (BITS_PER_LONG : Z)
  (interval : v4l2_fract) : drv (Z * v4l2_fract) :=
  let a := to_ulong BITS_PER_LONG (numerator interval) in
  let b := to_ulong BITS_PER_LONG (denominator interval) in
  let m := frame_interval_loop BITS_PER_LONG a b imx290_intervals 0 0 in
  iv <- Lift (nth_error imx290_intervals m) ;;
  f <- Lift (imx290_fps_of_index m) ;;
  Modify (fun s => set_fps s f) ;;;
  Ret (0, iv).

(** ** Link frequency, pixel rate and format (lines 1127-1200) *)

Definition imx290_get_link_freq_index (imx290 : imx290) : option Z :=
  match current_mode imx290 with
  | Some mode => Some (link_freq_index mode)
  | None => None
  end.

Definition imx290_get_link_freq (imx290 : imx290) : option Z :=
  match imx290_get_link_freq_index imx290 with
  | Some index =>
      if index <? 0 then None
      else nth_error (imx290_link_freqs_ptr imx290) (Z.to_nat index)
  | None => None
  end.

Definition imx290_calc_pixel_rate (imx290 : imx290) : option Z :=
  match imx290_get_link_freq imx290 with
  | Some link_freq =>
      let nlanes := nlanes imx290 in
      (* pixel rate = link_freq * 2 * nr_of_lanes / bits_per_sample *)
      let pixel_rate := to_u64 (to_s64 (link_freq * 2 * nlanes)) in
      do_div pixel_rate (bpp imx290)
  | None => None
  end.

(** The search of lines 1169-1171: the index at which the loop stops. *)
Fixpoint find_format (code' : Z) (l : list imx290_pixfmt) (i : nat) : nat :=
  match l with
  | [] => i
  | f :: l' => if code f =? code' then i else find_format code' l' (S i)
  end.

(** Lines 1187-1189: the link-frequency control, when there is one,
    receives the index of the new mode. *)
Definition imx290_update_link_freq_ctrl : drv unit :=
  s <- Get ;;
  match link_freq s with
  | Some _ =>
      index <- Lift (imx290_get_link_freq_index s) ;;
      v4l2_ctrl_s_ctrl_link_freq index
  | None => Ret tt
  end.

(** Lines 1190-1192: the pixel-rate control, when there is one, receives
    the recomputed rate. *)
Definition imx290_update_pixel_rate_ctrl : drv unit :=
  s <- Get ;;
  match pixel_rate s with
  | Some _ =>
      rate <- Lift (imx290_calc_pixel_rate s) ;;
      v4l2_ctrl_s_ctrl_pixel_rate rate
  | None => Ret tt
  end.

(** [try_fmt] stands for the try format stored in the pad configuration
    [cfg]; the result carries the return value, the updated pad
    configuration and the format handed back in [fmt]. *)
Definition imx290_set_fmt (try_fmt : v4l2_mbus_framefmt)
  (fmt : v4l2_subdev_format)
  : drv (Z * v4l2_mbus_framefmt * v4l2_subdev_format) :=
  imx290 <- Get ;;
  mode <- Lift (v4l2_find_nearest_size (imx290_modes_ptr imx290)
                  (fmt_width (format fmt)) (fmt_height (format fmt))) ;;
  let i := find_format (fmt_code (format fmt)) imx290_formats 0 in
  let i := if (length imx290_formats <=? i)%nat then 0%nat else i in
  pixfmt <- Lift (nth_error imx290_formats i) ;;
  let format' :=
    {| fmt_width := width mode;
       fmt_height := height mode;
       fmt_code := code pixfmt;
       fmt_field := V4L2_FIELD_NONE;
       fmt_colorspace := V4L2_COLORSPACE_SRGB |} in
  let fmt' := {| which := which fmt; pad := pad fmt; format := format' |} in
  if which fmt =? V4L2_SUBDEV_FORMAT_TRY then
    Ret (0, format', fmt')
  else
    Modify (fun s => set_mode_bpp s mode (pix_bpp pixfmt)) ;;;
    imx290_update_link_freq_ctrl ;;;
    imx290_update_pixel_rate_ctrl ;;;
    Modify (fun s => set_current_format s format') ;;;
    Ret (0, try_fmt, fmt').

(** ** Reading the bus trace *)

(** The events of a table whose writes all succeeded. *)
Definition writes_ok (l : list imx290_regval) : list event :=
  map (fun s => EvWrite (reg s) (val s) 0) l.

(** The entries of a table that the condition evaluator lets through. *)
Definition selected (imx290 : imx290) (settings : list imx290_regval)
  : list imx290_regval :=
  filter (fun s => imx290_settings_match imx290 (cond s)) settings.

Definition is_write_to (addr : Z) (e : event) : bool :=
  match e with
  | EvWrite a _ _ => a =? addr
  | EvSleep _ _ => false
  end.

Definition count_writes (addr : Z) (l : list event) : nat :=
  length (filter (is_write_to addr) l).

Definition bus_ok (o : bus_outcome) : Prop := o = BusOk.

(** ** The state [imx290_probe] leaves behind (lines 1672-1760)

    Lane count and input clock come from the platform; the frame-rate
    class follows the clock, the format defaults to 1080p 10-bit, the flip
    cache and [vmax] are still zero.  [power] and [script] choose the
    power state and the behaviour of the bus. *)

Definition imx290_default_mode : imx290_mode :=
  {| width := 1920; height := 1080; link_freq_index := FREQ_INDEX_1080P;
     data := imx290_1080p_settings |}.

Definition imx290_probed (lanes : Z) (clk : imx290_inck)
  (power : power_state) (script : list bus_outcome) : imx290 :=
  let s :=
    {| dev := power;
       regmap := {| faults := script; trace := [] |};
       nlanes := lanes;
       bpp := 10;
       fps := match clk with INCK_37 => FPS_30 | INCK_74 => FPS_60 end;
       inck := clk;
       type := IMX290_TYPE_290;
       current_format :=
         {| fmt_width := 1920; fmt_height := 1080;
            fmt_code := MEDIA_BUS_FMT_SRGGB10_1X10;
            fmt_field := V4L2_FIELD_NONE;
            fmt_colorspace := V4L2_COLORSPACE_SRGB |};
       current_mode := Some imx290_default_mode;
       link_freq := Some 0;
       pixel_rate := None;
       reg_3007 := 0;
       vmax := 0 |} in
  set_pixel_rate s (imx290_calc_pixel_rate s).

(** ** The specification's wording, for comparison with the code *)

(** [round(n / d)] read as rounding to the nearest integer. *)
Definition spec_round_div (n d : Z) : Z := (2 * n + d) / (2 * d).

(** "raw = vmax - 2 - round((ctrl_value * (vmax-2)) / ctrl_max), clamped so
    the computed delta is never zero". *)
Definition spec_exposure_raw (vmax ctrl_val ctrl_max : Z) : Z :=
  let delta := spec_round_div (ctrl_val * (vmax - 2)) ctrl_max in
  let delta := if delta =? 0 then 1 else delta in
  vmax - 2 - delta.

Definition imx290_interval_of (f : imx290_fps) : v4l2_fract :=
  nth (imx290_fps_index f) imx290_intervals
      {| numerator := 0; denominator := 0 |}.

(** Frames per second of a class. *)
Definition imx290_fps_rate (f : imx290_fps) : Z :=
  denominator (imx290_interval_of f) / numerator (imx290_interval_of f).

(** The rate of class [f] is at least the rate [b / a] requested by the
    interval [a / b], compared by cross multiplication. *)
Definition class_rate_ge (req : v4l2_fract) (f : imx290_fps) : Prop :=
  denominator req * numerator (imx290_interval_of f)
  <= numerator req * denominator (imx290_interval_of f).

(** "the smallest class whose rate >= requested". *)
Definition spec_smallest_class_ge (req : v4l2_fract) (f : imx290_fps) : Prop :=
  class_rate_ge req f /\
  forall g, class_rate_ge req g -> imx290_fps_rate f <= imx290_fps_rate g.

(** ** Auxiliary notions used in the statements *)

(** What the evaluator computes on each axis: the frame-rate and lane axes
    test the bit of the configured value, the input-clock axis tests the
    bit of the other clock. *)
Definition fps_bit (f : imx290_fps) : Z :=
  match f with
  | FPS_25 => COND_25_FPS
  | FPS_30 => COND_30_FPS
  | FPS_50 => COND_50_FPS
  | FPS_60 => COND_60_FPS
  end.

Definition lanes_bit (n : Z) : Z :=
  if n =? 2 then COND_2_LANES else if n =? 4 then COND_4_LANES else 0.

Definition inck_bit_tested (c : imx290_inck) : Z :=
  match c with
  | INCK_37 => COND_INCK_74
  | INCK_74 => COND_INCK_37
  end.

Definition axis_ok (cond msk bit : Z) : bool :=
  (cond .& msk =? 0) || negb (cond .& bit =? 0).

(** The outcome of one table application, in full. Either every selected
    entry was written with success and the settle delay follows, or the
    selected entries split around the first failing write. *)
Definition applied (s : imx290) (settings : list imx290_regval)
  (ret : Z) (s' : imx290) : Prop :=
  exists m',
    s' = set_regmap s m' /\
    ((ret = 0 /\
      trace m' = trace (regmap s) ++ writes_ok (selected s settings)
                   ++ [EvSleep 10000 11000] /\
      faults m' = skipn (length (selected s settings)) (faults (regmap s)))
     \/
     (exists pre x post e,
        selected s settings = pre ++ x :: post /\
        ret = Z.neg e /\
        nth_error (faults (regmap s)) (length pre) = Some (BusError e) /\
        trace m' = trace (regmap s) ++ writes_ok pre
                     ++ [EvWrite (reg x) (val x) (Z.neg e)] /\
        faults m' = skipn (S (length pre)) (faults (regmap s)))).

(** * The rest of the driver

    The functions below complete the embedding: the remaining register
    tables, streaming start and stop, the power callbacks, the enumeration
    and get operations of the pad interface and the link-frequency check of
    probe. *)

(** ** Remaining register tables (lines 433-523) *)

Definition imx290_poweron_settings : list imx290_regval :=
  [ rv 0x3000 0x01 0; rv 0x3001 0x00 0; rv 0x3002 0x01 0;
    rv 0x3407 0x01 COND_2_LANES; rv 0x3407 0x03 COND_4_LANES;
    rv 0x3443 0x01 COND_2_LANES; rv 0x3443 0x03 COND_4_LANES ].

Definition imx290_model_290_settings : list imx290_regval :=
  [ rv 0x300f 0x00 0; rv 0x3010 0x21 0; rv 0x3012 0x64 0; rv 0x3016 0x09 0;
    rv 0x3070 0x02 0; rv 0x3071 0x11 0; rv 0x309b 0x10 0; rv 0x309c 0x22 0;
    rv 0x30a2 0x02 0; rv 0x30a6 0x20 0; rv 0x30a8 0x20 0; rv 0x30aa 0x20 0;
    rv 0x30ac 0x20 0; rv 0x30b0 0x43 0; rv 0x3119 0x9e 0; rv 0x311c 0x1e 0;
    rv 0x311e 0x08 0; rv 0x3128 0x05 0; rv 0x313d 0x83 0; rv 0x3150 0x03 0;
    rv 0x317e 0x00 0; rv 0x32b8 0x50 0; rv 0x32b9 0x10 0; rv 0x32ba 0x00 0;
    rv 0x32bb 0x04 0; rv 0x32c8 0x50 0; rv 0x32c9 0x10 0; rv 0x32ca 0x00 0;
    rv 0x32cb 0x04 0; rv 0x332c 0xd3 0; rv 0x332d 0x10 0; rv 0x332e 0x0d 0;
    rv 0x3358 0x06 0; rv 0x3359 0xe1 0; rv 0x335a 0x11 0; rv 0x3360 0x1e 0;
    rv 0x3361 0x61 0; rv 0x3362 0x10 0; rv 0x33b0 0x50 0; rv 0x33b2 0x1a 0;
    rv 0x33b3 0x04 0 ].

Definition imx290_model_327_settings : list imx290_regval :=
  [ rv 0x3011 0x0a 0; rv 0x309e 0x4a 0; rv 0x309f 0x4a 0; rv 0x3128 0x04 0;
    rv 0x313b 0x41 0 ].

Definition imx290_10bit_settings : list imx290_regval :=
  [ rv 0x3005 0x00 0; rv 0x3046 0x00 0; rv 0x3129 0x1d 0; rv 0x317c 0x12 0;
    rv 0x31ec 0x37 0; rv 0x3441 0x0a 0; rv 0x3442 0x0a 0; rv 0x300a 0x3c 0;
    rv 0x300b 0x00 0 ].

Definition imx290_12bit_settings : list imx290_regval :=
  [ rv 0x3005 0x01 0; rv 0x3046 0x01 0; rv 0x3129 0x00 0; rv 0x317c 0x00 0;
    rv 0x31ec 0x0e 0; rv 0x3441 0x0c 0; rv 0x3442 0x0c 0; rv 0x300a 0xf0 0;
    rv 0x300b 0x00 0 ].
(** ** Remaining framework types and constants *)

Definition V4L2_CAP_TIMEPERFRAME : Z := 0x1000.

(** [struct v4l2_subdev_mbus_code_enum]: the fields the driver uses. *)
Record v4l2_subdev_mbus_code_enum := { mce_index : Z; mce_code : Z }.

(** [struct v4l2_subdev_frame_size_enum]. *)
Record v4l2_subdev_frame_size_enum := {
  fse_index : Z;
  fse_code : Z;
  min_width : Z;
  max_width : Z;
  min_height : Z;
  max_height : Z
}.

(** [struct v4l2_subdev_frame_interval_enum]. *)
Record v4l2_subdev_frame_interval_enum := {
  fie_index : Z;
  fie_code : Z;
  fie_width : Z;
  fie_height : Z;
  fie_interval : v4l2_fract
}.

(** The capture part of [struct v4l2_streamparm]; the reserved words are
    zeroed by both parm operations and carry no information. *)
Record v4l2_captureparm := { capability : Z; timeperframe : v4l2_fract }.

(** The platform resources of the device: enable counts of the input
    clock and of the supply rails, and the level driven on the reset line
    (1 holds the sensor in reset).  The two scripted outcomes decide
    whether the next enable of the clock and of the rails succeeds. *)
Record platform := {
  xclk_enable_count : Z;
  supplies_enable_count : Z;
  rst_gpio : Z;
  xclk_outcome : bus_outcome;
  supplies_outcome : bus_outcome
}.

(** Modelled from the spec: "enable/disable clock" of the platform
    resource interface ([clk_prepare_enable], [clk_disable_unprepare]).  A
    failed enable leaves the count as it was. *)
Definition clk_prepare_enable (p : platform) : Z * platform :=
  match xclk_outcome p with
  | BusOk =>
      (0, {| xclk_enable_count := xclk_enable_count p + 1;
             supplies_enable_count := supplies_enable_count p;
             rst_gpio := rst_gpio p;
             xclk_outcome := xclk_outcome p;
             supplies_outcome := supplies_outcome p |})
  | BusError e => (Z.neg e, p)
  end.

Definition clk_disable_unprepare (p : platform) : platform :=
  {| xclk_enable_count := xclk_enable_count p - 1;
     supplies_enable_count := supplies_enable_count p;
     rst_gpio := rst_gpio p;
     xclk_outcome := xclk_outcome p;
     supplies_outcome := supplies_outcome p |}.

(** Modelled from the spec: "enable/disable a named set of voltage
    supplies" ([regulator_bulk_enable], [regulator_bulk_disable]).  A
    failed enable leaves no rail enabled by the call. *)
Definition regulator_bulk_enable (p : platform) : Z * platform :=
  match supplies_outcome p with
  | BusOk =>
      (0, {| xclk_enable_count := xclk_enable_count p;
             supplies_enable_count := supplies_enable_count p + 1;
             rst_gpio := rst_gpio p;
             xclk_outcome := xclk_outcome p;
             supplies_outcome := supplies_outcome p |})
  | BusError e => (Z.neg e, p)
  end.

Definition regulator_bulk_disable (p : platform) : platform :=
  {| xclk_enable_count := xclk_enable_count p;
     supplies_enable_count := supplies_enable_count p - 1;
     rst_gpio := rst_gpio p;
     xclk_outcome := xclk_outcome p;
     supplies_outcome := supplies_outcome p |}.

(** Modelled from the spec: "assert/deassert reset line"
    ([gpiod_set_value_cansleep] on the reset GPIO). *)
Definition gpiod_set_value_cansleep (p : platform) (value : Z) : platform :=
  {| xclk_enable_count := xclk_enable_count p;
     supplies_enable_count := supplies_enable_count p;
     rst_gpio := value;
     xclk_outcome := xclk_outcome p;
     supplies_outcome := supplies_outcome p |}.

(** Modelled from the spec: "wait a fixed settle window (30 ms nominal)"
    ([msleep] of the kernel); recorded in the trace in microseconds. *)
Definition msleep (msecs : Z) : drv unit :=
  usleep_range (msecs * 1000) (msecs * 1000).

(** Modelled from the spec: "replay all currently-held control values"
    ([v4l2_ctrl_handler_setup] of the control framework).  [ctrls] are the
    controls the handler replays, each with the value it holds; the set
    operation of the driver is called for one after the other and the
    first non-zero result ends the replay. *)
Fixpoint v4l2_ctrl_handler_setup (ctrls : list v4l2_ctrl) : drv Z :=
  match ctrls with
  | [] => Ret 0
  | ctrl :: ctrls' =>
      ret <- imx290_set_ctrl ctrl ;;
      if negb (ret =? 0) then Ret ret
      else v4l2_ctrl_handler_setup ctrls'
  end.

(** ** Catalog size (lines 563-574) *)

Definition imx290_link_freqs_num (imx290 : imx290) : Z :=
  match nlanes imx290 =? 4, inck imx290 with
  | false, INCK_37 => Z.of_nat (length imx290_link_freq_2lanes_37mhz)
  | false, INCK_74 => Z.of_nat (length imx290_link_freq_2lanes_74mhz)
  | true, INCK_37 => Z.of_nat (length imx290_link_freq_4lanes_37mhz)
  | true, INCK_74 => Z.of_nat (length imx290_link_freq_4lanes_74mhz)
  end.

(** ** Streaming (lines 779-807 and 1216-1305) *)

Definition imx290_stop_streaming : drv Z :=
  ret <- imx290_write_reg IMX290_STANDBY 0x01 ;;
  if ret <? 0 then Ret ret
  else
    msleep 30 ;;;
    imx290_write_reg IMX290_XMSTA 0x01.

Definition imx290_get_winmode (imx290 : imx290) : Z :=
  match current_mode imx290 with
  | None => 0
  | Some mode =>
      if height mode =? 1080 then Z.shiftl 0 4
      else if height mode =? 720 then Z.shiftl 1 4
      else 0
  end.

Definition imx290_write_current_format : drv Z :=
  imx290 <- Get ;;
  if fmt_code (current_format imx290) =? MEDIA_BUS_FMT_SRGGB10_1X10 then
    ret <- imx290_set_register_array imx290_10bit_settings ;;
    if ret <? 0 then Ret ret else Ret 0
  else if fmt_code (current_format imx290) =? MEDIA_BUS_FMT_SRGGB12_1X12 then
    ret <- imx290_set_register_array imx290_12bit_settings ;;
    if ret <? 0 then Ret ret else Ret 0
  else Ret (Z.neg EINVAL).

(** [ctrls] are the controls held by the handler of the device, which
    [v4l2_ctrl_handler_setup] replays. *)
Definition imx290_start_streaming (ctrls : list v4l2_ctrl) : drv Z :=
  (* Set init register settings *)
  ret <- imx290_set_register_array imx290_global_init_settings ;;
  if ret <? 0 then Ret ret
  else
    (* Apply the register values related to current frame format *)
    ret <- imx290_write_current_format ;;
    if ret <? 0 then Ret ret
    else
      (* Apply default values of current mode *)
      imx290 <- Get ;;
      mode <- Lift (current_mode imx290) ;;
      ret <- imx290_set_register_array (data mode) ;;
      if ret <? 0 then Ret ret
      else
        (* mask out WINMODE *)
        Modify (fun s =>
          set_reg_3007 s (to_u8 (reg_3007 s .& Z.lnot (Z.shiftl 7 4)))) ;;;
        Modify (fun s =>
          set_reg_3007 s (to_u8 (reg_3007 s .| imx290_get_winmode s))) ;;;
        Modify (fun s =>
          set_vmax s (if height mode =? 1080 then 1125 else 750)) ;;;
        (* Apply customized values from user *)
        ret <- v4l2_ctrl_handler_setup ctrls ;;
        if negb (ret =? 0) then Ret ret
        else
          ret <- imx290_write_reg IMX290_STANDBY 0x00 ;;
          if ret <? 0 then Ret ret
          else
            msleep 30 ;;;
            (* Start streaming *)
            imx290_write_reg IMX290_XMSTA 0x00.

(** ** Power callbacks (lines 1360-1425)

    The platform state is passed in and handed back beside the result. *)

Definition imx290_power_on (p : platform) : drv (Z * platform) :=
  let (ret, p) := clk_prepare_enable p in
  if negb (ret =? 0) then Ret (ret, p)
  else
    let (ret, p) := regulator_bulk_enable p in
    if negb (ret =? 0) then
      (* err_clk *)
      Ret (ret, clk_disable_unprepare p)
    else
      usleep_range 1 2 ;;;
      let p := gpiod_set_value_cansleep p 0 in
      usleep_range 30000 31000 ;;;
      let err_regulator :=
        clk_disable_unprepare
          (regulator_bulk_disable (gpiod_set_value_cansleep p 1)) in
      ret <- imx290_set_register_array imx290_poweron_settings ;;
      if ret <? 0 then Ret (ret, err_regulator)
      else
        imx290 <- Get ;;
        ret <- match type imx290 with
               | IMX290_TYPE_290 =>
                   imx290_set_register_array imx290_model_290_settings
               | IMX290_TYPE_327 =>
                   imx290_set_register_array imx290_model_327_settings
               end ;;
        if ret <? 0 then Ret (ret, err_regulator)
        else Ret (0, p).

Definition imx290_power_off (p : platform) : Z * platform :=
  let p := clk_disable_unprepare p in
  let p := gpiod_set_value_cansleep p 1 in
  let p := regulator_bulk_disable p in
  (0, p).

(** ** Pad operations: enumeration, get and parm (lines 959-1125, 1202-1214) *)

Definition imx290_enum_mbus_code (code' : v4l2_subdev_mbus_code_enum)
  : option (Z * v4l2_subdev_mbus_code_enum) :=
  if Z.of_nat (length imx290_formats) <=? mce_index code'
  then Some (Z.neg EINVAL, code')
  else
    match nth_error imx290_formats (Z.to_nat (mce_index code')) with
    | Some f =>
        Some (0, {| mce_index := mce_index code'; mce_code := code f |})
    | None => None
    end.

Definition imx290_enum_frame_size (imx290 : imx290)
  (fse : v4l2_subdev_frame_size_enum)
  : option (Z * v4l2_subdev_frame_size_enum) :=
  let imx290_modes := imx290_modes_ptr imx290 in
  match nth_error imx290_formats 0, nth_error imx290_formats 1 with
  | Some f0, Some f1 =>
      if negb (fse_code fse =? code f0) && negb (fse_code fse =? code f1)
      then Some (Z.neg EINVAL, fse)
      else if imx290_modes_num imx290 <=? fse_index fse
      then Some (Z.neg EINVAL, fse)
      else
        match nth_error imx290_modes (Z.to_nat (fse_index fse)) with
        | Some mode =>
            Some (0, {| fse_index := fse_index fse;
                        fse_code := fse_code fse;
                        min_width := width mode;
                        max_width := width mode;
                        min_height := height mode;
                        max_height := height mode |})
        | None => None
        end
  | _, _ => None
  end.

(** The loop of lines 1021-1030, from the last mode of the catalog to the
    first: whether one of them has the requested size. *)
Fixpoint frame_interval_size_loop (modes_from_last : list imx290_mode)
  (w h : Z) : bool :=
  match modes_from_last with
  | [] => false
  | mode :: rest =>
      if (width mode =? w) && (height mode =? h) then true
      else frame_interval_size_loop rest w h
  end.

Definition imx290_enum_frame_interval (imx290 : imx290)
  (fie : v4l2_subdev_frame_interval_enum)
  : option (Z * v4l2_subdev_frame_interval_enum) :=
  let imx290_modes := imx290_modes_ptr imx290 in
  if Z.of_nat (length imx290_intervals) <=? fie_index fie
  then Some (Z.neg EINVAL, fie)
  else if negb (fie_code fie =? MEDIA_BUS_FMT_SRGGB10_1X10)
          && negb (fie_code fie =? MEDIA_BUS_FMT_SRGGB12_1X12)
  then Some (Z.neg EINVAL, fie)
  else if frame_interval_size_loop
            (rev (firstn (Z.to_nat (imx290_modes_num imx290)) imx290_modes))
            (fie_width fie) (fie_height fie)
  then
    match nth_error imx290_intervals (Z.to_nat (fie_index fie)) with
    | Some iv =>
        Some (0, {| fie_index := fie_index fie;
                    fie_code := fie_code fie;
                    fie_width := fie_width fie;
                    fie_height := fie_height fie;
                    fie_interval := iv |})
    | None => None
    end
  else Some (Z.neg EINVAL, fie).

Definition imx290_g_parm (a : v4l2_captureparm) : drv (Z * v4l2_captureparm) :=
  r <- mipi_csis_g_frame_interval ;;
  let (rc, interval) := r in
  if rc <? 0 then Ret (rc, a)
  else Ret (0, {| capability := V4L2_CAP_TIMEPERFRAME;
                  timeperframe := interval |}).

Definition imx290_s_parm (BITS_PER_LONG : Z) (a : v4l2_captureparm)
  : drv (Z * v4l2_captureparm) :=
  r <- mipi_csis_s_frame_interval BITS_PER_LONG (timeperframe a) ;;
  let (rc, interval) := r in
  if rc <? 0 then Ret (rc, a)
  else Ret (0, {| capability := V4L2_CAP_TIMEPERFRAME;
                  timeperframe := interval |}).

(** [try_fmt] is the try format stored in the pad configuration; the
    result carries the return value and the format handed back. *)
Definition imx290_get_fmt (try_fmt : v4l2_mbus_framefmt)
  (fmt : v4l2_subdev_format) : drv (Z * v4l2_subdev_format) :=
  imx290 <- Get ;;
  let framefmt :=
    if which fmt =? V4L2_SUBDEV_FORMAT_TRY then try_fmt
    else current_format imx290 in
  Ret (0, {| which := which fmt; pad := pad fmt; format := framefmt |}).

(** [cfg] is the pad configuration, [None] for NULL; the result carries
    the return value and the pad configuration afterwards. *)
Definition imx290_entity_init_cfg (cfg : option v4l2_mbus_framefmt)
  : drv (Z * option v4l2_mbus_framefmt) :=
  let zero := {| fmt_width := 0; fmt_height := 0; fmt_code := 0;
                 fmt_field := 0; fmt_colorspace := 0 |} in
  let fmt :=
    {| which := match cfg with
                | Some _ => V4L2_SUBDEV_FORMAT_TRY
                | None => V4L2_SUBDEV_FORMAT_ACTIVE
                end;
       pad := 0;
       format := {| fmt_width := 1920; fmt_height := 1080; fmt_code := 0;
                    fmt_field := 0; fmt_colorspace := 0 |} |} in
  match cfg with
  | Some try_fmt =>
      r <- imx290_set_fmt try_fmt fmt ;;
      Ret (0, Some (snd (fst r)))
  | None =>
      imx290_set_fmt zero fmt ;;;
      Ret (0, None)
  end.

(** ** Link-frequency check of probe (lines 1597-1617) *)

(** The inner loop: whether [freq] occurs in the list of the endpoint. *)
Fixpoint link_freq_declared (freq : Z) (link_frequencies : list Z) : bool :=
  match link_frequencies with
  | [] => false
  | f :: rest => if freq =? f then true else link_freq_declared freq rest
  end.

Fixpoint check_link_freqs_loop (freqs : list Z) (link_frequencies : list Z)
  : Z :=
  match freqs with
  | [] => 0
  | freq :: rest =>
      if link_freq_declared freq link_frequencies
      then check_link_freqs_loop rest link_frequencies
      else freq
  end.

(** [link_frequencies] are the [nr_of_link_frequencies] entries of the
    endpoint. *)
Definition imx290_check_link_freqs (imx290 : imx290)
  (link_frequencies : list Z) : Z :=
  let freqs := imx290_link_freqs_ptr imx290 in
  let freqs_count := imx290_link_freqs_num imx290 in
  check_link_freqs_loop (firstn (Z.to_nat freqs_count) freqs)
                        link_frequencies.

(** ** Auxiliary notions for the statements on the rest of the driver *)

(** The return codes of the writes of a trace, in order. *)
Fixpoint write_rets (l : list event) : list Z :=
  match l with
  | [] => []
  | EvWrite _ _ r :: l' => r :: write_rets l'
  | EvSleep _ _ :: l' => write_rets l'
  end.

(** A run of writes that either all succeeded, with result 0, or stopped
    at the first failure, with its code as result. *)
Definition stops_at_first_error (rets : list Z) (ret : Z) : Prop :=
  (ret = 0 /\ Forall (fun r => r = 0) rets) \/
  (ret < 0 /\ exists k, rets = repeat 0 k ++ [ret]).

(** The bytes of [value], low byte first. *)
Fixpoint le_bytes (value : Z) (n : nat) : list Z :=
  match n with
  | O => []
  | S n' => to_u8 value :: le_bytes (Z.shiftr value 8) n'
  end.

Fixpoint le_value (bytes : list Z) : Z :=
  match bytes with
  | [] => 0
  | b :: rest => b + 256 * le_value rest
  end.

(** The writes of consecutive registers starting at [addr]. *)
Fixpoint writes_from (addr : Z) (bytes : list Z) : list event :=
  match bytes with
  | [] => []
  | b :: rest => EvWrite (to_u16 addr) b 0 :: writes_from (addr + 1) rest
  end.

(** The lane counts probe accepts. *)
Definition valid_config (s : imx290) : Prop :=
  nlanes s = 2 \/ nlanes s = 4.

(** A state with the given configuration axes. *)
Definition config_state (f : imx290_fps) (lanes : Z) (clk : imx290_inck)
  : imx290 :=
  set_fps (imx290_probed lanes clk OFF []) f.

Fixpoint nodupb (l : list Z) : bool :=
  match l with
  | [] => true
  | a :: l' => negb (existsb (Z.eqb a) l') && nodupb l'
  end.

(** The registers a table programs under the configuration of [s]. *)
Definition programmed (s : imx290) (settings : list imx290_regval) : list Z :=
  map reg (selected s settings).

(** [new] is what a sequence of checked writes leaves in the trace when
    [full] is what it leaves on a bus that accepts everything: all of it
    with result 0, or its events up to the first write that fails, that
    write carrying the negative code returned. *)
Definition cut_at_failure (full new : list event) (ret : Z) : Prop :=
  (ret = 0 /\ new = full) \/
  (ret < 0 /\ exists pre a v post,
      full = pre ++ EvWrite a v 0 :: post /\
      new = pre ++ [EvWrite a v ret]).

Definition ok_event (e : event) : Prop :=
  match e with
  | EvWrite _ _ r => r = 0
  | EvSleep _ _ => True
  end.

(** The events of a buffered write on a bus that accepts everything. *)
Definition buffered_events (address_low : Z) (bytes : list Z) : list event :=
  EvWrite IMX290_REGHOLD 0x01 0
  :: writes_from address_low bytes ++ [EvWrite IMX290_REGHOLD 0x00 0].

(** The controls whose update checks its bus writes. *)
Definition checked_controls : list Z :=
  [ V4L2_CID_GAIN; V4L2_CID_EXPOSURE; V4L2_CID_VFLIP; V4L2_CID_HFLIP;
    V4L2_CID_IMX290_CG_SWITCH; V4L2_CID_LINK_FREQ; V4L2_CID_PIXEL_RATE ].

(** The catalog format [imx290_set_fmt] settles on for a requested code
    (lines 1169-1176). *)
Definition imx290_pick_format (code' : Z) : option imx290_pixfmt :=
  let i := find_format code' imx290_formats 0 in
  let i := if (length imx290_formats <=? i)%nat then 0%nat else i in
  nth_error imx290_formats i.

(** The format handed back for mode [m] and catalog format [p]. *)
Definition format_of (m : imx290_mode) (p : imx290_pixfmt)
  : v4l2_mbus_framefmt :=
  {| fmt_width := width m;
     fmt_height := height m;
     fmt_code := code p;
     fmt_field := V4L2_FIELD_NONE;
     fmt_colorspace := V4L2_COLORSPACE_SRGB |}.

(** The device state after an active format request settled on [m] and
    [p]. *)
Definition active_state (s : imx290) (m : imx290_mode) (p : imx290_pixfmt)
  : imx290 :=
  let s1 := set_mode_bpp s m (pix_bpp p) in
  let s2 := match link_freq s1 with
            | Some _ => set_link_freq s1 (Some (link_freq_index m))
            | None => s1
            end in
  let s3 := match pixel_rate s2 with
            | Some _ => set_pixel_rate s2 (imx290_calc_pixel_rate s2)
            | None => s2
            end in
  set_current_format s3 (format_of m p).

(** The events of one table application on a bus that accepts
    everything. *)
Definition table_events (s : imx290) (t : list imx290_regval) : list event :=
  writes_ok (selected s t) ++ [EvSleep 10000 11000].

(** Standby and master start are written with the same value, 30 ms
    apart: 0 to start streaming, 1 to stop. *)
Definition standby_events (v : Z) : list event :=
  [ EvWrite IMX290_STANDBY v 0; EvSleep 30000 30000;
    EvWrite IMX290_XMSTA v 0 ].

Definition bit_depth_table (s : imx290) : list imx290_regval :=
  if fmt_code (current_format s) =? MEDIA_BUS_FMT_SRGGB10_1X10
  then imx290_10bit_settings
  else imx290_12bit_settings.

(** The events of a streaming start with mode [m] and no control to
    replay, on a bus that accepts everything. *)
Definition start_streaming_events (s : imx290) (m : imx290_mode)
  : list event :=
  table_events s imx290_global_init_settings
  ++ table_events s (bit_depth_table s)
  ++ table_events s (data m)
  ++ standby_events 0.

(** [s'] differs from [s] at most in the bus and in the two flip bits of
    the cached flip register. *)
Definition same_but_bus_and_flips (s s' : imx290) : Prop :=
  exists m' r,
    s' = set_reg_3007 (set_regmap s m') r /\
    r .& 0xfc = reg_3007 s .& 0xfc.

(** * Properties *)

(** ** Integer conversions *)

Lemma to_u32_small (x : Z) : 0 <= x < 2 ^ 32 -> to_u32 x = x.
Proof. intros H. unfold to_u32. apply Z.mod_small. exact H. Qed.

Lemma to_u8_land_ones (x : Z) : to_u8 x = x .& Z.ones 8.
Proof. unfold to_u8. rewrite Z.land_ones by lia. reflexivity. Qed.

Lemma to_u8_lor (a b : Z) : to_u8 (a .| b) = to_u8 a .| to_u8 b.
Proof. rewrite !to_u8_land_ones. apply Z.land_lor_distr_l. Qed.

Lemma to_u8_idem (a : Z) : to_u8 (to_u8 a) = to_u8 a.
Proof. unfold to_u8. apply Z.mod_mod. lia. Qed.

Lemma to_u8_testbit (x i : Z) :
  0 <= i < 8 -> Z.testbit (to_u8 x) i = Z.testbit x i.
Proof. intros H. unfold to_u8. apply Z.mod_pow2_bits_low. lia. Qed.

(** ** The bus and the state *)

Lemma set_regmap_twice (s : imx290) (m m' : regmap_t) :
  set_regmap (set_regmap s m) m' = set_regmap s m'.
Proof. reflexivity. Qed.

Lemma set_regmap_same (s : imx290) : set_regmap s (regmap s) = s.
Proof. destruct s; reflexivity. Qed.

Lemma settings_match_set_regmap (s : imx290) (m : regmap_t) (c : Z) :
  imx290_settings_match (set_regmap s m) c = imx290_settings_match s c.
Proof. reflexivity. Qed.

Lemma selected_set_regmap (s : imx290) (m : regmap_t) l :
  selected (set_regmap s m) l = selected s l.
Proof. reflexivity. Qed.

(** ** Condition evaluator *)

Lemma imx290_settings_match_axes (s : imx290) (c : Z) :
  imx290_settings_match s c =
    axis_ok c COND_FPS_msk (fps_bit (fps s))
    && axis_ok c COND_LANES_msk (lanes_bit (nlanes s))
    && axis_ok c COND_INCK_msk (inck_bit_tested (inck s)).
Proof.
  unfold imx290_settings_match, axis_ok, lanes_bit, fps_bit, inck_bit_tested.
  destruct (c .& COND_FPS_msk =? 0), (c .& COND_LANES_msk =? 0),
    (c .& COND_INCK_msk =? 0), (fps s), (inck s),
    (nlanes s =? 2), (nlanes s =? 4); rewrite ?Z.land_0_r; simpl;
    repeat match goal with
           | |- context [?x =? 0] => destruct (x =? 0)
           end; reflexivity.
Qed.

(** C1 (defect in the code): the specification asks that a configuration
    clocked at 37.125 MHz match a mask constraining only the input-clock
    axis exactly when COND_INCK_37 is set (and likewise 74.25 MHz with
    COND_INCK_74).  The evaluator does the opposite on this axis: whatever the other fields of the configuration,
    the mask COND_INCK_37 is rejected at 37.125 MHz and accepted at
    74.25 MHz, and the mask COND_INCK_74 is accepted at 37.125 MHz and
    rejected at 74.25 MHz. *)
Theorem imx290_settings_match_inck_swapped (s : imx290) :
  imx290_settings_match s COND_INCK_37
    = match inck s with INCK_37 => false | INCK_74 => true end
  /\ imx290_settings_match s COND_INCK_74
    = match inck s with INCK_37 => true | INCK_74 => false end.
Proof.
  rewrite !imx290_settings_match_axes.
  destruct (inck s); split; reflexivity.
Qed.

(** ** Sequence applier *)

Lemma regmap_write_run (addr value : Z) (s : imx290) :
  regmap_write addr value s =
    Some (match faults (regmap s) with
          | [] => 0
          | o :: _ => outcome_code o
          end,
          set_regmap s
            {| faults := tl (faults (regmap s));
               trace := trace (regmap s) ++
                 [EvWrite addr value
                    match faults (regmap s) with
                    | [] => 0
                    | o :: _ => outcome_code o
                    end] |}).
Proof. reflexivity. Qed.

Lemma imx290_set_register_array_nil (s : imx290) :
  imx290_set_register_array [] s =
    Some (0, set_regmap s
               {| faults := faults (regmap s);
                  trace := trace (regmap s) ++ [EvSleep 10000 11000] |}).
Proof. reflexivity. Qed.

Lemma imx290_set_register_array_skip (r : imx290_regval) l (s : imx290) :
  imx290_settings_match s (cond r) = false ->
  imx290_set_register_array (r :: l) s = imx290_set_register_array l s.
Proof.
  intros H. cbn [imx290_set_register_array].
  unfold Bind, Get. rewrite H. reflexivity.
Qed.

Lemma imx290_set_register_array_write (r : imx290_regval) l (s : imx290) :
  imx290_settings_match s (cond r) = true ->
  imx290_set_register_array (r :: l) s =
    match faults (regmap s) with
    | BusError e :: _ =>
        Some (Z.neg e,
              set_regmap s
                {| faults := tl (faults (regmap s));
                   trace := trace (regmap s) ++
                            [EvWrite (reg r) (val r) (Z.neg e)] |})
    | _ =>
        imx290_set_register_array l
          (set_regmap s
             {| faults := tl (faults (regmap s));
                trace := trace (regmap s) ++
                         [EvWrite (reg r) (val r) 0] |})
    end.
Proof.
  intros H. cbn [imx290_set_register_array].
  unfold Bind, Get, imx290_write_reg, regmap_write. rewrite H.
  cbn [negb]. cbv beta.
  destruct (faults (regmap s)) as [|[|e] f]; reflexivity.
Qed.

Lemma skipn_tl {A : Type} (n : nat) (l : list A) :
  skipn n (tl l) = skipn (S n) l.
Proof. destruct l; [destruct n|]; reflexivity. Qed.

Lemma nth_error_tl {A : Type} (n : nat) (l : list A) :
  nth_error (tl l) n = nth_error l (S n).
Proof. destruct l; [destruct n|]; reflexivity. Qed.

Lemma imx290_set_register_array_applied (settings : list imx290_regval) :
  forall s, exists ret s',
    imx290_set_register_array settings s = Some (ret, s') /\
    applied s settings ret s'.
Proof.
  induction settings as [|r l IH]; intros s.
  - rewrite imx290_set_register_array_nil.
    eexists _, _. split; [reflexivity|].
    eexists. split; [reflexivity|]. left. simpl. auto.
  - destruct (imx290_settings_match s (cond r)) eqn:Hm.
    + rewrite (imx290_set_register_array_write _ _ _ Hm).
      unfold applied, selected. simpl filter. rewrite Hm.
      fold (selected s l).
      destruct (faults (regmap s)) as [|[|e] f] eqn:Hf.
      * destruct (IH (set_regmap s
          {| faults := tl []; trace := trace (regmap s) ++
               [EvWrite (reg r) (val r) 0] |})) as (ret & s' & Hrun & m' & Hs' & H).
        rewrite Hrun. exists ret, s'. split; [reflexivity|].
        exists m'. split; [rewrite Hs'; reflexivity|].
        rewrite selected_set_regmap in H. simpl regmap in H.
        simpl faults in H. simpl trace in H.
        destruct H as [(H0 & Ht & Hfl) | (pre & x & post & e & Hsel & Hr & Hn & Ht & Hfl)].
        -- left. repeat split; auto.
           ++ rewrite Ht. rewrite <- app_assoc. reflexivity.
           ++ rewrite Hfl. destruct (length (selected s l)); reflexivity.
        -- destruct (length pre); discriminate Hn.
      * destruct (IH (set_regmap s
          {| faults := f; trace := trace (regmap s) ++
               [EvWrite (reg r) (val r) 0] |})) as (ret & s' & Hrun & m' & Hs' & H).
        simpl tl. rewrite Hrun. exists ret, s'. split; [reflexivity|].
        exists m'. split; [rewrite Hs'; reflexivity|].
        rewrite selected_set_regmap in H. simpl regmap in H.
        simpl faults in H. simpl trace in H.
        destruct H as [(H0 & Ht & Hfl) | (pre & x & post & e & Hsel & Hr & Hn & Ht & Hfl)].
        -- left. repeat split; auto.
           rewrite Ht. rewrite <- app_assoc. reflexivity.
        -- right. exists (r :: pre), x, post, e. repeat split; auto.
           ++ rewrite Hsel. reflexivity.
           ++ rewrite Ht. rewrite <- app_assoc. reflexivity.
      * eexists _, _. split; [reflexivity|].
        eexists. split; [reflexivity|].
        right. exists [], r, (selected s l), e. repeat split; auto.
    + rewrite (imx290_set_register_array_skip _ _ _ Hm).
      destruct (IH s) as (ret & s' & Hrun & H).
      exists ret, s'. split; [exact Hrun|].
      unfold applied, selected in *. simpl filter. rewrite Hm. exact H.
Qed.

(** C2: applying a register table issues bus writes for exactly the
    entries the condition evaluator selects, in table order.  When all of
    them succeed the result is 0 and the settle delay follows the last
    write; otherwise the selected entries split as [pre ++ x :: post] where
    the writes of [pre] succeeded, the write of [x] is the first to fail, its
    error code is returned, nothing of [post] is written and no delay or
    compensating write follows.  Only the bus changes. *)
Theorem imx290_set_register_array_spec (s : imx290)
  (settings : list imx290_regval) :
  exists ret m',
    imx290_set_register_array settings s = Some (ret, set_regmap s m') /\
    ((ret = 0 /\
      trace m' = trace (regmap s) ++ writes_ok (selected s settings)
                   ++ [EvSleep 10000 11000])
     \/
     (exists pre x post e,
        selected s settings = pre ++ x :: post /\
        nth_error (faults (regmap s)) (length pre) = Some (BusError e) /\
        ret = Z.neg e /\
        trace m' = trace (regmap s) ++ writes_ok pre
                     ++ [EvWrite (reg x) (val x) (Z.neg e)])).
Proof.
  destruct (imx290_set_register_array_applied settings s)
    as (ret & s' & Hrun & m' & Hs' & H).
  exists ret, m'. rewrite <- Hs'. split; [exact Hrun|].
  destruct H as [(H0 & Ht & _) | (pre & x & post & e & Hsel & Hr & Hn & Ht & _)].
  - left. auto.
  - right. exists pre, x, post, e. auto.
Qed.

Lemma Forall_firstn_nth_error {A : Type} (P : A -> Prop) (l : list A) :
  forall n i x,
    Forall P (firstn n l) -> nth_error l i = Some x -> (i < n)%nat -> P x.
Proof.
  induction l as [|a l IH]; intros n i x HF Hn Hi.
  - destruct i; discriminate Hn.
  - destruct n as [|n]; [lia|]. simpl in HF. inversion HF; subst.
    destruct i as [|i]; simpl in Hn.
    + injection Hn as <-. assumption.
    + apply (IH n i); [assumption | assumption | lia].
Qed.

Lemma Forall_firstn_skipn {A : Type} (P : A -> Prop) (l : list A) (n k : nat) :
  Forall P (firstn (n + k) l) ->
  Forall P (firstn n l) /\ Forall P (firstn k (skipn n l)).
Proof.
  revert l. induction n as [|n IH]; intros l H.
  - simpl. split; [constructor | exact H].
  - destruct l as [|a l]; simpl in *.
    + split; [constructor | destruct k; constructor].
    + inversion H as [|? ? Ha Hl]; subst. destruct (IH l Hl) as [Hn Hk].
      split; [constructor; assumption | assumption].
Qed.

(** A table application during which the bus does not fail. *)
Lemma imx290_set_register_array_ok (settings : list imx290_regval)
  (s : imx290) :
  Forall bus_ok (firstn (length (selected s settings)) (faults (regmap s))) ->
  imx290_set_register_array settings s =
    Some (0, set_regmap s
               {| faults := skipn (length (selected s settings))
                                  (faults (regmap s));
                  trace := trace (regmap s)
                           ++ writes_ok (selected s settings)
                           ++ [EvSleep 10000 11000] |}).
Proof.
  intros HF.
  destruct (imx290_set_register_array_applied settings s)
    as (ret & s' & Hrun & m' & Hs' & H).
  rewrite Hrun.
  destruct H as [(H0 & Ht & Hfl) | (pre & x & post & e & Hsel & Hr & Hn & _)].
  - subst ret s'. destruct m' as [f t]. simpl in Ht, Hfl. subst. reflexivity.
  - exfalso.
    assert (Hlt : (length pre < length (selected s settings))%nat).
    { rewrite Hsel, length_app. simpl. lia. }
    pose proof (Forall_firstn_nth_error _ _ _ _ _ HF Hn Hlt) as Hok.
    discriminate Hok.
Qed.

(** ** Control plane: power gate and error reporting *)

(** C9: a set-control request made while the device is powered off returns
    0 and leaves the whole state, bus trace included, as it was: no write is
    issued, whatever the control (even one the driver does not know). *)
Theorem imx290_set_ctrl_powered_off (s : imx290) (ctrl : v4l2_ctrl) :
  dev s = OFF -> imx290_set_ctrl ctrl s = Some (0, s).
Proof.
  intros H. unfold imx290_set_ctrl, pm_runtime_get_if_in_use, Bind, Get.
  cbv beta. rewrite H. reflexivity.
Qed.

(** An instance: a gain update on a powered-off device whose bus would
    fail. *)
Lemma imx290_set_ctrl_powered_off_witness :
  imx290_set_ctrl {| id := V4L2_CID_GAIN; ctrl_val := 100; maximum := 240 |}
                  (imx290_probed 2 INCK_37 OFF [BusError EIO])
  = Some (0, imx290_probed 2 INCK_37 OFF [BusError EIO]).
Proof. apply imx290_set_ctrl_powered_off. reflexivity. Defined.

(** Whatever the bus does, a test-pattern update made while powered
    returns 0: none of its writes is checked. *)
Lemma imx290_set_ctrl_test_pattern_returns_0 (s : imx290) (v m : Z) :
  dev s <> OFF ->
  exists s',
    imx290_set_ctrl {| id := V4L2_CID_TEST_PATTERN; ctrl_val := v;
                       maximum := m |} s = Some (0, s').
Proof.
  intros Hp. unfold imx290_set_ctrl, pm_runtime_get_if_in_use, Bind, Get.
  cbv beta.
  destruct (dev s); [contradiction | |];
    cbn [id ctrl_val]; cbn -[imx290_write_reg usleep_range to_u8];
    destruct (v =? 0); cbn -[imx290_write_reg usleep_range to_u8];
    destruct (bpp s =? 10); eexists; reflexivity.
Qed.

(** The sibling path: a gain update reports the error of the bus. *)
Example imx290_set_ctrl_gain_reports_bus_error :
  exists s',
    imx290_set_ctrl {| id := V4L2_CID_GAIN; ctrl_val := 100; maximum := 240 |}
                    (imx290_probed 2 INCK_37 POWERED_IDLE [BusError EIO])
    = Some (Z.neg EIO, s').
Proof. eexists. vm_compute. reflexivity. Qed.

(** C3 (defect in the code): the specification asks that a control update
    in which a bus write failed never return success.  A test-pattern update made while powered, whose
    first write (black level low) fails with -EIO, goes on with the
    remaining writes and returns 0; the failed write is in the trace. *)
Theorem imx290_set_ctrl_test_pattern_drops_bus_error :
  exists s',
    imx290_set_ctrl {| id := V4L2_CID_TEST_PATTERN; ctrl_val := 1;
                       maximum := 7 |}
                    (imx290_probed 2 INCK_37 POWERED_IDLE [BusError EIO])
    = Some (0, s') /\
    trace (regmap s') =
      [ EvWrite IMX290_BLKLEVEL_LOW 0x00 (Z.neg EIO);
        EvWrite IMX290_BLKLEVEL_HIGH 0x00 0;
        EvSleep 10000 11000;
        EvWrite IMX290_PGCTRL 0x13 0 ].
Proof. eexists. split; vm_compute; reflexivity. Qed.

(** ** Exposure *)

Section Exposure.

Variables vmax ctrl_max : Z.
Hypothesis Hvmax : 2 < vmax.
Hypothesis Hmax : 0 < ctrl_max.
Hypothesis Hfit : ctrl_max * (vmax - 2) < 2 ^ 32.

(** Without wrap-around the value is the truncated quotient, at least 1,
    taken off [vmax - 2]. *)
Lemma imx290_exposure_val_floor (c : Z) :
  0 <= c <= ctrl_max ->
  imx290_exposure_val vmax c ctrl_max
  = vmax - 2 - Z.max 1 (c * (vmax - 2) / ctrl_max).
Proof.
  intros Hc. unfold imx290_exposure_val.
  assert (Hprod : 0 <= c * (vmax - 2) <= ctrl_max * (vmax - 2)) by nia.
  assert (Hq : 0 <= c * (vmax - 2) / ctrl_max <= vmax - 2).
  { split.
    - apply Z.div_pos; lia.
    - apply Z.div_le_upper_bound; lia. }
  rewrite (to_u32_small c) by nia.
  rewrite (to_u32_small (vmax - 2)) by nia.
  rewrite (to_u32_small (c * (vmax - 2))) by lia.
  rewrite Z.quot_div_nonneg by lia.
  rewrite (to_u32_small (c * (vmax - 2) / ctrl_max)) by nia.
  destruct (Z.eqb_spec (c * (vmax - 2) / ctrl_max) 0) as [E|E].
  - rewrite E. rewrite to_u32_small by nia. reflexivity.
  - rewrite Z.max_r by lia. rewrite to_u32_small by nia. reflexivity.
Qed.

Lemma imx290_exposure_delta_floor (c : Z) :
  0 <= c <= ctrl_max ->
  1 <= Z.max 1 (c * (vmax - 2) / ctrl_max) <= vmax - 2.
Proof.
  intros Hc.
  assert (c * (vmax - 2) / ctrl_max <= vmax - 2)
    by (apply Z.div_le_upper_bound; nia).
  lia.
Qed.

End Exposure.

(** The difference [vmax - 2 - val], as the unsigned int it is in C, is
    never 0, whatever the inputs. *)
Lemma imx290_exposure_delta_nonzero (vmax c ctrl_max : Z) :
  to_u32 (to_u32 (vmax - 2) - imx290_exposure_val vmax c ctrl_max) <> 0.
Proof.
  unfold imx290_exposure_val.
  set (v := to_u32 (vmax - 2)).
  set (q := to_u32 (Z.quot (to_u32 (to_u32 c * v)) ctrl_max)).
  set (d := if q =? 0 then 1 else q).
  assert (Hd : 1 <= d < 2 ^ 32).
  { unfold d. destruct (Z.eqb_spec q 0); [lia|].
    assert (0 <= q < 2 ^ 32) by (apply Z.mod_pos_bound; lia). lia. }
  assert (Hv : 0 <= v < 2 ^ 32) by (apply Z.mod_pos_bound; lia).
  unfold to_u32 at 1 2.
  rewrite Zminus_mod_idemp_r.
  replace (v - (v - d)) with d by ring.
  rewrite Z.mod_small; lia.
Qed.

(** C4 as stated fails in three ways.  At [vmax = 1125], [ctrl_max = 10000]
    and the control value 14 the quotient is 1.57: the code truncates it to
    1 and writes 1122 where rounding gives 1121.  At [vmax = 65538],
    [ctrl_max = 65536] and the control value 65536 the unsigned product
    wraps to 0 and the code writes 65535 where the formula gives 0.  At
    [vmax = 2] the unsigned difference wraps: the code computes
    [2^32 - 1] where the formula gives -1. *)
Lemma imx290_exposure_not_rounded :
  (imx290_exposure_val 1125 14 10000 = 1122 /\
   spec_exposure_raw 1125 14 10000 = 1121) /\
  (imx290_exposure_val 65538 65536 65536 = 65535 /\
   spec_exposure_raw 65538 65536 65536 = 0) /\
  (imx290_exposure_val 2 0 1 = 4294967295 /\
   spec_exposure_raw 2 0 1 = -1).
Proof. repeat split; vm_compute; reflexivity. Qed.

(** C5 (as amended): for [vmax > 2] and a positive control maximum such
    that [ctrl_max * (vmax - 2)] fits an unsigned int, the value written
    does not increase when the control value increases within
    [0 .. ctrl_max], and [vmax - 2 - raw] is at least 1 at both ends. *)
Theorem imx290_exposure_monotone (vmax ctrl_max c1 c2 : Z) :
  2 < vmax -> 0 < ctrl_max -> ctrl_max * (vmax - 2) < 2 ^ 32 ->
  0 <= c1 -> c1 <= c2 -> c2 <= ctrl_max ->
  imx290_exposure_val vmax c2 ctrl_max <= imx290_exposure_val vmax c1 ctrl_max
  /\ 1 <= vmax - 2 - imx290_exposure_val vmax c1 ctrl_max
  /\ 1 <= vmax - 2 - imx290_exposure_val vmax c2 ctrl_max.
Proof.
  intros Hv Hm Hfit H1 H12 H2.
  rewrite !(imx290_exposure_val_floor _ _ Hv Hm Hfit) by lia.
  assert (Hmono : c1 * (vmax - 2) / ctrl_max <= c2 * (vmax - 2) / ctrl_max).
  { apply Z.div_le_mono; nia. }
  pose proof (imx290_exposure_delta_floor _ _ Hv Hm c1 ltac:(lia)).
  pose proof (imx290_exposure_delta_floor _ _ Hv Hm c2 ltac:(lia)).
  lia.
Qed.

(** An instance: control values 100 and 200 out of 10000 at 1080p. *)
Lemma imx290_exposure_monotone_witness :
  imx290_exposure_val 1125 200 10000 <= imx290_exposure_val 1125 100 10000
  /\ 1 <= 1125 - 2 - imx290_exposure_val 1125 100 10000
  /\ 1 <= 1125 - 2 - imx290_exposure_val 1125 200 10000.
Proof. apply imx290_exposure_monotone; lia. Defined.

(** C5 as stated fails where the unsigned product wraps: at
    [vmax = 2^31 + 2] and [ctrl_max = 2] the value written for the control
    value 2 is larger than the one written for 1. *)
Lemma imx290_exposure_not_monotone_on_wrap :
  2 < 2147483650 /\ 0 < 2 /\ 0 <= 1 <= 2 /\
  imx290_exposure_val 2147483650 1 2 = 1073741824 /\
  imx290_exposure_val 2147483650 2 2 = 2147483647 /\
  ~ (imx290_exposure_val 2147483650 2 2 <= imx290_exposure_val 2147483650 1 2).
Proof. repeat split; try lia; vm_compute; congruence. Qed.

(** ** Pixel rate *)

Lemma imx290_get_link_freq_range (s : imx290) (lf : Z) :
  imx290_get_link_freq s = Some lf -> 0 < lf <= 891000000.
Proof.
  unfold imx290_get_link_freq, imx290_get_link_freq_index.
  destruct (current_mode s) as [m|]; [|discriminate].
  destruct (link_freq_index m <? 0); [discriminate|].
  unfold imx290_link_freqs_ptr.
  destruct (nlanes s =? 4), (inck s);
    destruct (Z.to_nat (link_freq_index m)) as [|[|[|k]]];
    simpl; intros H; try discriminate H; injection H as <-; lia.
Qed.

(** C6: whatever link frequency the driver derives for the active mode,
    with 2 or 4 lanes and 10 or 12 bits per pixel, the pixel rate is the
    floor of [link_freq * 2 * lanes / bpp]. *)
Theorem imx290_calc_pixel_rate_floor (s : imx290) (link_freq : Z) :
  nlanes s = 2 \/ nlanes s = 4 ->
  bpp s = 10 \/ bpp s = 12 ->
  imx290_get_link_freq s = Some link_freq ->
  exists rate,
    imx290_calc_pixel_rate s = Some rate /\
    rate = link_freq * 2 * nlanes s / bpp s /\
    rate * bpp s <= link_freq * 2 * nlanes s < rate * bpp s + bpp s.
Proof.
  intros Hl Hb Hlf.
  pose proof (imx290_get_link_freq_range _ _ Hlf) as Hr.
  unfold imx290_calc_pixel_rate. rewrite Hlf.
  assert (Hx : 0 <= link_freq * 2 * nlanes s < 2 ^ 62) by (destruct Hl as [-> | ->]; lia).
  assert (Es : to_s64 (link_freq * 2 * nlanes s) = link_freq * 2 * nlanes s).
  { unfold to_s64. rewrite Z.mod_small; lia. }
  rewrite Es. unfold to_u64. rewrite Z.mod_small by lia.
  exists (link_freq * 2 * nlanes s / bpp s).
  assert (Hbpp : 0 < bpp s) by lia.
  split; [|split; [reflexivity|]].
  - unfold do_div. destruct Hb as [-> | ->]; reflexivity.
  - pose proof (Z.mul_div_le (link_freq * 2 * nlanes s) (bpp s) Hbpp).
    pose proof (Z.mul_succ_div_gt (link_freq * 2 * nlanes s) (bpp s) Hbpp).
    lia.
Qed.

(** An instance: 2 lanes, 37.125 MHz, 1080p, 10 bits per pixel. *)
Lemma imx290_calc_pixel_rate_floor_witness :
  exists rate,
    imx290_calc_pixel_rate (imx290_probed 2 INCK_37 POWERED_IDLE [])
      = Some rate /\
    rate = 445500000 * 2 * 2 / 10 /\
    rate * 10 <= 445500000 * 2 * 2 < rate * 10 + 10.
Proof.
  apply (imx290_calc_pixel_rate_floor
           (imx290_probed 2 INCK_37 POWERED_IDLE []) 445500000);
    [left | left | ]; reflexivity.
Defined.

(** ** Flip *)

Lemma imx290_settings_match_0 (s : imx290) : imx290_settings_match s 0 = true.
Proof. rewrite imx290_settings_match_axes. reflexivity. Qed.

Lemma selected_flip_regs (s : imx290) (r : Z) :
  selected s (imx290_flip_regs r) = imx290_flip_regs r.
Proof.
  unfold selected, imx290_flip_regs. cbn [filter cond].
  rewrite imx290_settings_match_0. reflexivity.
Qed.

(** The new byte differs from the cached one in the bit of the control
    only: bit 1 for H-flip, bit 0 for V-flip. *)
Lemma imx290_flip_r3007_bits (old : Z) (ctrl : v4l2_ctrl) (i : Z) :
  0 <= i < 8 ->
  Z.testbit (imx290_flip_r3007 old ctrl) i
  = if i =? (if id ctrl =? V4L2_CID_HFLIP then 1 else 0)
    then negb (ctrl_val ctrl =? 0)
    else Z.testbit old i.
Proof.
  intros Hi. unfold imx290_flip_r3007, imx290_flip_msk.
  change (BIT 1) with (2 ^ 1). change (BIT 0) with (2 ^ 0).
  destruct (id ctrl =? V4L2_CID_HFLIP), (ctrl_val ctrl =? 0); cbn [negb];
    rewrite to_u8_testbit by lia;
    rewrite ?Z.lor_spec, ?Z.land_spec, ?Z.lnot_spec by lia;
    rewrite Z.pow2_bits_eqb by lia;
    rewrite (Z.eqb_sym _ i);
    match goal with
    | |- context [i =? ?k] => destruct (i =? k)
    end; cbn [negb orb andb];
    rewrite ?Bool.andb_false_r, ?Bool.andb_true_r, ?Bool.orb_false_r,
      ?Bool.orb_true_r; reflexivity.
Qed.

Lemma imx290_set_flip_outcome (s : imx290) (ctrl : v4l2_ctrl) :
  let r := imx290_flip_r3007 (reg_3007 s) ctrl in
  exists rc s',
    imx290_set_flip ctrl s = Some (rc, s') /\
    ((rc = 0 /\ reg_3007 s' = r /\
      trace (regmap s') = trace (regmap s)
        ++ [ EvWrite IMX290_REGHOLD 0x01 0; EvWrite 0x3007 r 0;
             EvWrite IMX290_REGHOLD 0x00 0; EvSleep 10000 11000 ])
     \/
     (rc < 0 /\ reg_3007 s' = reg_3007 s /\
      exists pre x post,
        imx290_flip_regs r = pre ++ x :: post /\
        trace (regmap s') = trace (regmap s) ++ writes_ok pre
                              ++ [EvWrite (reg x) (val x) rc])).
Proof.
  intros r. unfold imx290_set_flip, Bind, Get. fold r.
  destruct (imx290_set_register_array_applied (imx290_flip_regs r) s)
    as (ret & s1 & Hrun & m' & Hs1 & H).
  rewrite Hrun. rewrite selected_flip_regs in H.
  destruct H as [(H0 & Ht & _) | (pre & x & post & e & Hsel & Hr & _ & Ht & _)].
  - subst ret. cbn. eexists _, _. split; [reflexivity|]. left.
    subst s1. cbn. rewrite Ht. auto.
  - subst ret. cbn. eexists _, _. split; [reflexivity|]. right.
    subst s1. cbn. split; [lia|]. split; [reflexivity|].
    exists pre, x, post. auto.
Qed.

Lemma imx290_set_flip_ok (s : imx290) (ctrl : v4l2_ctrl) :
  Forall bus_ok (firstn 3 (faults (regmap s))) ->
  imx290_set_flip ctrl s =
    let r := imx290_flip_r3007 (reg_3007 s) ctrl in
    Some (0, set_reg_3007
               (set_regmap s
                  {| faults := skipn 3 (faults (regmap s));
                     trace := trace (regmap s)
                              ++ writes_ok (imx290_flip_regs r)
                              ++ [EvSleep 10000 11000] |}) r).
Proof.
  intros HF. unfold imx290_set_flip, Bind, Get.
  rewrite imx290_set_register_array_ok;
    rewrite selected_flip_regs; [reflexivity | exact HF].
Qed.

Lemma imx290_flip_h_then_v (old : Z) (h v : v4l2_ctrl) :
  id h = V4L2_CID_HFLIP -> ctrl_val h <> 0 ->
  id v = V4L2_CID_VFLIP -> ctrl_val v <> 0 ->
  imx290_flip_r3007 (imx290_flip_r3007 old h) v
  = to_u8 (old .| (BIT 1 .| BIT 0)).
Proof.
  intros Hh Hhv Hv Hvv. unfold imx290_flip_r3007, imx290_flip_msk.
  rewrite Hh, Hv.
  apply Z.eqb_neq in Hhv. apply Z.eqb_neq in Hvv. rewrite Hhv, Hvv.
  cbn [negb].
  change (V4L2_CID_HFLIP =? V4L2_CID_HFLIP) with true.
  change (V4L2_CID_VFLIP =? V4L2_CID_HFLIP) with false.
  cbv iota.
  rewrite !to_u8_lor, to_u8_idem, Z.lor_assoc. reflexivity.
Qed.

(** C7: an update of H-flip or V-flip computes the new byte from the
    cached one by changing bit 1 (H-flip) or bit 0 (V-flip) only, and
    applies hold, the flip register, release.  If all three writes succeed
    the result is 0 and the cache holds the new byte; if one fails the
    result is its negative error code, nothing more is written and the
    cache is unchanged.  When the bus accepts the next six writes, H-flip
    true followed by V-flip true both return 0, leave the cache equal to
    the old byte with bits 1 and 0 set (exactly [BIT 1 | BIT 0] from an
    empty cache), and the flip register is written twice. *)
Theorem imx290_set_flip_spec :
  (forall old ctrl i, 0 <= i < 8 ->
     Z.testbit (imx290_flip_r3007 old ctrl) i
     = if i =? (if id ctrl =? V4L2_CID_HFLIP then 1 else 0)
       then negb (ctrl_val ctrl =? 0)
       else Z.testbit old i) /\
  (forall s ctrl,
     let r := imx290_flip_r3007 (reg_3007 s) ctrl in
     exists rc s',
       imx290_set_flip ctrl s = Some (rc, s') /\
       ((rc = 0 /\ reg_3007 s' = r /\
         trace (regmap s') = trace (regmap s)
           ++ [ EvWrite IMX290_REGHOLD 0x01 0; EvWrite 0x3007 r 0;
                EvWrite IMX290_REGHOLD 0x00 0; EvSleep 10000 11000 ])
        \/
        (rc < 0 /\ reg_3007 s' = reg_3007 s /\
         exists pre x post,
           imx290_flip_regs r = pre ++ x :: post /\
           trace (regmap s') = trace (regmap s) ++ writes_ok pre
                                 ++ [EvWrite (reg x) (val x) rc]))) /\
  (forall s h v,
     id h = V4L2_CID_HFLIP -> ctrl_val h <> 0 ->
     id v = V4L2_CID_VFLIP -> ctrl_val v <> 0 ->
     Forall bus_ok (firstn 6 (faults (regmap s))) ->
     exists s1 s2 new,
       imx290_set_flip h s = Some (0, s1) /\
       imx290_set_flip v s1 = Some (0, s2) /\
       reg_3007 s2 = to_u8 (reg_3007 s .| (BIT 1 .| BIT 0)) /\
       (reg_3007 s = 0 -> reg_3007 s2 = BIT 1 .| BIT 0) /\
       trace (regmap s2) = trace (regmap s) ++ new /\
       count_writes 0x3007 new = 2%nat).
Proof.
  split; [exact imx290_flip_r3007_bits|].
  split; [exact imx290_set_flip_outcome|].
  intros s h v Hh Hhv Hv Hvv HF.
  destruct (Forall_firstn_skipn _ _ 3 3 HF) as [HF1 HF2].
  pose proof (imx290_set_flip_ok s h HF1) as E1. cbv zeta in E1.
  set (r1 := imx290_flip_r3007 (reg_3007 s) h) in E1.
  set (s1 := set_reg_3007 _ r1) in E1.
  assert (HF2' : Forall bus_ok (firstn 3 (faults (regmap s1)))) by exact HF2.
  pose proof (imx290_set_flip_ok s1 v HF2') as E2. cbv zeta in E2.
  set (r2 := imx290_flip_r3007 (reg_3007 s1) v) in E2.
  set (s2 := set_reg_3007 _ r2) in E2.
  assert (Hr2 : r2 = to_u8 (reg_3007 s .| (BIT 1 .| BIT 0))).
  { subst r2 s1 r1. cbn [reg_3007 set_reg_3007].
    apply imx290_flip_h_then_v; assumption. }
  exists s1, s2,
    (writes_ok (imx290_flip_regs r1) ++ [EvSleep 10000 11000]
     ++ writes_ok (imx290_flip_regs r2) ++ [EvSleep 10000 11000]).
  split; [exact E1|]. split; [exact E2|].
  split; [exact Hr2|]. split.
  - intros H0. subst s2. cbn [reg_3007 set_reg_3007]. rewrite Hr2, H0.
    reflexivity.
  - split.
    + subst s2 s1. cbn [regmap trace set_regmap set_reg_3007].
      rewrite <- !app_assoc. reflexivity.
    + reflexivity.
Qed.

(** An instance: H-flip then V-flip on a freshly probed device whose bus
    never fails. *)
Lemma imx290_set_flip_spec_witness :
  let s := imx290_probed 2 INCK_37 POWERED_IDLE [] in
  let h := {| id := V4L2_CID_HFLIP; ctrl_val := 1; maximum := 1 |} in
  let v := {| id := V4L2_CID_VFLIP; ctrl_val := 1; maximum := 1 |} in
  Z.testbit (imx290_flip_r3007 0 h) 1 = true /\
  exists s1 s2 new,
    imx290_set_flip h s = Some (0, s1) /\
    imx290_set_flip v s1 = Some (0, s2) /\
    reg_3007 s2 = to_u8 (reg_3007 s .| (BIT 1 .| BIT 0)) /\
    (reg_3007 s = 0 -> reg_3007 s2 = BIT 1 .| BIT 0) /\
    trace (regmap s2) = trace (regmap s) ++ new /\
    count_writes 0x3007 new = 2%nat.
Proof.
  intros s h v. split.
  - apply (proj1 imx290_set_flip_spec 0 h 1). lia.
  - apply (proj2 (proj2 imx290_set_flip_spec) s h v).
    + reflexivity.
    + discriminate.
    + reflexivity.
    + discriminate.
    + constructor.
Defined.

(** ** Frame interval *)

Lemma to_ulong_small (bits x : Z) :
  32 <= bits -> 0 <= x -> x < 2 ^ bits -> to_ulong bits x = x.
Proof. intros Hb H0 H1. unfold to_ulong. apply Z.mod_small. lia. Qed.

(** The loop on the four classes, once the products are known not to
    wrap. *)
Lemma frame_interval_loop_classes (bits a b : Z) :
  32 <= bits -> 0 <= a -> a * 60 < 2 ^ bits -> 0 <= b < 2 ^ 32 ->
  frame_interval_loop bits a b imx290_intervals 0 0
  = if b <=? a * 25 then 0%nat
    else if b <=? a * 30 then 1%nat
    else if b <=? a * 50 then 2%nat
    else 3%nat.
Proof.
  intros Hbits Ha Hfit Hb.
  assert (H32 : 2 ^ 32 <= 2 ^ bits) by (apply Z.pow_le_mono_r; lia).
  unfold imx290_intervals. cbn [frame_interval_loop numerator denominator].
  rewrite !Z.mul_1_r.
  rewrite (to_ulong_small bits b) by lia.
  rewrite (to_ulong_small bits (a * 25)) by lia.
  rewrite (to_ulong_small bits (a * 30)) by lia.
  rewrite (to_ulong_small bits (a * 50)) by lia.
  rewrite (to_ulong_small bits (a * 60)) by lia.
  destruct (b <=? a * 25), (b <=? a * 30), (b <=? a * 50), (b <=? a * 60);
    reflexivity.
Qed.

(** C8 (as amended): for a requested interval [a / b] whose two fields are
    u32 values, and provided [a * 60] fits an unsigned long (always so
    when unsigned long has 64 bits), the operation returns 0, stores a
    class [f] as the frame-rate class and hands back the interval of [f].
    If some class is at least as fast as the request, [f] is the slowest
    such class; if none is (a request above 60 fps), [f] is the 60 fps
    class. *)
Theorem mipi_csis_s_frame_interval_spec (BITS_PER_LONG : Z) (s : imx290)
  (req : v4l2_fract) :
  32 <= BITS_PER_LONG ->
  0 <= numerator req < 2 ^ 32 ->
  0 <= denominator req < 2 ^ 32 ->
  numerator req * 60 < 2 ^ BITS_PER_LONG ->
  exists f,
    mipi_csis_s_frame_interval BITS_PER_LONG req s
      = Some ((0, imx290_interval_of f), set_fps s f) /\
    ((exists g, class_rate_ge req g) -> spec_smallest_class_ge req f) /\
    ((forall g, ~ class_rate_ge req g) -> f = FPS_60).
Proof.
  intros Hbits Ha Hb Hfit.
  assert (H32 : 2 ^ 32 <= 2 ^ BITS_PER_LONG) by (apply Z.pow_le_mono_r; lia).
  unfold mipi_csis_s_frame_interval.
  rewrite (to_ulong_small _ (numerator req)) by lia.
  rewrite (to_ulong_small _ (denominator req)) by lia.
  rewrite frame_interval_loop_classes by lia.
  unfold spec_smallest_class_ge, class_rate_ge.
  destruct (Z.leb_spec (denominator req) (numerator req * 25)) as [H25|H25];
  [ exists FPS_25
  | destruct (Z.leb_spec (denominator req) (numerator req * 30)) as [H30|H30];
    [ exists FPS_30
    | destruct (Z.leb_spec (denominator req) (numerator req * 50)) as [H50|H50];
      [ exists FPS_50 | exists FPS_60 ] ] ];
  (split; [reflexivity|]); split.
  all: try (intros _; split; [cbn; lia | intros g; destruct g; cbn; lia]).
  all: try (intros Hnone; exfalso;
            first [ apply (Hnone FPS_25); cbn; lia
                  | apply (Hnone FPS_30); cbn; lia
                  | apply (Hnone FPS_50); cbn; lia ]).
  - intros [g Hg]. split.
    + destruct g; cbn in Hg |- *; lia.
    + intros g'; destruct g'; cbn; lia.
  - reflexivity.
Qed.

(** An instance: a request for 40 fps on a 64-bit build. *)
Lemma mipi_csis_s_frame_interval_spec_witness :
  let s := imx290_probed 2 INCK_37 POWERED_IDLE [] in
  let req := {| numerator := 1; denominator := 40 |} in
  exists f,
    mipi_csis_s_frame_interval 64 req s
      = Some ((0, imx290_interval_of f), set_fps s f) /\
    ((exists g, class_rate_ge req g) -> spec_smallest_class_ge req f) /\
    ((forall g, ~ class_rate_ge req g) -> f = FPS_60).
Proof.
  intros s req.
  apply (mipi_csis_s_frame_interval_spec 64 s req); cbn; lia.
Defined.

(** C8 as stated fails above 60 fps: asked for 120 fps (interval 1/120),
    the operation selects the 60 fps class, which is not a class whose
    rate is at least the requested one. *)
Lemma mipi_csis_s_frame_interval_above_60 :
  let s := imx290_probed 2 INCK_37 POWERED_IDLE [] in
  let req := {| numerator := 1; denominator := 120 |} in
  mipi_csis_s_frame_interval 64 req s
    = Some ((0, {| numerator := 1; denominator := 60 |}), set_fps s FPS_60)
  /\ ~ spec_smallest_class_ge req FPS_60.
Proof.
  split.
  - vm_compute. reflexivity.
  - intros [H _]. unfold class_rate_ge in H. cbn in H. lia.
Qed.

(** ** Format *)

Lemma set_link_freq_same (s : imx290) : set_link_freq s (link_freq s) = s.
Proof. destruct s; reflexivity. Qed.

Lemma set_pixel_rate_same (s : imx290) : set_pixel_rate s (pixel_rate s) = s.
Proof. destruct s; reflexivity. Qed.

Lemma v4l2_find_nearest_size_modes (s : imx290) (w h : Z) :
  exists m,
    v4l2_find_nearest_size (imx290_modes_ptr s) w h = Some m /\
    (link_freq_index m = 0 \/ link_freq_index m = 1).
Proof.
  unfold v4l2_find_nearest_size, imx290_modes_ptr.
  destruct (nlanes s =? 2);
    unfold imx290_modes_2lanes, imx290_modes_4lanes;
    cbn [find_nearest_from];
    match goal with
    | |- context [if ?c then _ else _] => destruct c
    end; eexists; split; try reflexivity; cbn; auto.
Qed.

Lemma find_format_formats (c : Z) :
  let i := find_format c imx290_formats 0 in
  let i := if (length imx290_formats <=? i)%nat then 0%nat else i in
  exists p,
    nth_error imx290_formats i = Some p /\
    (pix_bpp p = 10 \/ pix_bpp p = 12) /\
    (c <> MEDIA_BUS_FMT_SRGGB10_1X10 -> c <> MEDIA_BUS_FMT_SRGGB12_1X12 ->
     nth_error imx290_formats 0 = Some p /\
     code p = MEDIA_BUS_FMT_SRGGB10_1X10 /\ pix_bpp p = 10).
Proof.
  unfold imx290_formats. cbn [find_format code].
  destruct (Z.eqb_spec MEDIA_BUS_FMT_SRGGB10_1X10 c) as [E1|E1].
  - cbn. eexists. split; [reflexivity|]. split; [auto|]. congruence.
  - destruct (Z.eqb_spec MEDIA_BUS_FMT_SRGGB12_1X12 c) as [E2|E2].
    + cbn. eexists. split; [reflexivity|]. split; [auto|]. congruence.
    + cbn. eexists. split; [reflexivity|]. split; [auto|]. auto.
Qed.

Lemma imx290_calc_pixel_rate_total (s : imx290) (m : imx290_mode) :
  current_mode s = Some m ->
  link_freq_index m = 0 \/ link_freq_index m = 1 ->
  bpp s = 10 \/ bpp s = 12 ->
  exists rate, imx290_calc_pixel_rate s = Some rate.
Proof.
  intros Hm Hi Hb.
  unfold imx290_calc_pixel_rate, imx290_get_link_freq,
    imx290_get_link_freq_index.
  rewrite Hm.
  unfold imx290_link_freqs_ptr, do_div.
  destruct Hi as [-> | ->], Hb as [-> | ->];
    destruct (nlanes s =? 4), (inck s); cbn -[to_u64 to_s64 Z.div];
    eexists; reflexivity.
Qed.

Lemma imx290_update_link_freq_ctrl_run (s : imx290) (m : imx290_mode) :
  current_mode s = Some m ->
  exists u, imx290_update_link_freq_ctrl s = Some (tt, set_link_freq s u).
Proof.
  intros Hm. unfold imx290_update_link_freq_ctrl, Bind, Get.
  pose proof (set_link_freq_same s) as Hsame.
  destruct (link_freq s).
  - unfold imx290_get_link_freq_index. rewrite Hm. eexists. reflexivity.
  - exists None. rewrite Hsame. reflexivity.
Qed.

Lemma imx290_update_pixel_rate_ctrl_run (s : imx290) (m : imx290_mode) :
  current_mode s = Some m ->
  link_freq_index m = 0 \/ link_freq_index m = 1 ->
  bpp s = 10 \/ bpp s = 12 ->
  exists r, imx290_update_pixel_rate_ctrl s = Some (tt, set_pixel_rate s r).
Proof.
  intros Hm Hi Hb. unfold imx290_update_pixel_rate_ctrl, Bind, Get.
  destruct (imx290_calc_pixel_rate_total s m Hm Hi Hb) as (rate & Hrate).
  pose proof (set_pixel_rate_same s) as Hsame.
  destruct (pixel_rate s).
  - rewrite Hrate. eexists. reflexivity.
  - exists None. rewrite Hsame. reflexivity.
Qed.

(** C10: a set-format request always returns 0.  When the requested
    pixel code is neither of the two catalog codes, the first catalog
    format (SRGGB10, 10 bits per pixel) takes its place in the format handed
    back, and for an active request in the stored format and bit depth. *)
Theorem imx290_set_fmt_spec (s : imx290) (try_fmt : v4l2_mbus_framefmt)
  (fmt : v4l2_subdev_format) :
  exists try_fmt' fmt' s',
    imx290_set_fmt try_fmt fmt s = Some ((0, try_fmt', fmt'), s') /\
    (fmt_code (format fmt) <> MEDIA_BUS_FMT_SRGGB10_1X10 ->
     fmt_code (format fmt) <> MEDIA_BUS_FMT_SRGGB12_1X12 ->
     option_map code (nth_error imx290_formats 0)
       = Some (fmt_code (format fmt')) /\
     fmt_code (format fmt') = MEDIA_BUS_FMT_SRGGB10_1X10 /\
     (which fmt = V4L2_SUBDEV_FORMAT_TRY ->
      fmt_code try_fmt' = MEDIA_BUS_FMT_SRGGB10_1X10 /\ s' = s) /\
     (which fmt <> V4L2_SUBDEV_FORMAT_TRY ->
      fmt_code (current_format s') = MEDIA_BUS_FMT_SRGGB10_1X10 /\
      bpp s' = 10)).
Proof.
  unfold imx290_set_fmt, Bind, Get.
  destruct (v4l2_find_nearest_size_modes s (fmt_width (format fmt))
              (fmt_height (format fmt))) as (m & Hm & Hidx).
  rewrite Hm. cbn [Lift Ret].
  destruct (find_format_formats (fmt_code (format fmt)))
    as (p & Hp & Hbpp & Hsub).
  cbv zeta in Hp. rewrite Hp. cbn [Lift Ret].
  destruct (Z.eqb_spec (which fmt) V4L2_SUBDEV_FORMAT_TRY) as [Hw|Hw].
  - eexists _, _, _. split; [reflexivity|].
    intros H1 H2. destruct (Hsub H1 H2) as (H0 & Hc & _).
    cbn [format fmt_code]. rewrite Hc.
    repeat split; auto; contradiction.
  - unfold Modify. cbv beta.
    set (s1 := set_mode_bpp s m (pix_bpp p)).
    destruct (imx290_update_link_freq_ctrl_run s1 m eq_refl) as (u & Hl).
    set (s2 := set_link_freq s1 u) in *.
    destruct (imx290_update_pixel_rate_ctrl_run s2 m eq_refl Hidx Hbpp)
      as (r & Hr).
    eexists _, _, _. split; [rewrite Hl, Hr; reflexivity|].
    intros H1 H2. destruct (Hsub H1 H2) as (H0 & Hc & Hb).
    cbn [format fmt_code current_format set_current_format bpp
         set_pixel_rate set_link_freq set_mode_bpp].
    subst s2 s1.
    cbn [format fmt_code current_format set_current_format bpp
         set_pixel_rate set_link_freq set_mode_bpp].
    rewrite Hc, Hb. repeat split; auto; contradiction.
Qed.

(** An instance: an active 1280x720 request with an RGB888 code. *)
Lemma imx290_set_fmt_spec_witness :
  let s := imx290_probed 4 INCK_74 POWERED_IDLE [] in
  let fmt := {| which := V4L2_SUBDEV_FORMAT_ACTIVE; pad := 0;
                format := {| fmt_width := 1280; fmt_height := 720;
                             fmt_code := 0x100a; fmt_field := 0;
                             fmt_colorspace := 0 |} |} in
  exists try_fmt' fmt' s',
    imx290_set_fmt (current_format s) fmt s = Some ((0, try_fmt', fmt'), s') /\
    fmt_code (format fmt') = MEDIA_BUS_FMT_SRGGB10_1X10 /\
    fmt_code (current_format s') = MEDIA_BUS_FMT_SRGGB10_1X10 /\
    bpp s' = 10.
Proof.
  intros s fmt.
  destruct (imx290_set_fmt_spec s (current_format s) fmt)
    as (t & f & s' & Hrun & H).
  exists t, f, s'. split; [exact Hrun|].
  destruct H as (_ & Hc & _ & Ha); [discriminate | discriminate |].
  destruct Ha as [Hcur Hb]; [discriminate|]. auto.
Defined.

(** ** Scenarios of the specification *)

(** The three data bytes of the exposure table hold the 17 low bits of the
    value: for a value below [2^17] they give it back. *)
Lemma imx290_exposure_regs_bytes (raw : Z) :
  0 <= raw < 2 ^ 17 ->
  map val (imx290_exposure_regs raw)
  = [1; raw mod 256; raw / 256 mod 256; raw / 65536; 0]
  /\ raw mod 256 + 256 * (raw / 256 mod 256) + 65536 * (raw / 65536) = raw.
Proof.
  intros H. unfold imx290_exposure_regs. cbn [map val].
  change 0xff with (Z.ones 8). change 0x01 with (Z.ones 1).
  rewrite !Z.land_ones by lia. rewrite !Z.shiftr_div_pow2 by lia.
  change (2 ^ 0) with 1. change (2 ^ 8) with 256. change (2 ^ 16) with 65536.
  change (2 ^ 1) with 2. rewrite Z.div_1_r.
  assert (H16 : 0 <= raw / 65536 < 2).
  { split; [apply Z.div_pos; lia | apply Z.div_lt_upper_bound; lia]. }
  rewrite (Z.mod_small (raw / 65536)) by lia.
  split; [reflexivity|].
  pose proof (Z.div_mod raw 256 ltac:(lia)).
  pose proof (Z.div_mod (raw / 256) 256 ltac:(lia)).
  rewrite Z.div_div in * by lia. change (256 * 256) with 65536 in *. lia.
Qed.

(** With 2 lanes and the 37.125 MHz clock the frame-rate class defaults to
    30 fps, 1920x1080 selects the 1080p mode, the link frequency is
    445.5 MHz and the 10-bit pixel rate 178.2 MHz. *)
Example scenario_2lanes_37mhz :
  let s := imx290_probed 2 INCK_37 OFF [] in
  fps s = FPS_30 /\
  v4l2_find_nearest_size (imx290_modes_ptr s) 1920 1080
    = Some imx290_default_mode /\
  imx290_get_link_freq s = Some 445500000 /\
  imx290_calc_pixel_rate s = Some 178200000.
Proof. repeat split; vm_compute; reflexivity. Qed.

(** At 30 fps the first entry of the global init table, conditioned on
    50/60 fps, is skipped and the second one is written. *)
Example scenario_frsel_30fps :
  let s := imx290_probed 2 INCK_37 POWERED_IDLE [] in
  imx290_settings_match s COND_50_60_FPS = false /\
  firstn 2 (writes_ok (selected s imx290_global_init_settings))
    = [EvWrite 0x3009 0x02 0; EvWrite 0x3405 0x10 0].
Proof. split; vm_compute; reflexivity. Qed.

(** * Properties of the rest of the driver *)

(** ** Condition evaluator, axis by axis *)

(** X1: a mask that constrains at most the frame-rate axis matches
    exactly when it has no frame-rate bit at all or has the bit of the
    configured class; lane count and input clock play no part. *)
Theorem imx290_settings_match_fps_axis (s : imx290) (c : Z) :
  c .& COND_LANES_msk = 0 -> c .& COND_INCK_msk = 0 ->
  imx290_settings_match s c
  = (c .& COND_FPS_msk =? 0) || negb (c .& fps_bit (fps s) =? 0).
Proof.
  intros Hl Hi. rewrite imx290_settings_match_axes. unfold axis_ok.
  rewrite Hl, Hi. cbn [Z.eqb orb]. rewrite !Bool.andb_true_r. reflexivity.
Qed.

(** An instance: the 50/60 fps mask on a device at 30 fps. *)
Lemma imx290_settings_match_fps_axis_witness :
  imx290_settings_match (imx290_probed 2 INCK_37 OFF []) COND_50_60_FPS
  = (COND_50_60_FPS .& COND_FPS_msk =? 0)
    || negb (COND_50_60_FPS .& fps_bit FPS_30 =? 0).
Proof.
  apply (imx290_settings_match_fps_axis (imx290_probed 2 INCK_37 OFF []));
    reflexivity.
Defined.

(** X2: a mask that constrains the lane axis only matches with 2 lanes
    exactly when COND_2_LANES is set, with 4 lanes exactly when
    COND_4_LANES is set, and never with any other lane count. *)
Theorem imx290_settings_match_lanes_axis (s : imx290) (c : Z) :
  c .& COND_FPS_msk = 0 -> c .& COND_INCK_msk = 0 ->
  c .& COND_LANES_msk <> 0 ->
  imx290_settings_match s c
  = if nlanes s =? 2 then negb (c .& COND_2_LANES =? 0)
    else if nlanes s =? 4 then negb (c .& COND_4_LANES =? 0)
    else false.
Proof.
  intros Hf Hi Hl. rewrite imx290_settings_match_axes. unfold axis_ok.
  rewrite Hf, Hi. apply Z.eqb_neq in Hl. rewrite Hl.
  cbn [Z.eqb orb andb]. rewrite Bool.andb_true_r. unfold lanes_bit.
  destruct (nlanes s =? 2); [reflexivity|].
  destruct (nlanes s =? 4); [reflexivity|].
  rewrite Z.land_0_r. reflexivity.
Qed.

(** An instance: the 4-lane mask on a device wired with 3 lanes. *)
Lemma imx290_settings_match_lanes_axis_witness :
  imx290_settings_match (imx290_probed 3 INCK_37 OFF []) COND_4_LANES = false.
Proof.
  apply (imx290_settings_match_lanes_axis (imx290_probed 3 INCK_37 OFF []));
    [reflexivity | reflexivity | discriminate].
Defined.

(** ** Register tables under every configuration *)

Lemma nodupb_NoDup (l : list Z) : nodupb l = true -> NoDup l.
Proof.
  induction l as [|a l IH]; intros H; [constructor|].
  cbn [nodupb] in H. apply Bool.andb_true_iff in H. destruct H as [Ha Hl].
  constructor; [|apply IH; exact Hl].
  intros Hin. apply Bool.negb_true_iff in Ha.
  assert (existsb (Z.eqb a) l = true).
  { apply existsb_exists. exists a. split; [exact Hin | apply Z.eqb_refl]. }
  congruence.
Qed.

Lemma programmed_config (s : imx290) (t : list imx290_regval) :
  programmed s t = programmed (config_state (fps s) (nlanes s) (inck s)) t.
Proof. reflexivity. Qed.

Lemma programmed_any_config (t : list imx290_regval) :
  (forall f lanes clk, (lanes = 2 \/ lanes = 4) ->
     nodupb (programmed (config_state f lanes clk) t) = true /\
     programmed (config_state f lanes clk) t
     = programmed (config_state FPS_25 2 INCK_37) t) ->
  forall s s', valid_config s -> valid_config s' ->
    NoDup (programmed s t) /\ programmed s t = programmed s' t.
Proof.
  intros H s s' Hs Hs'.
  rewrite (programmed_config s), (programmed_config s').
  destruct (H (fps s) (nlanes s) (inck s) Hs) as [Hn He].
  destruct (H (fps s') (nlanes s') (inck s') Hs') as [_ He'].
  split; [apply nodupb_NoDup; exact Hn | congruence].
Qed.

(** X3: under every configuration with 2 or 4 lanes, each of the global
    init, 1080p, 720p and power-on tables programs each register at most
    once, and programs the same registers in the same order whatever the
    frame-rate class, lane count and input clock. *)
Theorem imx290_tables_program_each_register_once (s s' : imx290) :
  valid_config s -> valid_config s' ->
  Forall (fun t => NoDup (programmed s t) /\ programmed s t = programmed s' t)
    [ imx290_global_init_settings; imx290_1080p_settings;
      imx290_720p_settings; imx290_poweron_settings ].
Proof.
  intros Hs Hs'.
  repeat apply Forall_cons; try apply Forall_nil;
    (apply programmed_any_config; [|exact Hs|exact Hs']);
    intros f lanes clk [-> | ->]; destruct f, clk;
    split; vm_compute; reflexivity.
Qed.

(** An instance: 2 lanes at 37.125 MHz against 4 lanes at 74.25 MHz. *)
Lemma imx290_tables_program_each_register_once_witness :
  Forall (fun t =>
            NoDup (programmed (imx290_probed 2 INCK_37 OFF []) t) /\
            programmed (imx290_probed 2 INCK_37 OFF []) t
            = programmed (imx290_probed 4 INCK_74 OFF []) t)
    [ imx290_global_init_settings; imx290_1080p_settings;
      imx290_720p_settings; imx290_poweron_settings ].
Proof.
  apply imx290_tables_program_each_register_once; [left | right]; reflexivity.
Defined.

(** ** Checked write sequences *)

Lemma write_rets_app (a b : list event) :
  write_rets (a ++ b) = write_rets a ++ write_rets b.
Proof.
  induction a as [|[x v r|lo hi] a IH]; cbn [write_rets app];
    [reflexivity | rewrite IH; reflexivity | exact IH].
Qed.

Lemma write_rets_ok (l : list event) :
  Forall ok_event l -> exists k, write_rets l = repeat 0 k.
Proof.
  induction 1 as [|[x v r|lo hi] l He Hl [k IH]].
  - exists 0%nat. reflexivity.
  - cbn in He. subst r. exists (S k). cbn. rewrite IH. reflexivity.
  - exists k. exact IH.
Qed.

Lemma cut_stops (full new : list event) (ret : Z) :
  Forall ok_event full -> cut_at_failure full new ret ->
  stops_at_first_error (write_rets new) ret.
Proof.
  intros Hok [[-> ->] | (Hneg & pre & a & v & post & Hfull & ->)].
  - left. split; [reflexivity|].
    destruct (write_rets_ok _ Hok) as [k ->]. apply Forall_forall.
    intros x Hx. apply repeat_spec in Hx. exact Hx.
  - right. split; [exact Hneg|].
    rewrite Hfull in Hok. apply Forall_app in Hok. destruct Hok as [Hpre _].
    destruct (write_rets_ok _ Hpre) as [k Hk].
    exists k. rewrite write_rets_app, Hk. reflexivity.
Qed.

Lemma cut_cons_ok (e : event) (full new : list event) (ret : Z) :
  cut_at_failure full new ret -> cut_at_failure (e :: full) (e :: new) ret.
Proof.
  intros [[-> ->] | (Hneg & pre & a & v & post & -> & ->)].
  - left. auto.
  - right. split; [exact Hneg|]. exists (e :: pre), a, v, post. auto.
Qed.

Lemma cut_app_ok (l full new : list event) (ret : Z) :
  cut_at_failure full new ret -> cut_at_failure (l ++ full) (l ++ new) ret.
Proof.
  induction l as [|e l IH]; intros H; [exact H|].
  cbn [app]. apply cut_cons_ok, IH, H.
Qed.

Lemma cut_fail_here (a v : Z) (e : positive) (post : list event) :
  cut_at_failure (EvWrite a v 0 :: post) [EvWrite a v (Z.neg e)] (Z.neg e).
Proof.
  right. split; [lia|]. exists [], a, v, post. auto.
Qed.

Lemma writes_ok_events (l : list imx290_regval) : Forall ok_event (writes_ok l).
Proof. induction l; constructor; [reflexivity | assumption]. Qed.

(** One checked write: it fails with the scripted code or succeeds. *)
Lemma imx290_write_reg_cases (a v : Z) (s : imx290) :
  (exists e,
     imx290_write_reg a v s =
       Some (Z.neg e,
             set_regmap s {| faults := tl (faults (regmap s));
                             trace := trace (regmap s)
                                      ++ [EvWrite a v (Z.neg e)] |}))
  \/
  (imx290_write_reg a v s =
     Some (0, set_regmap s {| faults := tl (faults (regmap s));
                              trace := trace (regmap s)
                                       ++ [EvWrite a v 0] |})
   /\ Forall bus_ok (firstn 1 (faults (regmap s)))).
Proof.
  unfold imx290_write_reg. rewrite regmap_write_run.
  destruct (faults (regmap s)) as [|[|e] f].
  - right. split; [reflexivity | constructor].
  - right. split; [reflexivity | repeat constructor].
  - left. exists e. reflexivity.
Qed.

Lemma imx290_write_reg_ok (a v : Z) (s : imx290) :
  Forall bus_ok (firstn 1 (faults (regmap s))) ->
  imx290_write_reg a v s =
    Some (0, set_regmap s {| faults := skipn 1 (faults (regmap s));
                             trace := trace (regmap s)
                                      ++ [EvWrite a v 0] |}).
Proof.
  intros H. unfold imx290_write_reg. rewrite regmap_write_run.
  destruct (faults (regmap s)) as [|[|e] f]; try reflexivity.
  inversion H as [|? ? Hb _]. discriminate Hb.
Qed.

(** The outcome of a table application as a cut of its full run. *)
Lemma applied_cut (s : imx290) (t : list imx290_regval) (ret : Z)
  (s' : imx290) :
  applied s t ret s' ->
  exists new,
    trace (regmap s') = trace (regmap s) ++ new /\
    cut_at_failure (writes_ok (selected s t) ++ [EvSleep 10000 11000])
                   new ret.
Proof.
  intros (m' & -> & [(-> & Ht & _) | (pre & x & post & e & Hsel & -> & _ & Ht & _)]).
  - eexists. split; [exact Ht|]. left. auto.
  - eexists. split; [exact Ht|]. right. split; [lia|].
    exists (writes_ok pre), (reg x), (val x),
      (writes_ok post ++ [EvSleep 10000 11000]).
    split; [|reflexivity].
    rewrite Hsel. unfold writes_ok. rewrite map_app. cbn [map].
    rewrite <- app_assoc. reflexivity.
Qed.

Lemma applied_stops (s : imx290) (t : list imx290_regval) (ret : Z)
  (s' : imx290) :
  applied s t ret s' ->
  exists new,
    trace (regmap s') = trace (regmap s) ++ new /\
    stops_at_first_error (write_rets new) ret.
Proof.
  intros H. destruct (applied_cut _ _ _ _ H) as (new & Ht & Hc).
  exists new. split; [exact Ht|].
  eapply cut_stops; [|exact Hc].
  apply Forall_app. split; [apply writes_ok_events | repeat constructor].
Qed.

(** ** Buffered multi-byte write *)

Lemma to_u8_small (x : Z) : 0 <= x < 2 ^ 8 -> to_u8 x = x.
Proof. intros H. unfold to_u8. apply Z.mod_small. lia. Qed.

Lemma to_u32_idem (x : Z) : to_u32 (to_u32 x) = to_u32 x.
Proof. unfold to_u32. apply Z.mod_mod. lia. Qed.

Lemma le_bytes_length (value : Z) (n : nat) : length (le_bytes value n) = n.
Proof.
  revert value. induction n as [|n IH]; intros value;
    [reflexivity | cbn; rewrite IH; reflexivity].
Qed.

Lemma le_value_le_bytes (value : Z) (n : nat) :
  le_value (le_bytes value n) = value mod 2 ^ (8 * Z.of_nat n).
Proof.
  revert value. induction n as [|n IH]; intros value.
  - cbn. rewrite Z.mod_1_r. reflexivity.
  - cbn [le_bytes le_value]. rewrite IH. unfold to_u8.
    rewrite Z.shiftr_div_pow2 by lia.
    replace (8 * Z.of_nat (S n)) with (8 + 8 * Z.of_nat n) by lia.
    rewrite Z.pow_add_r by lia.
    change (2 ^ 8) with 256.
    rewrite Z.rem_mul_r by lia. reflexivity.
Qed.

Lemma tl_skipn {A : Type} (n : nat) (l : list A) :
  tl (skipn n l) = skipn (S n) l.
Proof.
  revert l. induction n as [|n IH]; intros l; [reflexivity|].
  destruct l as [|a l]; [reflexivity|]. cbn [skipn]. rewrite IH.
  reflexivity.
Qed.

Lemma writes_from_events (addr : Z) (bytes : list Z) :
  Forall ok_event (writes_from addr bytes).
Proof.
  revert addr. induction bytes as [|b l IH]; intros addr;
    constructor; [reflexivity | apply IH].
Qed.

Lemma write_buffered_loop_cut (n : nat) :
  forall address_low value i s, 0 <= i -> i + Z.of_nat n <= 4 ->
  exists ret m' new,
    write_buffered_loop address_low value i n s
      = Some (ret, set_regmap s m') /\
    trace m' = trace (regmap s) ++ new /\
    cut_at_failure
      (writes_from (address_low + i) (le_bytes (Z.shiftr value (i * 8)) n))
      new ret /\
    (ret = 0 -> faults m' = skipn n (faults (regmap s))).
Proof.
  induction n as [|n IH]; intros address_low value i s Hi Hn.
  - exists 0, (regmap s), []. cbn [write_buffered_loop].
    unfold Ret. rewrite set_regmap_same, app_nil_r.
    repeat split; auto. left. auto.
  - cbn [write_buffered_loop le_bytes writes_from].
    destruct (Z.leb_spec 32 (i * 8)) as [L|L]; [lia|]. unfold Bind.
    destruct (imx290_write_reg_cases (to_u16 (address_low + i))
                (to_u8 (Z.shiftr value (i * 8))) s) as [[e Hw] | [Hw _]];
      rewrite Hw.
    + cbn. eexists _, _, _. split; [reflexivity|]. cbn [trace].
      split; [reflexivity|]. split; [apply cut_fail_here | lia].
    + cbn [Z.eqb negb].
      match goal with
      | |- context [write_buffered_loop _ _ _ _ ?s1] =>
          destruct (IH address_low value (i + 1) s1 ltac:(lia) ltac:(lia))
            as (ret & m' & new & Hrun & Ht & Hc & Hf)
      end.
      rewrite Hrun. exists ret, m', (EvWrite (to_u16 (address_low + i))
                                     (to_u8 (Z.shiftr value (i * 8))) 0 :: new).
      rewrite set_regmap_twice. split; [reflexivity|].
      cbn [regmap set_regmap trace faults] in Ht, Hf.
      split; [rewrite Ht, <- app_assoc; reflexivity|].
      split.
      * apply cut_cons_ok.
        rewrite Z.shiftr_shiftr by lia.
        replace (i * 8 + 8) with ((i + 1) * 8) by lia.
        replace (address_low + i + 1) with (address_low + (i + 1)) by lia.
        exact Hc.
      * intros H0. rewrite (Hf H0). apply skipn_tl.
Qed.

Lemma imx290_write_buffered_reg_cut (address_low nr_regs value : Z)
  (s : imx290) :
  0 <= nr_regs <= 4 ->
  exists ret m' new,
    imx290_write_buffered_reg address_low nr_regs value s
      = Some (ret, set_regmap s m') /\
    trace m' = trace (regmap s) ++ new /\
    cut_at_failure
      (buffered_events address_low
         (le_bytes (to_u32 value) (Z.to_nat nr_regs)))
      new ret /\
    (ret = 0 ->
     faults m' = skipn (Z.to_nat nr_regs + 2) (faults (regmap s))).
Proof.
  intros Hnr.
  unfold imx290_write_buffered_reg, buffered_events. cbv zeta.
  rewrite (to_u8_small nr_regs) by lia. unfold Bind.
  destruct (imx290_write_reg_cases IMX290_REGHOLD 1 s) as [[e Hw] | [Hw _]];
    rewrite Hw.
  - cbn. eexists _, _, _. split; [reflexivity|]. cbn [trace].
    split; [reflexivity|]. split; [apply cut_fail_here | lia].
  - cbn [Z.eqb negb].
    match goal with
    | |- context [write_buffered_loop _ _ _ _ ?s1] =>
        destruct (write_buffered_loop_cut (Z.to_nat nr_regs) address_low
                    (to_u32 value) 0 s1 ltac:(lia) ltac:(lia))
          as (ret & m1 & new & Hrun & Ht & Hc & Hf)
    end.
    rewrite Hrun. rewrite set_regmap_twice.
    cbn [regmap set_regmap trace faults] in Ht, Hf.
    rewrite Z.add_0_r in Hc. change (0 * 8) with 0 in Hc.
    rewrite Z.shiftr_0_r in Hc.
    destruct Hc as [[-> ->] | (Hneg & pre & a & v & post & Hfull & ->)].
    + cbn [Z.eqb negb].
      destruct (imx290_write_reg_cases IMX290_REGHOLD 0 (set_regmap s m1))
        as [[e Hw2] | [Hw2 _]]; rewrite Hw2; unfold Ret;
        rewrite set_regmap_twice; cbn [regmap set_regmap].
      * eexists _, _, _. split; [reflexivity|]. cbn [trace].
        split; [rewrite Ht, <- !app_assoc; reflexivity|].
        split; [|lia]. cbn [app]. apply cut_cons_ok.
        apply cut_app_ok. apply cut_fail_here.
      * eexists _, _, _. split; [reflexivity|]. cbn [trace faults].
        split; [rewrite Ht, <- !app_assoc; reflexivity|].
        split; [left; auto|].
        intros _. rewrite (Hf eq_refl), skipn_tl, tl_skipn.
        f_equal. lia.
    + destruct (Z.eqb_spec ret 0) as [E|E]; [lia|]. cbn [negb]. unfold Ret.
      eexists _, _, _. split; [reflexivity|].
      split; [rewrite Ht, <- app_assoc; reflexivity|].
      split; [|lia]. right. split; [exact Hneg|].
      exists (EvWrite IMX290_REGHOLD 1 0 :: pre), a, v,
        (post ++ [EvWrite IMX290_REGHOLD 0 0]).
      rewrite Hfull. cbn [app]. rewrite <- app_assoc. auto.
Qed.

Lemma write_buffered_loop_ok (n : nat) :
  forall address_low value i s, 0 <= i -> i + Z.of_nat n <= 4 ->
  Forall bus_ok (firstn n (faults (regmap s))) ->
  write_buffered_loop address_low value i n s =
    Some (0, set_regmap s
               {| faults := skipn n (faults (regmap s));
                  trace := trace (regmap s)
                    ++ writes_from (address_low + i)
                         (le_bytes (Z.shiftr value (i * 8)) n) |}).
Proof.
  induction n as [|n IH]; intros address_low value i s Hi Hb HF.
  - cbn. unfold Ret. rewrite app_nil_r.
    destruct s as [? [? ?] ? ? ? ? ? ? ? ? ? ? ?]. reflexivity.
  - cbn [write_buffered_loop le_bytes writes_from].
    destruct (Z.leb_spec 32 (i * 8)) as [L|L]; [lia|]. unfold Bind.
    destruct (Forall_firstn_skipn _ _ 1 n HF) as [H1 Hn].
    rewrite (imx290_write_reg_ok _ _ _ H1). cbn [Z.eqb negb].
    rewrite IH; [|lia|lia|exact Hn].
    rewrite set_regmap_twice. cbn [regmap set_regmap trace faults].
    rewrite Z.shiftr_shiftr by lia.
    replace (i * 8 + 8) with ((i + 1) * 8) by lia.
    replace (address_low + i + 1) with (address_low + (i + 1)) by lia.
    rewrite <- app_assoc, skipn_skipn, Nat.add_1_r. reflexivity.
Qed.

Lemma imx290_write_buffered_reg_ok (address_low nr_regs value : Z)
  (s : imx290) :
  0 <= nr_regs <= 4 ->
  Forall bus_ok (firstn (Z.to_nat nr_regs + 2) (faults (regmap s))) ->
  imx290_write_buffered_reg address_low nr_regs value s =
    Some (0, set_regmap s
               {| faults := skipn (Z.to_nat nr_regs + 2) (faults (regmap s));
                  trace := trace (regmap s)
                    ++ buffered_events address_low
                         (le_bytes (to_u32 value) (Z.to_nat nr_regs)) |}).
Proof.
  intros Hnr HF. unfold imx290_write_buffered_reg, buffered_events.
  cbv zeta. rewrite (to_u8_small nr_regs) by lia. unfold Bind.
  replace (Z.to_nat nr_regs + 2)%nat with (1 + (Z.to_nat nr_regs + 1))%nat
    in * by lia.
  destruct (Forall_firstn_skipn _ _ _ _ HF) as [H1 Hrest].
  destruct (Forall_firstn_skipn _ _ _ _ Hrest) as [Hn Hlast].
  rewrite (imx290_write_reg_ok _ _ _ H1). cbn [Z.eqb negb].
  rewrite write_buffered_loop_ok; [|lia|lia|exact Hn].
  cbn [Z.eqb negb]. rewrite set_regmap_twice.
  rewrite imx290_write_reg_ok; [|exact Hlast].
  unfold Ret. rewrite set_regmap_twice.
  cbn [regmap set_regmap trace faults].
  rewrite Z.add_0_r. change (0 * 8) with 0. rewrite Z.shiftr_0_r.
  rewrite !skipn_skipn. rewrite <- !app_assoc.
  replace (1 + Z.to_nat nr_regs + 1)%nat
    with (1 + (Z.to_nat nr_regs + 1))%nat by lia.
  reflexivity.
Qed.

(** X4: the buffered write helper with at most 4 bytes, on any bus.  It
    issues hold, the [nr_regs] low bytes of the value (a u32) to
    consecutive registers starting at [address_low], low byte first, and
    release, with no settle delay; the bytes decode to the value modulo
    [2^(8 * nr_regs)].  The first failing write ends the sequence and its
    code is the result, so hold stays asserted when a data write or the
    release fails. *)
Theorem imx290_write_buffered_reg_spec (address_low nr_regs value : Z)
  (s : imx290) :
  0 <= nr_regs <= 4 ->
  let bytes := le_bytes (to_u32 value) (Z.to_nat nr_regs) in
  le_value bytes = value mod 2 ^ (8 * nr_regs) /\
  exists ret m' new,
    imx290_write_buffered_reg address_low nr_regs value s
      = Some (ret, set_regmap s m') /\
    trace m' = trace (regmap s) ++ new /\
    cut_at_failure (buffered_events address_low bytes) new ret.
Proof.
  intros Hnr bytes. split.
  - unfold bytes. rewrite le_value_le_bytes, Z2Nat.id by lia.
    unfold to_u32. apply Z.mod_mod_divide.
    exists (2 ^ (32 - 8 * nr_regs)).
    rewrite <- Z.pow_add_r by lia. f_equal. lia.
  - destruct (imx290_write_buffered_reg_cut address_low nr_regs value s Hnr)
      as (ret & m' & new & Hrun & Ht & Hc & _).
    exists ret, m', new. auto.
Qed.

(** An instance: two bytes of 0x11234 to the exposure registers, on a bus
    that refuses the second data byte. *)
Lemma imx290_write_buffered_reg_spec_witness :
  let s := imx290_probed 2 INCK_37 POWERED_IDLE
             [BusOk; BusOk; BusError EIO] in
  le_value (le_bytes (to_u32 0x11234) 2) = 0x11234 mod 2 ^ (8 * 2) /\
  exists ret m' new,
    imx290_write_buffered_reg 0x3020 2 0x11234 s
      = Some (ret, set_regmap s m') /\
    trace m' = trace (regmap s) ++ new /\
    cut_at_failure
      (buffered_events 0x3020 (le_bytes (to_u32 0x11234) 2)) new ret.
Proof.
  intros s.
  apply (imx290_write_buffered_reg_spec 0x3020 2 0x11234 s). lia.
Defined.

(** ** Control updates *)

Lemma pm_powered (s : imx290) :
  dev s <> OFF -> pm_runtime_get_if_in_use s = Some (1, s).
Proof.
  intros H. unfold pm_runtime_get_if_in_use, Bind, Get. cbv beta.
  destruct (dev s); [contradiction | reflexivity | reflexivity].
Qed.

(** A control update on a powered device is the update of its branch. *)
Lemma imx290_set_ctrl_powered (s : imx290) (ctrl : v4l2_ctrl)
  (body : drv Z) :
  dev s <> OFF ->
  (forall s0, imx290_set_ctrl ctrl s0 =
     (in_use <- pm_runtime_get_if_in_use ;;
      if in_use =? 0 then Ret 0
      else ret <- body ;; pm_runtime_put ;;; Ret ret) s0) ->
  imx290_set_ctrl ctrl s =
    match body s with
    | Some (ret, s') => Some (ret, s')
    | None => None
    end.
Proof.
  intros Hp Hbody. rewrite Hbody. unfold Bind at 1.
  rewrite (pm_powered s Hp). cbn [Z.eqb]. unfold Bind, pm_runtime_put, Ret.
  destruct (body s) as [[ret s']|]; reflexivity.
Qed.

Lemma imx290_set_ctrl_gain (s : imx290) (ctrl : v4l2_ctrl) :
  dev s <> OFF -> id ctrl = V4L2_CID_GAIN ->
  imx290_set_ctrl ctrl s =
    imx290_write_buffered_reg IMX290_GAIN 1 (to_u32 (ctrl_val ctrl)) s.
Proof.
  intros Hp Hid.
  rewrite (imx290_set_ctrl_powered s ctrl
             (imx290_set_gain (to_u32 (ctrl_val ctrl))) Hp).
  - unfold imx290_set_gain.
    destruct (imx290_write_buffered_reg _ _ _ s) as [[ret s']|]; reflexivity.
  - intros s0. unfold imx290_set_ctrl. rewrite Hid. reflexivity.
Qed.

(** X5: on a powered device whose bus accepts the next three writes, a
    gain update with a code in [0 .. 255] returns 0 and issues exactly hold,
    the code to the gain register, release. *)
Theorem imx290_set_ctrl_gain_ok (s : imx290) (ctrl : v4l2_ctrl) :
  dev s <> OFF -> id ctrl = V4L2_CID_GAIN ->
  0 <= ctrl_val ctrl < 256 ->
  Forall bus_ok (firstn 3 (faults (regmap s))) ->
  imx290_set_ctrl ctrl s =
    Some (0, set_regmap s
               {| faults := skipn 3 (faults (regmap s));
                  trace := trace (regmap s)
                    ++ [ EvWrite IMX290_REGHOLD 0x01 0;
                         EvWrite IMX290_GAIN (ctrl_val ctrl) 0;
                         EvWrite IMX290_REGHOLD 0x00 0 ] |}).
Proof.
  intros Hp Hid Hv HF. rewrite (imx290_set_ctrl_gain s ctrl Hp Hid).
  rewrite imx290_write_buffered_reg_ok; [|lia|exact HF].
  change (Z.to_nat 1) with 1%nat.
  cbn [le_bytes buffered_events writes_from app Nat.add].
  rewrite to_u32_idem, (to_u32_small (ctrl_val ctrl)) by lia.
  unfold to_u8. rewrite (Z.mod_small (ctrl_val ctrl)) by lia.
  reflexivity.
Qed.

(** An instance: gain code 100 on a freshly powered device. *)
Lemma imx290_set_ctrl_gain_ok_witness :
  imx290_set_ctrl {| id := V4L2_CID_GAIN; ctrl_val := 100; maximum := 240 |}
                  (imx290_probed 2 INCK_37 POWERED_IDLE [])
  = Some (0, set_regmap (imx290_probed 2 INCK_37 POWERED_IDLE [])
               {| faults := [];
                  trace := [ EvWrite IMX290_REGHOLD 0x01 0;
                             EvWrite IMX290_GAIN 100 0;
                             EvWrite IMX290_REGHOLD 0x00 0 ] |}).
Proof.
  apply (imx290_set_ctrl_gain_ok
           (imx290_probed 2 INCK_37 POWERED_IDLE [])
           {| id := V4L2_CID_GAIN; ctrl_val := 100; maximum := 240 |}).
  - discriminate.
  - reflexivity.
  - cbn. lia.
  - constructor.
Defined.

Lemma buffered_events_ok (address_low : Z) (bytes : list Z) :
  Forall ok_event (buffered_events address_low bytes).
Proof.
  unfold buffered_events. constructor; [reflexivity|].
  apply Forall_app. split; [apply writes_from_events | repeat constructor].
Qed.

Lemma imx290_set_register_array_stops (t : list imx290_regval)
  (s : imx290) (ret : Z) (s' : imx290) :
  imx290_set_register_array t s = Some (ret, s') ->
  exists new,
    trace (regmap s') = trace (regmap s) ++ new /\
    stops_at_first_error (write_rets new) ret.
Proof.
  intros Hrun.
  destruct (imx290_set_register_array_applied t s) as (r & s1 & Hr & Ha).
  rewrite Hr in Hrun. injection Hrun as <- <-.
  apply (applied_stops _ _ _ _ Ha).
Qed.

Lemma stops_nothing : stops_at_first_error (write_rets []) 0.
Proof. left. split; [reflexivity | constructor]. Qed.

Lemma imx290_set_ctrl_off (s : imx290) (ctrl : v4l2_ctrl) :
  dev s = OFF -> imx290_set_ctrl ctrl s = Some (0, s).
Proof.
  intros H. unfold imx290_set_ctrl, pm_runtime_get_if_in_use, Bind, Get.
  cbv beta. rewrite H. reflexivity.
Qed.

Lemma imx290_set_ctrl_exposure (s : imx290) (ctrl : v4l2_ctrl) :
  dev s <> OFF -> id ctrl = V4L2_CID_EXPOSURE ->
  imx290_set_ctrl ctrl s = imx290_set_exposure ctrl s.
Proof.
  intros Hp Hid.
  rewrite (imx290_set_ctrl_powered s ctrl (imx290_set_exposure ctrl) Hp).
  - destruct (imx290_set_exposure ctrl s) as [[ret s']|]; reflexivity.
  - intros s0. unfold imx290_set_ctrl. rewrite Hid. reflexivity.
Qed.

Lemma imx290_set_ctrl_flip (s : imx290) (ctrl : v4l2_ctrl) :
  dev s <> OFF -> id ctrl = V4L2_CID_VFLIP \/ id ctrl = V4L2_CID_HFLIP ->
  imx290_set_ctrl ctrl s = imx290_set_flip ctrl s.
Proof.
  intros Hp Hid.
  rewrite (imx290_set_ctrl_powered s ctrl (imx290_set_flip ctrl) Hp).
  - destruct (imx290_set_flip ctrl s) as [[ret s']|]; reflexivity.
  - intros s0. unfold imx290_set_ctrl.
    destruct Hid as [Hid | Hid]; rewrite Hid; reflexivity.
Qed.

Lemma imx290_set_ctrl_cg (s : imx290) (ctrl : v4l2_ctrl) :
  dev s <> OFF -> id ctrl = V4L2_CID_IMX290_CG_SWITCH ->
  imx290_set_ctrl ctrl s =
    imx290_set_register_array
      (imx290_cg_switch_regs (if ctrl_val ctrl =? 0 then 0 else BIT 4)) s.
Proof.
  intros Hp Hid.
  rewrite (imx290_set_ctrl_powered s ctrl
             (imx290_set_register_array
                (imx290_cg_switch_regs
                   (if ctrl_val ctrl =? 0 then 0 else BIT 4))) Hp).
  - destruct (imx290_set_register_array _ s) as [[ret s']|]; reflexivity.
  - intros s0. unfold imx290_set_ctrl. rewrite Hid. reflexivity.
Qed.

Lemma imx290_set_ctrl_read_only (s : imx290) (ctrl : v4l2_ctrl) :
  id ctrl = V4L2_CID_LINK_FREQ \/ id ctrl = V4L2_CID_PIXEL_RATE ->
  imx290_set_ctrl ctrl s = Some (0, s).
Proof.
  intros Hid. destruct (dev s) eqn:Hd; [apply imx290_set_ctrl_off; exact Hd| |];
    (rewrite (imx290_set_ctrl_powered s ctrl (Ret 0));
     [reflexivity | congruence |
      intros s0; unfold imx290_set_ctrl;
      destruct Hid as [Hid | Hid]; rewrite Hid; reflexivity]).
Qed.

Lemma imx290_set_flip_stops (s : imx290) (ctrl : v4l2_ctrl) (ret : Z)
  (s' : imx290) :
  imx290_set_flip ctrl s = Some (ret, s') ->
  exists new,
    trace (regmap s') = trace (regmap s) ++ new /\
    stops_at_first_error (write_rets new) ret.
Proof.
  unfold imx290_set_flip, Bind, Get.
  destruct (imx290_set_register_array _ s) as [[rc s1]|] eqn:Hrun;
    [|discriminate].
  destruct (imx290_set_register_array_stops _ _ _ _ Hrun)
    as (new & Ht & Hs).
  destruct (Z.ltb_spec rc 0) as [Hneg | Hpos].
  - intros [= <- <-]. exists new. auto.
  - intros [= <- <-]. exists new. split; [exact Ht|].
    destruct Hs as [[-> H0] | [Hlt _]]; [left; auto | lia].
Qed.

Lemma imx290_set_exposure_stops (s : imx290) (ctrl : v4l2_ctrl) (ret : Z)
  (s' : imx290) :
  imx290_set_exposure ctrl s = Some (ret, s') ->
  exists new,
    trace (regmap s') = trace (regmap s) ++ new /\
    stops_at_first_error (write_rets new) ret.
Proof.
  unfold imx290_set_exposure, Bind, Get.
  destruct (vmax s =? 0).
  - intros [= <- <-]. exists []. rewrite app_nil_r.
    split; [reflexivity | apply stops_nothing].
  - destruct (maximum ctrl =? 0); [discriminate|].
    apply imx290_set_register_array_stops.
Qed.

(** X6: for gain, exposure, the two flips, the conversion-gain switch and
    the two read-only controls, a control update stops at the first bus
    write that fails and returns its code, and returns 0 only when every
    write it issued succeeded: the return codes of the writes it adds to
    the trace are all 0 with result 0, or zeros followed by the negative
    result. *)
Theorem imx290_set_ctrl_reports_first_error (s : imx290) (ctrl : v4l2_ctrl)
  (ret : Z) (s' : imx290) :
  In (id ctrl) checked_controls ->
  imx290_set_ctrl ctrl s = Some (ret, s') ->
  exists new,
    trace (regmap s') = trace (regmap s) ++ new /\
    stops_at_first_error (write_rets new) ret.
Proof.
  intros Hin Hrun.
  assert (Hnone : ret = 0 -> s' = s -> exists new,
             trace (regmap s') = trace (regmap s) ++ new /\
             stops_at_first_error (write_rets new) ret).
  { intros -> ->. exists []. rewrite app_nil_r.
    split; [reflexivity | apply stops_nothing]. }
  destruct (dev s) eqn:Hd.
  { rewrite (imx290_set_ctrl_off _ _ Hd) in Hrun. injection Hrun as <- <-.
    apply Hnone; reflexivity. }
  all: assert (Hp : dev s <> OFF) by congruence.
  all: unfold checked_controls in Hin; cbn [In] in Hin.
  all: destruct Hin as [H|[H|[H|[H|[H|[H|[H|[]]]]]]]]; symmetry in H.
  all: try (rewrite (imx290_set_ctrl_gain s ctrl Hp H) in Hrun;
            destruct (imx290_write_buffered_reg_cut IMX290_GAIN 1
                        (to_u32 (ctrl_val ctrl)) s ltac:(lia))
              as (r & m' & new & Hr & Ht & Hc & _);
            rewrite Hr in Hrun; injection Hrun as <- <-;
            exists new; split; [exact Ht|];
            exact (cut_stops _ _ _ (buffered_events_ok _ _) Hc)).
  all: try (rewrite (imx290_set_ctrl_exposure s ctrl Hp H) in Hrun;
            exact (imx290_set_exposure_stops _ _ _ _ Hrun)).
  all: try (rewrite (imx290_set_ctrl_flip s ctrl Hp (or_introl H)) in Hrun;
            exact (imx290_set_flip_stops _ _ _ _ Hrun)).
  all: try (rewrite (imx290_set_ctrl_flip s ctrl Hp (or_intror H)) in Hrun;
            exact (imx290_set_flip_stops _ _ _ _ Hrun)).
  all: try (rewrite (imx290_set_ctrl_cg s ctrl Hp H) in Hrun;
            exact (imx290_set_register_array_stops _ _ _ _ Hrun)).
  all: try (rewrite (imx290_set_ctrl_read_only s ctrl (or_introl H)) in Hrun;
            injection Hrun as <- <-; apply Hnone; reflexivity).
  all: try (rewrite (imx290_set_ctrl_read_only s ctrl (or_intror H)) in Hrun;
            injection Hrun as <- <-; apply Hnone; reflexivity).
Qed.

(** An instance: a gain update whose release write fails with -EIO. *)
Lemma imx290_set_ctrl_reports_first_error_witness :
  exists new,
    new = [ EvWrite IMX290_REGHOLD 0x01 0; EvWrite IMX290_GAIN 100 0;
            EvWrite IMX290_REGHOLD 0x00 (Z.neg EIO) ] /\
    stops_at_first_error (write_rets new) (Z.neg EIO).
Proof.
  destruct (imx290_set_ctrl_reports_first_error
              (imx290_probed 2 INCK_37 POWERED_IDLE [BusOk; BusOk; BusError EIO])
              {| id := V4L2_CID_GAIN; ctrl_val := 100; maximum := 240 |}
              (Z.neg EIO)
              (set_regmap
                 (imx290_probed 2 INCK_37 POWERED_IDLE
                    [BusOk; BusOk; BusError EIO])
                 {| faults := [];
                    trace := [ EvWrite IMX290_REGHOLD 0x01 0;
                               EvWrite IMX290_GAIN 100 0;
                               EvWrite IMX290_REGHOLD 0x00 (Z.neg EIO) ] |})
              (or_introl eq_refl) eq_refl)
    as (new & Ht & Hs).
  exists new. split; [symmetry; exact Ht | exact Hs].
Defined.

(** X7: while powered, a control the driver does not handle is refused
    with -EINVAL; nothing is written and the state is unchanged. *)
Theorem imx290_set_ctrl_unknown (s : imx290) (ctrl : v4l2_ctrl) :
  dev s <> OFF ->
  ~ In (id ctrl) (V4L2_CID_TEST_PATTERN :: checked_controls) ->
  imx290_set_ctrl ctrl s = Some (Z.neg EINVAL, s).
Proof.
  intros Hp Hn.
  assert (Hne : forall c, In c (V4L2_CID_TEST_PATTERN :: checked_controls) ->
                      (id ctrl =? c) = false).
  { intros c Hc. apply Z.eqb_neq. intros E. apply Hn. rewrite E. exact Hc. }
  rewrite (imx290_set_ctrl_powered s ctrl (Ret (Z.neg EINVAL)) Hp);
    [reflexivity|].
  intros s0. unfold imx290_set_ctrl.
  rewrite (Hne V4L2_CID_GAIN), (Hne V4L2_CID_TEST_PATTERN),
    (Hne V4L2_CID_EXPOSURE), (Hne V4L2_CID_VFLIP), (Hne V4L2_CID_HFLIP),
    (Hne V4L2_CID_IMX290_CG_SWITCH), (Hne V4L2_CID_LINK_FREQ),
    (Hne V4L2_CID_PIXEL_RATE)
    by (unfold checked_controls; cbn [In]; tauto).
  reflexivity.
Qed.

(** An instance: the brightness control. *)
Lemma imx290_set_ctrl_unknown_witness :
  imx290_set_ctrl {| id := V4L2_CID_USER_BASE; ctrl_val := 1; maximum := 1 |}
                  (imx290_probed 2 INCK_37 POWERED_IDLE [BusError EIO])
  = Some (Z.neg EINVAL, imx290_probed 2 INCK_37 POWERED_IDLE [BusError EIO]).
Proof.
  apply imx290_set_ctrl_unknown.
  - discriminate.
  - unfold checked_controls. cbn [In id].
    intros H. repeat (destruct H as [H|H]; [discriminate H|]). exact H.
Defined.

(** X8: on a powered device whose bus accepts the next three writes, a
    conversion-gain update returns 0 and writes register 0x3009 exactly
    once, between hold and release and followed by the settle delay: the
    value is 0x01 at 50 or 60 fps and 0x02 at 25 or 30 fps, with bit 4 set
    when the control value is not 0. *)
Theorem imx290_set_ctrl_cg_switch (s : imx290) (ctrl : v4l2_ctrl) :
  dev s <> OFF -> id ctrl = V4L2_CID_IMX290_CG_SWITCH ->
  Forall bus_ok (firstn 3 (faults (regmap s))) ->
  let base := match fps s with
              | FPS_25 | FPS_30 => 0x02
              | FPS_50 | FPS_60 => 0x01
              end in
  let v := if ctrl_val ctrl =? 0 then 0 else BIT 4 in
  imx290_set_ctrl ctrl s =
    Some (0, set_regmap s
               {| faults := skipn 3 (faults (regmap s));
                  trace := trace (regmap s)
                    ++ [ EvWrite IMX290_REGHOLD 0x01 0;
                         EvWrite 0x3009 (base .| v) 0;
                         EvWrite IMX290_REGHOLD 0x00 0;
                         EvSleep 10000 11000 ] |}).
Proof.
  intros Hp Hid HF base v. rewrite (imx290_set_ctrl_cg s ctrl Hp Hid).
  fold v.
  assert (Hsel : selected s (imx290_cg_switch_regs v)
                 = [ rv 0x3001 0x01 0;
                     rv 0x3009 (base .| v) COND_50_60_FPS;
                     rv 0x3001 0x00 0 ]
                 \/ selected s (imx290_cg_switch_regs v)
                 = [ rv 0x3001 0x01 0;
                     rv 0x3009 (base .| v) COND_25_30_FPS;
                     rv 0x3001 0x00 0 ]).
  { unfold selected, imx290_cg_switch_regs. cbn [filter cond].
    rewrite !imx290_settings_match_axes. unfold axis_ok, base.
    destruct (fps s); cbn; auto. }
  rewrite imx290_set_register_array_ok.
  - destruct Hsel as [-> | ->]; reflexivity.
  - destruct Hsel as [-> | ->]; exact HF.
Qed.

(** An instance: switching to low conversion gain at 30 fps. *)
Lemma imx290_set_ctrl_cg_switch_witness :
  imx290_set_ctrl {| id := V4L2_CID_IMX290_CG_SWITCH; ctrl_val := 1;
                     maximum := 1 |}
                  (imx290_probed 2 INCK_37 POWERED_IDLE [])
  = Some (0, set_regmap (imx290_probed 2 INCK_37 POWERED_IDLE [])
               {| faults := [];
                  trace := [ EvWrite IMX290_REGHOLD 0x01 0;
                             EvWrite 0x3009 0x12 0;
                             EvWrite IMX290_REGHOLD 0x00 0;
                             EvSleep 10000 11000 ] |}).
Proof.
  apply (imx290_set_ctrl_cg_switch
           (imx290_probed 2 INCK_37 POWERED_IDLE [])
           {| id := V4L2_CID_IMX290_CG_SWITCH; ctrl_val := 1; maximum := 1 |}).
  - discriminate.
  - reflexivity.
  - constructor.
Defined.

(** ** Format negotiation *)

Lemma imx290_modes_ptr_cases (s : imx290) (m : imx290_mode) :
  In m (imx290_modes_ptr s) ->
  m = {| width := 1920; height := 1080;
         link_freq_index := FREQ_INDEX_1080P;
         data := imx290_1080p_settings |}
  \/ m = {| width := 1280; height := 720;
            link_freq_index := FREQ_INDEX_720P;
            data := imx290_720p_settings |}.
Proof.
  unfold imx290_modes_ptr, imx290_modes_2lanes, imx290_modes_4lanes.
  destruct (nlanes s =? 2); cbn [In]; intros [H | [H | []]]; auto.
Qed.

Lemma v4l2_find_nearest_size_in (s : imx290) (w h : Z) :
  exists m,
    v4l2_find_nearest_size (imx290_modes_ptr s) w h = Some m /\
    In m (imx290_modes_ptr s).
Proof.
  unfold v4l2_find_nearest_size, imx290_modes_ptr.
  destruct (nlanes s =? 2);
    unfold imx290_modes_2lanes, imx290_modes_4lanes;
    cbn [find_nearest_from];
    match goal with
    | |- context [if ?c then _ else _] => destruct c
    end; eexists; (split; [reflexivity|]); cbn [In]; auto.
Qed.

(** A size of the catalog is its own nearest size. *)
Lemma v4l2_find_nearest_size_exact (s : imx290) (m : imx290_mode) :
  In m (imx290_modes_ptr s) ->
  v4l2_find_nearest_size (imx290_modes_ptr s) (width m) (height m) = Some m.
Proof.
  intros Hin. destruct (imx290_modes_ptr_cases s m Hin) as [-> | ->];
    unfold imx290_modes_ptr;
    destruct (nlanes s =? 2); reflexivity.
Qed.

Lemma imx290_pick_format_cases (c : Z) :
  (c = MEDIA_BUS_FMT_SRGGB12_1X12 /\
   imx290_pick_format c
   = Some {| code := MEDIA_BUS_FMT_SRGGB12_1X12; pix_bpp := 12 |})
  \/
  (c <> MEDIA_BUS_FMT_SRGGB12_1X12 /\
   imx290_pick_format c
   = Some {| code := MEDIA_BUS_FMT_SRGGB10_1X10; pix_bpp := 10 |}).
Proof.
  unfold imx290_pick_format, imx290_formats. cbn [find_format code].
  destruct (Z.eqb_spec MEDIA_BUS_FMT_SRGGB10_1X10 c) as [E1|E1].
  - right. split; [rewrite <- E1; discriminate | reflexivity].
  - destruct (Z.eqb_spec MEDIA_BUS_FMT_SRGGB12_1X12 c) as [E2|E2].
    + left. split; [auto | reflexivity].
    + right. split; [auto | reflexivity].
Qed.

Lemma imx290_pick_format_exact (c : Z) (p : imx290_pixfmt) :
  imx290_pick_format c = Some p -> imx290_pick_format (code p) = Some p.
Proof.
  destruct (imx290_pick_format_cases c) as [[_ ->] | [_ ->]];
    intros [= <-]; reflexivity.
Qed.

Lemma imx290_update_link_freq_ctrl_eq (s : imx290) (m : imx290_mode) :
  current_mode s = Some m ->
  imx290_update_link_freq_ctrl s =
    Some (tt, match link_freq s with
              | Some _ => set_link_freq s (Some (link_freq_index m))
              | None => s
              end).
Proof.
  intros Hm. unfold imx290_update_link_freq_ctrl, Bind, Get.
  destruct (link_freq s); [|reflexivity].
  unfold imx290_get_link_freq_index. rewrite Hm. reflexivity.
Qed.

Lemma imx290_update_pixel_rate_ctrl_eq (s : imx290) (rate : Z) :
  imx290_calc_pixel_rate s = Some rate ->
  imx290_update_pixel_rate_ctrl s =
    Some (tt, match pixel_rate s with
              | Some _ => set_pixel_rate s (imx290_calc_pixel_rate s)
              | None => s
              end).
Proof.
  intros Hr. unfold imx290_update_pixel_rate_ctrl, Bind, Get.
  destruct (pixel_rate s); [|reflexivity].
  rewrite Hr. reflexivity.
Qed.

(** What a format request does, in full: a try request returns the
    settled format as the new try format and leaves the device alone; an
    active request leaves the try format alone and moves the device to
    [active_state]. *)
Lemma imx290_set_fmt_eq (s : imx290) (try_fmt : v4l2_mbus_framefmt)
  (fmt : v4l2_subdev_format) :
  exists m p,
    v4l2_find_nearest_size (imx290_modes_ptr s)
      (fmt_width (format fmt)) (fmt_height (format fmt)) = Some m /\
    In m (imx290_modes_ptr s) /\
    imx290_pick_format (fmt_code (format fmt)) = Some p /\
    imx290_set_fmt try_fmt fmt s =
      let fmt' := {| which := which fmt; pad := pad fmt;
                     format := format_of m p |} in
      if which fmt =? V4L2_SUBDEV_FORMAT_TRY
      then Some ((0, format_of m p, fmt'), s)
      else Some ((0, try_fmt, fmt'), active_state s m p).
Proof.
  destruct (v4l2_find_nearest_size_in s (fmt_width (format fmt))
              (fmt_height (format fmt))) as (m & Hm & Hin).
  assert (Hp : exists p, imx290_pick_format (fmt_code (format fmt)) = Some p
                         /\ (pix_bpp p = 10 \/ pix_bpp p = 12)).
  { destruct (imx290_pick_format_cases (fmt_code (format fmt)))
      as [[_ ->] | [_ ->]]; eexists; split; try reflexivity; cbn; auto. }
  destruct Hp as (p & Hp & Hbpp).
  exists m, p. repeat split; try assumption.
  unfold imx290_set_fmt, Bind, Get. rewrite Hm. cbn [Lift Ret].
  unfold imx290_pick_format in Hp. cbv zeta in Hp. rewrite Hp.
  cbn [Lift Ret]. cbv zeta. fold (format_of m p).
  destruct (which fmt =? V4L2_SUBDEV_FORMAT_TRY); [reflexivity|].
  unfold Modify. cbv beta.
  set (s1 := set_mode_bpp s m (pix_bpp p)).
  rewrite (imx290_update_link_freq_ctrl_eq s1 m eq_refl).
  set (s2 := match link_freq s1 with
             | Some _ => set_link_freq s1 (Some (link_freq_index m))
             | None => s1
             end).
  assert (Hidx : link_freq_index m = 0 \/ link_freq_index m = 1).
  { destruct (imx290_modes_ptr_cases s m Hin) as [-> | ->]; cbn; auto. }
  assert (Hm2 : current_mode s2 = Some m).
  { subst s2 s1. destruct (link_freq _); reflexivity. }
  assert (Hb2 : bpp s2 = 10 \/ bpp s2 = 12).
  { subst s2 s1. destruct (link_freq _); exact Hbpp. }
  destruct (imx290_calc_pixel_rate_total s2 m Hm2 Hidx Hb2) as (rate & Hrate).
  rewrite (imx290_update_pixel_rate_ctrl_eq s2 rate Hrate).
  reflexivity.
Qed.

Lemma imx290_enum_mbus_code_ok (i c0 c : Z) :
  0 <= i ->
  (imx290_enum_mbus_code {| mce_index := i; mce_code := c0 |}
   = Some (0, {| mce_index := i; mce_code := c |})
   <-> (i = 0 /\ c = MEDIA_BUS_FMT_SRGGB10_1X10)
       \/ (i = 1 /\ c = MEDIA_BUS_FMT_SRGGB12_1X12)).
Proof.
  intros Hi. unfold imx290_enum_mbus_code, imx290_formats.
  cbn [length mce_index Z.of_nat Pos.of_succ_nat Pos.succ].
  destruct (Z.leb_spec 2 i) as [H2|H2].
  - split; [discriminate | lia].
  - assert (Hc : i = 0 \/ i = 1) by lia.
    destruct Hc as [-> | ->]; cbn; split.
    + intros [= <-]. auto.
    + intros [[_ ->] | [? _]]; [reflexivity | lia].
    + intros [= <-]. auto.
    + intros [[? _] | [_ ->]]; [lia | reflexivity].
Qed.

(** X9: a format request always returns 0 and hands back a pixel code
    that [imx290_enum_mbus_code] enumerates; the requested code is kept
    exactly when it is an enumerated one; and the enumeration ends with
    -EINVAL at every index from 2 on. *)
Theorem imx290_set_fmt_code_enumerated (s : imx290)
  (try_fmt : v4l2_mbus_framefmt) (fmt : v4l2_subdev_format) :
  exists try_fmt' fmt' s',
    imx290_set_fmt try_fmt fmt s = Some ((0, try_fmt', fmt'), s') /\
    (exists i, 0 <= i /\
       imx290_enum_mbus_code {| mce_index := i; mce_code := 0 |}
       = Some (0, {| mce_index := i;
                     mce_code := fmt_code (format fmt') |})) /\
    (fmt_code (format fmt') = fmt_code (format fmt) <->
     exists i, 0 <= i /\
       imx290_enum_mbus_code {| mce_index := i; mce_code := 0 |}
       = Some (0, {| mce_index := i;
                     mce_code := fmt_code (format fmt) |})) /\
    (forall i c, 2 <= i ->
       imx290_enum_mbus_code {| mce_index := i; mce_code := c |}
       = Some (Z.neg EINVAL, {| mce_index := i; mce_code := c |})).
Proof.
  destruct (imx290_set_fmt_eq s try_fmt fmt) as (m & p & _ & _ & Hp & Hrun).
  cbv zeta in Hrun.
  assert (Hres : exists try_fmt' s',
             imx290_set_fmt try_fmt fmt s
             = Some ((0, try_fmt',
                      {| which := which fmt; pad := pad fmt;
                         format := format_of m p |}), s')).
  { destruct (which fmt =? V4L2_SUBDEV_FORMAT_TRY); eauto. }
  destruct Hres as (t' & s' & Hres).
  eexists _, _, _. split; [exact Hres|]. cbn [format format_of fmt_code].
  destruct (imx290_pick_format_cases (fmt_code (format fmt)))
    as [[Hc Hp'] | [Hc Hp']]; rewrite Hp' in Hp; injection Hp as <-;
    cbn [code].
  - split; [exists 1; split; [lia|]; apply imx290_enum_mbus_code_ok; auto; lia|].
    split.
    + split; [intros _; exists 1; split; [lia|];
                apply imx290_enum_mbus_code_ok; auto; lia | auto].
    + intros i c Hi. unfold imx290_enum_mbus_code. cbn [mce_index].
      destruct (Z.leb_spec (Z.of_nat (length imx290_formats)) i);
        [reflexivity | cbn in *; lia].
  - split; [exists 0; split; [lia|]; apply imx290_enum_mbus_code_ok; auto; lia|].
    split.
    + split.
      * intros E. exists 0. split; [lia|].
        apply imx290_enum_mbus_code_ok; [lia|]. auto.
      * intros (i & Hi & He). apply imx290_enum_mbus_code_ok in He; [|exact Hi].
        destruct He as [[_ E] | [_ E]]; [auto | contradiction].
    + intros i c Hi. unfold imx290_enum_mbus_code. cbn [mce_index].
      destruct (Z.leb_spec (Z.of_nat (length imx290_formats)) i);
        [reflexivity | cbn in *; lia].
Qed.

(** X10: the size and code handed back by a format request are a pair
    that [imx290_enum_frame_size] enumerates for the device. *)
Theorem imx290_set_fmt_size_enumerated (s : imx290)
  (try_fmt : v4l2_mbus_framefmt) (fmt : v4l2_subdev_format) :
  exists try_fmt' fmt' s' i,
    imx290_set_fmt try_fmt fmt s = Some ((0, try_fmt', fmt'), s') /\
    0 <= i /\
    imx290_enum_frame_size s
      {| fse_index := i; fse_code := fmt_code (format fmt');
         min_width := 0; max_width := 0; min_height := 0; max_height := 0 |}
    = Some (0, {| fse_index := i; fse_code := fmt_code (format fmt');
                  min_width := fmt_width (format fmt');
                  max_width := fmt_width (format fmt');
                  min_height := fmt_height (format fmt');
                  max_height := fmt_height (format fmt') |}).
Proof.
  destruct (imx290_set_fmt_eq s try_fmt fmt) as (m & p & _ & Hin & Hp & Hrun).
  cbv zeta in Hrun.
  assert (Hres : exists try_fmt' s',
             imx290_set_fmt try_fmt fmt s
             = Some ((0, try_fmt',
                      {| which := which fmt; pad := pad fmt;
                         format := format_of m p |}), s')).
  { destruct (which fmt =? V4L2_SUBDEV_FORMAT_TRY); eauto. }
  destruct Hres as (t' & s' & Hres).
  assert (Hcode : code p = MEDIA_BUS_FMT_SRGGB10_1X10
                  \/ code p = MEDIA_BUS_FMT_SRGGB12_1X12).
  { destruct (imx290_pick_format_cases (fmt_code (format fmt)))
      as [[_ Hp'] | [_ Hp']]; rewrite Hp' in Hp; injection Hp as <-;
      cbn; auto. }
  destruct (imx290_modes_ptr_cases s m Hin) as [Hm | Hm].
  - eexists _, _, _, 0. split; [exact Hres|]. split; [lia|].
    cbn [format format_of fmt_code fmt_width fmt_height]. subst m.
    unfold imx290_enum_frame_size, imx290_modes_num, imx290_modes_ptr.
    cbn [nth_error imx290_formats code fse_code fse_index].
    destruct Hcode as [-> | ->]; destruct (nlanes s =? 2); reflexivity.
  - eexists _, _, _, 1. split; [exact Hres|]. split; [lia|].
    cbn [format format_of fmt_code fmt_width fmt_height]. subst m.
    unfold imx290_enum_frame_size, imx290_modes_num, imx290_modes_ptr.
    cbn [nth_error imx290_formats code fse_code fse_index].
    destruct Hcode as [-> | ->]; destruct (nlanes s =? 2); reflexivity.
Qed.

Lemma imx290_enum_frame_size_ok (s : imx290)
  (fse fse' : v4l2_subdev_frame_size_enum) :
  0 <= fse_index fse ->
  imx290_enum_frame_size s fse = Some (0, fse') ->
  (fse_code fse = MEDIA_BUS_FMT_SRGGB10_1X10
   \/ fse_code fse = MEDIA_BUS_FMT_SRGGB12_1X12) /\
  exists m,
    In m (imx290_modes_ptr s) /\
    fse' = {| fse_index := fse_index fse; fse_code := fse_code fse;
              min_width := width m; max_width := width m;
              min_height := height m; max_height := height m |}.
Proof.
  intros Hi. unfold imx290_enum_frame_size.
  cbn [nth_error imx290_formats code].
  destruct (Z.eqb_spec (fse_code fse) MEDIA_BUS_FMT_SRGGB10_1X10) as [E1|E1];
    destruct (Z.eqb_spec (fse_code fse) MEDIA_BUS_FMT_SRGGB12_1X12) as [E2|E2];
    cbn [negb andb]; try discriminate.
  all: destruct (imx290_modes_num s <=? fse_index fse); [discriminate|].
  all: destruct (nth_error (imx290_modes_ptr s) (Z.to_nat (fse_index fse)))
         as [m|] eqn:Hn; [|discriminate].
  all: intros [= <-]; split; [auto|]; exists m;
       split; [eapply nth_error_In; exact Hn | reflexivity].
Qed.

(** X11: a frame size enumerated by [imx290_enum_frame_size] is accepted
    as it is: a format request for that code and size hands back the same
    code, width and height. *)
Theorem imx290_set_fmt_accepts_enumerated (s : imx290)
  (fse fse' : v4l2_subdev_frame_size_enum)
  (try_fmt : v4l2_mbus_framefmt) (fmt : v4l2_subdev_format) :
  0 <= fse_index fse ->
  imx290_enum_frame_size s fse = Some (0, fse') ->
  fmt_width (format fmt) = min_width fse' ->
  fmt_height (format fmt) = min_height fse' ->
  fmt_code (format fmt) = fse_code fse' ->
  exists try_fmt' fmt' s',
    imx290_set_fmt try_fmt fmt s = Some ((0, try_fmt', fmt'), s') /\
    fmt_width (format fmt') = fmt_width (format fmt) /\
    fmt_height (format fmt') = fmt_height (format fmt) /\
    fmt_code (format fmt') = fmt_code (format fmt).
Proof.
  intros Hi He Hw Hh Hc.
  destruct (imx290_enum_frame_size_ok s fse fse' Hi He)
    as (Hcode & m0 & Hin0 & ->).
  cbn [min_width min_height fse_code] in Hw, Hh, Hc.
  destruct (imx290_set_fmt_eq s try_fmt fmt) as (m & p & Hm & _ & Hp & Hrun).
  rewrite Hw, Hh, (v4l2_find_nearest_size_exact s m0 Hin0) in Hm.
  injection Hm as <-.
  assert (Hcp : code p = fmt_code (format fmt)).
  { rewrite Hc.
    destruct (imx290_pick_format_cases (fmt_code (format fmt)))
      as [[E Hp'] | [E Hp']]; rewrite Hp' in Hp; injection Hp as <-; cbn.
    - congruence.
    - destruct Hcode as [E1 | E2]; congruence. }
  cbv zeta in Hrun.
  destruct (which fmt =? V4L2_SUBDEV_FORMAT_TRY);
    eexists _, _, _; (split; [exact Hrun|]);
    cbn [format format_of fmt_width fmt_height fmt_code]; auto.
Qed.

(** An instance: the second size enumerated with 4 lanes, 1280x720. *)
Lemma imx290_set_fmt_accepts_enumerated_witness :
  let s := imx290_probed 4 INCK_74 POWERED_IDLE [] in
  let fmt := {| which := V4L2_SUBDEV_FORMAT_ACTIVE; pad := 0;
                format := {| fmt_width := 1280; fmt_height := 720;
                             fmt_code := MEDIA_BUS_FMT_SRGGB12_1X12;
                             fmt_field := 0; fmt_colorspace := 0 |} |} in
  exists try_fmt' fmt' s',
    imx290_set_fmt (current_format s) fmt s = Some ((0, try_fmt', fmt'), s') /\
    fmt_width (format fmt') = 1280 /\
    fmt_height (format fmt') = 720 /\
    fmt_code (format fmt') = MEDIA_BUS_FMT_SRGGB12_1X12.
Proof.
  intros s fmt.
  apply (imx290_set_fmt_accepts_enumerated s
           {| fse_index := 1; fse_code := MEDIA_BUS_FMT_SRGGB12_1X12;
              min_width := 0; max_width := 0;
              min_height := 0; max_height := 0 |}
           {| fse_index := 1; fse_code := MEDIA_BUS_FMT_SRGGB12_1X12;
              min_width := 1280; max_width := 1280;
              min_height := 720; max_height := 720 |}
           (current_format s) fmt); try reflexivity.
  cbn. lia.
Defined.

Lemma imx290_calc_pixel_rate_ext (a b : imx290) :
  nlanes a = nlanes b -> inck a = inck b ->
  current_mode a = current_mode b -> bpp a = bpp b ->
  imx290_calc_pixel_rate a = imx290_calc_pixel_rate b.
Proof.
  intros Hn Hi Hm Hb.
  unfold imx290_calc_pixel_rate, imx290_get_link_freq,
    imx290_get_link_freq_index, imx290_link_freqs_ptr.
  rewrite Hn, Hi, Hm, Hb. reflexivity.
Qed.

Lemma imx290_ext (a b : imx290) :
  dev a = dev b -> regmap a = regmap b -> nlanes a = nlanes b ->
  bpp a = bpp b -> fps a = fps b -> inck a = inck b -> type a = type b ->
  current_format a = current_format b -> current_mode a = current_mode b ->
  link_freq a = link_freq b -> pixel_rate a = pixel_rate b ->
  reg_3007 a = reg_3007 b -> vmax a = vmax b -> a = b.
Proof.
  destruct a, b. cbn. intros. subst. reflexivity.
Qed.

(** The fields of the state an active format request leaves. *)
Lemma active_state_fields (s : imx290) (m : imx290_mode) (p : imx290_pixfmt) :
  let s' := active_state s m p in
  dev s' = dev s /\ regmap s' = regmap s /\ nlanes s' = nlanes s /\
  bpp s' = pix_bpp p /\ fps s' = fps s /\ inck s' = inck s /\
  type s' = type s /\ current_format s' = format_of m p /\
  current_mode s' = Some m /\
  link_freq s' = match link_freq s with
                 | Some _ => Some (link_freq_index m)
                 | None => None
                 end /\
  pixel_rate s' = match pixel_rate s with
                  | Some _ =>
                      imx290_calc_pixel_rate (set_mode_bpp s m (pix_bpp p))
                  | None => None
                  end /\
  reg_3007 s' = reg_3007 s /\ vmax s' = vmax s.
Proof.
  destruct s as [d r n b f i t cf cm lf pr r7 vm].
  unfold active_state. cbv zeta.
  destruct lf, pr; cbn -[imx290_calc_pixel_rate]; repeat split;
    apply imx290_calc_pixel_rate_ext; reflexivity.
Qed.

Lemma active_state_modes_ptr (s : imx290) (m : imx290_mode)
  (p : imx290_pixfmt) :
  imx290_modes_ptr (active_state s m p) = imx290_modes_ptr s.
Proof.
  destruct (active_state_fields s m p) as (_ & _ & Hn & _).
  unfold imx290_modes_ptr. rewrite Hn. reflexivity.
Qed.

Lemma active_state_idem (s : imx290) (m : imx290_mode) (p : imx290_pixfmt) :
  active_state (active_state s m p) m p = active_state s m p.
Proof.
  destruct (active_state_fields s m p)
    as (Hd & Hr & Hn & Hb & Hf & Hi & Ht & Hcf & Hcm & Hlf & Hpr & H7 & Hv).
  destruct (active_state_fields (active_state s m p) m p)
    as (Hd' & Hr' & Hn' & Hb' & Hf' & Hi' & Ht' & Hcf' & Hcm' & Hlf'
        & Hpr' & H7' & Hv').
  cbv zeta in *.
  apply imx290_ext; try congruence.
  - rewrite Hlf', Hlf. destruct (link_freq s); reflexivity.
  - rewrite Hpr', Hpr. destruct (pixel_rate s); [|reflexivity].
    assert (E : imx290_calc_pixel_rate
                  (set_mode_bpp (active_state s m p) m (pix_bpp p))
                = imx290_calc_pixel_rate (set_mode_bpp s m (pix_bpp p))).
    { apply imx290_calc_pixel_rate_ext;
        cbn [nlanes inck current_mode bpp set_mode_bpp]; congruence. }
    rewrite E. destruct (imx290_calc_pixel_rate _); reflexivity.
Qed.

(** X12: a format request is idempotent: asking again for what a request
    handed back, with the try format and device state it left, hands back
    the same and changes nothing. *)
Theorem imx290_set_fmt_idempotent (s s' : imx290)
  (try_fmt try_fmt' : v4l2_mbus_framefmt) (fmt fmt' : v4l2_subdev_format)
  (ret : Z) :
  imx290_set_fmt try_fmt fmt s = Some ((ret, try_fmt', fmt'), s') ->
  imx290_set_fmt try_fmt' fmt' s' = Some ((0, try_fmt', fmt'), s').
Proof.
  intros Hrun.
  destruct (imx290_set_fmt_eq s try_fmt fmt) as (m & p & _ & Hin & Hp & Heq).
  rewrite Heq in Hrun. cbv zeta in Hrun.
  assert (Hfmt : fmt' = {| which := which fmt; pad := pad fmt;
                           format := format_of m p |}).
  { destruct (which fmt =? V4L2_SUBDEV_FORMAT_TRY); congruence. }
  assert (Hmodes : imx290_modes_ptr s' = imx290_modes_ptr s).
  { destruct (which fmt =? V4L2_SUBDEV_FORMAT_TRY);
      injection Hrun as _ _ _ <-;
      [reflexivity | apply active_state_modes_ptr]. }
  destruct (imx290_set_fmt_eq s' try_fmt' fmt')
    as (m2 & p2 & Hm2 & _ & Hp2 & Heq2).
  rewrite Heq2. cbv zeta. subst fmt'.
  cbn [format format_of fmt_width fmt_height fmt_code which pad] in *.
  rewrite Hmodes, (v4l2_find_nearest_size_exact s m Hin) in Hm2.
  injection Hm2 as <-.
  rewrite (imx290_pick_format_exact _ _ Hp) in Hp2. injection Hp2 as <-.
  destruct (which fmt =? V4L2_SUBDEV_FORMAT_TRY).
  - injection Hrun as _ <- <-. reflexivity.
  - injection Hrun as _ <- <-. rewrite active_state_idem. reflexivity.
Qed.

(** An instance: an active request for 1000x700 in an unknown code. *)
Lemma imx290_set_fmt_idempotent_witness :
  let s := imx290_probed 2 INCK_37 POWERED_IDLE [] in
  let m := {| width := 1280; height := 720;
              link_freq_index := FREQ_INDEX_720P;
              data := imx290_720p_settings |} in
  let p := {| code := MEDIA_BUS_FMT_SRGGB10_1X10; pix_bpp := 10 |} in
  let fmt' := {| which := V4L2_SUBDEV_FORMAT_ACTIVE; pad := 0;
                 format := format_of m p |} in
  imx290_set_fmt (current_format s) fmt' (active_state s m p)
  = Some ((0, current_format s, fmt'), active_state s m p).
Proof.
  intros s m p fmt'.
  apply (imx290_set_fmt_idempotent s (active_state s m p)
           (current_format s) (current_format s)
           {| which := V4L2_SUBDEV_FORMAT_ACTIVE; pad := 0;
              format := {| fmt_width := 1000; fmt_height := 700;
                           fmt_code := 0; fmt_field := 0;
                           fmt_colorspace := 0 |} |}
           fmt' 0).
  reflexivity.
Defined.

(** X13: get after set.  After a format request, [imx290_get_fmt] for the
    same kind of format, with the try format and device state the request
    left, returns the format the request handed back.  A try request
    leaves the device state as it was, an active request leaves the try
    format as it was. *)
Theorem imx290_get_fmt_after_set_fmt (s s' : imx290)
  (try_fmt try_fmt' : v4l2_mbus_framefmt) (fmt fmt' : v4l2_subdev_format)
  (ret : Z) :
  imx290_set_fmt try_fmt fmt s = Some ((ret, try_fmt', fmt'), s') ->
  imx290_get_fmt try_fmt' fmt s' = Some ((0, fmt'), s') /\
  (which fmt = V4L2_SUBDEV_FORMAT_TRY -> s' = s) /\
  (which fmt <> V4L2_SUBDEV_FORMAT_TRY -> try_fmt' = try_fmt).
Proof.
  intros Hrun.
  destruct (imx290_set_fmt_eq s try_fmt fmt) as (m & p & _ & _ & _ & Heq).
  rewrite Heq in Hrun. cbv zeta in Hrun.
  unfold imx290_get_fmt, Bind, Get, Ret.
  destruct (Z.eqb_spec (which fmt) V4L2_SUBDEV_FORMAT_TRY) as [E|E];
    injection Hrun as _ <- <- <-.
  - repeat split; auto; try contradiction.
  - repeat split; auto; try contradiction.
Qed.

(** An instance: a try request on the probed device. *)
Lemma imx290_get_fmt_after_set_fmt_witness :
  let s := imx290_probed 2 INCK_37 POWERED_IDLE [] in
  let m := {| width := 1280; height := 720;
              link_freq_index := FREQ_INDEX_720P;
              data := imx290_720p_settings |} in
  let p := {| code := MEDIA_BUS_FMT_SRGGB12_1X12; pix_bpp := 12 |} in
  let fmt := {| which := V4L2_SUBDEV_FORMAT_TRY; pad := 0;
                format := {| fmt_width := 1280; fmt_height := 720;
                             fmt_code := MEDIA_BUS_FMT_SRGGB12_1X12;
                             fmt_field := 0; fmt_colorspace := 0 |} |} in
  imx290_get_fmt (format_of m p) fmt s
  = Some ((0, {| which := V4L2_SUBDEV_FORMAT_TRY; pad := 0;
                 format := format_of m p |}), s).
Proof.
  intros s m p fmt.
  apply (imx290_get_fmt_after_set_fmt s s (current_format s) (format_of m p)
           fmt {| which := V4L2_SUBDEV_FORMAT_TRY; pad := 0;
                  format := format_of m p |} 0).
  reflexivity.
Defined.

(** X14: what an active format request establishes.  The stored format is
    the one handed back; the current mode is a catalog mode of that size;
    the bit depth is 10 for SRGGB10 and 12 for SRGGB12; a link-frequency
    control, when there is one, holds the index of the mode, which is
    within the link-frequency table; a pixel-rate control, when there is
    one, holds the pixel rate of the new state. *)
Theorem imx290_set_fmt_active_invariants (s s' : imx290)
  (try_fmt try_fmt' : v4l2_mbus_framefmt) (fmt fmt' : v4l2_subdev_format)
  (ret : Z) :
  which fmt <> V4L2_SUBDEV_FORMAT_TRY ->
  imx290_set_fmt try_fmt fmt s = Some ((ret, try_fmt', fmt'), s') ->
  current_format s' = format fmt' /\
  (exists m,
     current_mode s' = Some m /\ In m (imx290_modes_ptr s') /\
     width m = fmt_width (current_format s') /\
     height m = fmt_height (current_format s') /\
     (link_freq s <> None ->
      link_freq s' = Some (link_freq_index m) /\
      0 <= link_freq_index m < imx290_link_freqs_num s')) /\
  ((fmt_code (current_format s') = MEDIA_BUS_FMT_SRGGB10_1X10 /\ bpp s' = 10)
   \/ (fmt_code (current_format s') = MEDIA_BUS_FMT_SRGGB12_1X12
       /\ bpp s' = 12)) /\
  (pixel_rate s <> None ->
   pixel_rate s' <> None /\ pixel_rate s' = imx290_calc_pixel_rate s').
Proof.
  intros Hw Hrun.
  destruct (imx290_set_fmt_eq s try_fmt fmt) as (m & p & _ & Hin & Hp & Heq).
  rewrite Heq in Hrun. cbv zeta in Hrun.
  apply Z.eqb_neq in Hw. rewrite Hw in Hrun.
  injection Hrun as _ <- <- <-.
  assert (Hpp : p = {| code := MEDIA_BUS_FMT_SRGGB12_1X12; pix_bpp := 12 |}
                \/ p = {| code := MEDIA_BUS_FMT_SRGGB10_1X10; pix_bpp := 10 |}).
  { destruct (imx290_pick_format_cases (fmt_code (format fmt)))
      as [[_ Hp'] | [_ Hp']]; rewrite Hp' in Hp; injection Hp as <-; auto. }
  pose proof (active_state_modes_ptr s m p) as Hmodes.
  destruct (active_state_fields s m p)
    as (Hd & Hr & Hn & Hb & Hf & Hi & Ht & Hcf & Hcm & Hlf & Hpr & H7 & Hv).
  cbv zeta in *. set (s' := active_state s m p) in *.
  assert (Hidx : link_freq_index m = 0 \/ link_freq_index m = 1).
  { destruct (imx290_modes_ptr_cases s m Hin) as [-> | ->]; cbn; auto. }
  split; [rewrite Hcf; reflexivity|]. split.
  - exists m. split; [exact Hcm|]. split; [rewrite Hmodes; exact Hin|].
    rewrite Hcf. cbn [format_of fmt_width fmt_height].
    split; [reflexivity|]. split; [reflexivity|].
    intros Hl. rewrite Hlf. destruct (link_freq s); [|contradiction].
    split; [reflexivity|].
    unfold imx290_link_freqs_num. destruct (nlanes s' =? 4), (inck s');
      cbn; lia.
  - split.
    + rewrite Hcf, Hb. cbn [format_of fmt_code].
      destruct Hpp as [-> | ->]; [right | left]; split; reflexivity.
    + intros Hp0. rewrite Hpr. destruct (pixel_rate s); [|contradiction].
      assert (E : imx290_calc_pixel_rate (set_mode_bpp s m (pix_bpp p))
                  = imx290_calc_pixel_rate s').
      { apply imx290_calc_pixel_rate_ext;
          cbn [nlanes inck current_mode bpp set_mode_bpp]; congruence. }
      rewrite E.
      assert (Hbpp : bpp s' = 10 \/ bpp s' = 12).
      { rewrite Hb. destruct Hpp as [-> | ->]; cbn; auto. }
      destruct (imx290_calc_pixel_rate_total s' m Hcm Hidx Hbpp) as (r0 & Hr0).
      split; [rewrite Hr0; discriminate | reflexivity].
Qed.

(** An instance: an active 720p 12-bit request on the probed device. *)
Lemma imx290_set_fmt_active_invariants_witness :
  let s := imx290_probed 2 INCK_37 POWERED_IDLE [] in
  let m := {| width := 1280; height := 720;
              link_freq_index := FREQ_INDEX_720P;
              data := imx290_720p_settings |} in
  let p := {| code := MEDIA_BUS_FMT_SRGGB12_1X12; pix_bpp := 12 |} in
  bpp (active_state s m p) = 12 /\
  link_freq (active_state s m p) = Some 1 /\
  pixel_rate (active_state s m p) = Some 99000000.
Proof.
  intros s m p.
  destruct (imx290_set_fmt_active_invariants s (active_state s m p)
              (current_format s) (current_format s)
              {| which := V4L2_SUBDEV_FORMAT_ACTIVE; pad := 0;
                 format := {| fmt_width := 1280; fmt_height := 720;
                              fmt_code := MEDIA_BUS_FMT_SRGGB12_1X12;
                              fmt_field := 0; fmt_colorspace := 0 |} |}
              {| which := V4L2_SUBDEV_FORMAT_ACTIVE; pad := 0;
                 format := format_of m p |} 0)
    as (_ & (m' & Hm & _ & _ & _ & Hl) & Hb & Hr).
  - discriminate.
  - reflexivity.
  - split; [|split].
    + destruct Hb as [[Hc _] | [_ Hb]]; [discriminate Hc | exact Hb].
    + injection Hm as <-. apply Hl. discriminate.
    + destruct Hr as [_ Hr]; [discriminate|]. rewrite Hr. reflexivity.
Defined.

(** ** Bit-depth table *)

Lemma imx290_set_register_array_ret (t : list imx290_regval) (s : imx290)
  (ret : Z) (s' : imx290) :
  imx290_set_register_array t s = Some (ret, s') -> ret <= 0.
Proof.
  intros Hrun.
  destruct (imx290_set_register_array_applied t s) as (r & s1 & Hr & Ha).
  rewrite Hr in Hrun. injection Hrun as <- <-.
  destruct Ha as (m' & _ & [(-> & _) | (pre & x & post & e & _ & -> & _)]);
    lia.
Qed.

Lemma checked_table_run (t : list imx290_regval) (s : imx290) :
  (ret <- imx290_set_register_array t ;;
   if ret <? 0 then Ret ret else Ret 0) s
  = imx290_set_register_array t s.
Proof.
  unfold Bind.
  destruct (imx290_set_register_array t s) as [[ret s']|] eqn:Hrun;
    [|reflexivity].
  pose proof (imx290_set_register_array_ret _ _ _ _ Hrun) as Hle.
  destruct (Z.ltb_spec ret 0); [reflexivity|].
  replace ret with 0 by lia. reflexivity.
Qed.

(** X15: the bit-depth step of streaming start.  With a stored pixel code
    that is neither catalog code it returns -EINVAL and writes nothing.  In
    the state an active format request leaves it never does so: it applies
    the 10-bit table when the bit depth is 10 and the 12-bit table
    otherwise, and its result is the result of that application. *)
Theorem imx290_write_current_format_spec :
  (forall s,
     fmt_code (current_format s) <> MEDIA_BUS_FMT_SRGGB10_1X10 ->
     fmt_code (current_format s) <> MEDIA_BUS_FMT_SRGGB12_1X12 ->
     imx290_write_current_format s = Some (Z.neg EINVAL, s)) /\
  (forall s s' try_fmt try_fmt' fmt fmt' ret,
     which fmt <> V4L2_SUBDEV_FORMAT_TRY ->
     imx290_set_fmt try_fmt fmt s = Some ((ret, try_fmt', fmt'), s') ->
     imx290_write_current_format s' =
       imx290_set_register_array
         (if bpp s' =? 10 then imx290_10bit_settings
          else imx290_12bit_settings) s').
Proof.
  split.
  - intros s H10 H12. unfold imx290_write_current_format, Bind, Get.
    apply Z.eqb_neq in H10. apply Z.eqb_neq in H12. rewrite H10, H12.
    reflexivity.
  - intros s s' try_fmt try_fmt' fmt fmt' ret Hw Hrun.
    destruct (imx290_set_fmt_eq s try_fmt fmt) as (m & p & _ & _ & Hp & Heq).
    rewrite Heq in Hrun. cbv zeta in Hrun.
    apply Z.eqb_neq in Hw. rewrite Hw in Hrun.
    injection Hrun as _ _ _ <-.
    destruct (active_state_fields s m p)
      as (_ & _ & _ & Hb & _ & _ & _ & Hcf & _).
    cbv zeta in *.
    unfold imx290_write_current_format. unfold Bind at 1. unfold Get.
    rewrite Hcf, Hb. cbn [format_of fmt_code].
    destruct (imx290_pick_format_cases (fmt_code (format fmt)))
      as [[_ Hp'] | [_ Hp']]; rewrite Hp' in Hp; injection Hp as <-;
      cbn [code pix_bpp Z.eqb Pos.eqb MEDIA_BUS_FMT_SRGGB10_1X10
           MEDIA_BUS_FMT_SRGGB12_1X12];
      apply checked_table_run.
Qed.

(** An instance: a stored code of 0, and the state after an active 12-bit
    request. *)
Lemma imx290_write_current_format_spec_witness :
  let s := imx290_probed 2 INCK_37 POWERED_IDLE [] in
  let m := {| width := 1280; height := 720;
              link_freq_index := FREQ_INDEX_720P;
              data := imx290_720p_settings |} in
  let p := {| code := MEDIA_BUS_FMT_SRGGB12_1X12; pix_bpp := 12 |} in
  let bad := set_current_format s
               {| fmt_width := 0; fmt_height := 0; fmt_code := 0;
                  fmt_field := 0; fmt_colorspace := 0 |} in
  imx290_write_current_format bad = Some (Z.neg EINVAL, bad) /\
  imx290_write_current_format (active_state s m p)
  = imx290_set_register_array imx290_12bit_settings (active_state s m p).
Proof.
  intros s m p bad. split.
  - apply (proj1 imx290_write_current_format_spec bad); discriminate.
  - apply (proj2 imx290_write_current_format_spec s (active_state s m p)
             (current_format s) (current_format s)
             {| which := V4L2_SUBDEV_FORMAT_ACTIVE; pad := 0;
                format := {| fmt_width := 1280; fmt_height := 720;
                             fmt_code := MEDIA_BUS_FMT_SRGGB12_1X12;
                             fmt_field := 0; fmt_colorspace := 0 |} |}
             {| which := V4L2_SUBDEV_FORMAT_ACTIVE; pad := 0;
                format := format_of m p |} 0).
    + discriminate.
    + reflexivity.
Defined.

(** X16: the default format.  Whatever the state and the lane count,
    [imx290_entity_init_cfg] without a pad configuration returns 0 and
    makes 1920x1080 SRGGB10 at 10 bits per pixel the active format and
    mode; with a pad configuration it stores that format there and leaves
    the device alone. *)
Theorem imx290_entity_init_cfg_default (s : imx290) :
  let p10 := {| code := MEDIA_BUS_FMT_SRGGB10_1X10; pix_bpp := 10 |} in
  imx290_entity_init_cfg None s
    = Some ((0, None), active_state s imx290_default_mode p10) /\
  forall try_fmt,
    imx290_entity_init_cfg (Some try_fmt) s
    = Some ((0, Some (format_of imx290_default_mode p10)), s).
Proof.
  intros p10.
  assert (Hin : In imx290_default_mode (imx290_modes_ptr s)).
  { unfold imx290_modes_ptr. destruct (nlanes s =? 2); left; reflexivity. }
  pose proof (v4l2_find_nearest_size_exact s _ Hin) as Hnear.
  cbn [width height imx290_default_mode] in Hnear.
  split; [|intros try_fmt]; unfold imx290_entity_init_cfg; cbv zeta;
    unfold Bind;
    match goal with
    | |- context [imx290_set_fmt ?t ?f s] =>
        destruct (imx290_set_fmt_eq s t f) as (m & p & Hm & _ & Hp & Heq);
        rewrite Heq
    end;
    cbn [format fmt_width fmt_height fmt_code which] in *;
    rewrite Hnear in Hm; injection Hm as <-;
    change (imx290_pick_format 0) with (Some p10) in Hp;
    injection Hp as <-; reflexivity.
Qed.

(** ** Frame intervals, continued *)

Lemma frame_interval_loop_index (bits a b : Z) :
  exists f,
    imx290_fps_of_index (frame_interval_loop bits a b imx290_intervals 0 0)
    = Some f /\
    nth_error imx290_intervals
      (frame_interval_loop bits a b imx290_intervals 0 0)
    = Some (imx290_interval_of f).
Proof.
  unfold imx290_intervals. cbn [frame_interval_loop numerator denominator].
  repeat match goal with
         | |- context [if ?c then _ else _] => destruct c
         end;
    [exists FPS_25 | exists FPS_30 | exists FPS_50 | exists FPS_60
     | exists FPS_60]; split; reflexivity.
Qed.

Lemma mipi_csis_s_frame_interval_run (bits : Z) (req : v4l2_fract)
  (s : imx290) :
  exists f,
    mipi_csis_s_frame_interval bits req s
    = Some ((0, imx290_interval_of f), set_fps s f).
Proof.
  unfold mipi_csis_s_frame_interval.
  destruct (frame_interval_loop_index bits (to_ulong bits (numerator req))
              (to_ulong bits (denominator req))) as (f & Hf & Hn).
  exists f. unfold Bind. rewrite Hn, Hf. reflexivity.
Qed.

Lemma mipi_csis_g_frame_interval_run (s : imx290) :
  mipi_csis_g_frame_interval s = Some ((0, imx290_interval_of (fps s)), s).
Proof.
  unfold mipi_csis_g_frame_interval, Bind, Get.
  destruct (fps s); reflexivity.
Qed.

(** X17: get after set.  Whatever interval is requested and whatever the
    word size, [mipi_csis_s_frame_interval] returns 0, changes nothing but
    the frame-rate class, and hands back one of the four catalog intervals;
    [mipi_csis_g_frame_interval] then reports exactly that interval. *)
Theorem mipi_csis_g_after_s_frame_interval (BITS_PER_LONG : Z)
  (req : v4l2_fract) (s : imx290) :
  exists iv f,
    mipi_csis_s_frame_interval BITS_PER_LONG req s
      = Some ((0, iv), set_fps s f) /\
    In iv imx290_intervals /\
    mipi_csis_g_frame_interval (set_fps s f) = Some ((0, iv), set_fps s f).
Proof.
  destruct (mipi_csis_s_frame_interval_run BITS_PER_LONG req s) as (f & Hs).
  exists (imx290_interval_of f), f. split; [exact Hs|]. split.
  - destruct f; cbn; auto.
  - rewrite mipi_csis_g_frame_interval_run. reflexivity.
Qed.

(** X18: the parm pair.  [imx290_s_parm] returns 0, reports the
    time-per-frame capability and hands back a catalog interval as time
    per frame; [imx290_g_parm] afterwards returns the same capability and
    time per frame, whatever it is handed. *)
Theorem imx290_g_parm_after_s_parm (BITS_PER_LONG : Z)
  (a a0 : v4l2_captureparm) (s : imx290) :
  exists a' s',
    imx290_s_parm BITS_PER_LONG a s = Some ((0, a'), s') /\
    capability a' = V4L2_CAP_TIMEPERFRAME /\
    In (timeperframe a') imx290_intervals /\
    imx290_g_parm a0 s' = Some ((0, a'), s').
Proof.
  destruct (mipi_csis_s_frame_interval_run BITS_PER_LONG (timeperframe a) s)
    as (f & Hs).
  unfold imx290_s_parm, imx290_g_parm, Bind. rewrite Hs.
  cbn [Z.ltb Z.compare]. unfold Ret.
  eexists _, _. split; [reflexivity|]. split; [reflexivity|]. split.
  - destruct f; cbn; auto.
  - rewrite mipi_csis_g_frame_interval_run. reflexivity.
Qed.

Lemma frame_interval_size_loop_true (l : list imx290_mode) (w h : Z) :
  frame_interval_size_loop l w h = true ->
  exists m, In m l /\ width m = w /\ height m = h.
Proof.
  induction l as [|m l IH]; cbn [frame_interval_size_loop];
    [discriminate|].
  destruct ((width m =? w) && (height m =? h)) eqn:E.
  - intros _. apply Bool.andb_true_iff in E. destruct E as [Hw Hh].
    exists m. split; [left; reflexivity|].
    split; apply Z.eqb_eq; assumption.
  - intros H. destruct (IH H) as (m' & Hin & Hm'). exists m'.
    split; [right; exact Hin | exact Hm'].
Qed.

Lemma imx290_modes_all (s : imx290) :
  firstn (Z.to_nat (imx290_modes_num s)) (imx290_modes_ptr s)
  = imx290_modes_ptr s.
Proof.
  unfold imx290_modes_num, imx290_modes_ptr.
  destruct (nlanes s =? 2); reflexivity.
Qed.

Lemma imx290_enum_frame_interval_ok (s : imx290)
  (fie fie' : v4l2_subdev_frame_interval_enum) :
  0 <= fie_index fie ->
  imx290_enum_frame_interval s fie = Some (0, fie') ->
  exists f,
    imx290_fps_index f = Z.to_nat (fie_index fie) /\
    fie' = {| fie_index := fie_index fie; fie_code := fie_code fie;
              fie_width := fie_width fie; fie_height := fie_height fie;
              fie_interval := imx290_interval_of f |} /\
    (fie_code fie = MEDIA_BUS_FMT_SRGGB10_1X10
     \/ fie_code fie = MEDIA_BUS_FMT_SRGGB12_1X12) /\
    exists m, In m (imx290_modes_ptr s) /\
              width m = fie_width fie /\ height m = fie_height fie.
Proof.
  intros Hi. unfold imx290_enum_frame_interval.
  destruct (Z.leb_spec (Z.of_nat (length imx290_intervals)) (fie_index fie))
    as [Hge|Hlt]; [discriminate|].
  destruct (Z.eqb_spec (fie_code fie) MEDIA_BUS_FMT_SRGGB10_1X10) as [E1|E1];
    destruct (Z.eqb_spec (fie_code fie) MEDIA_BUS_FMT_SRGGB12_1X12) as [E2|E2];
    cbn [negb andb]; try discriminate.
  all: destruct (frame_interval_size_loop _ _ _) eqn:Hloop; [|discriminate].
  all: assert (Hm : exists m, In m (imx290_modes_ptr s) /\
                     width m = fie_width fie /\ height m = fie_height fie)
    by (rewrite imx290_modes_all in Hloop;
        destruct (frame_interval_size_loop_true _ _ _ Hloop)
          as (m & Hin & Hw & Hh);
        exists m; split; [apply in_rev; exact Hin | auto]).
  all: cbn [length imx290_intervals Z.of_nat Pos.of_succ_nat Pos.succ] in Hlt.
  all: assert (Hc : fie_index fie = 0 \/ fie_index fie = 1
                    \/ fie_index fie = 2 \/ fie_index fie = 3) by lia.
  all: destruct Hc as [Hc | [Hc | [Hc | Hc]]]; rewrite Hc; cbn;
       intros [= <-];
       [exists FPS_25 | exists FPS_30 | exists FPS_50 | exists FPS_60];
       rewrite <- Hc; repeat split; auto; rewrite Hc; reflexivity.
Qed.

(** X19: an interval enumerated by [imx290_enum_frame_interval] (which
    requires a catalog code and a catalog size) is accepted as it is: set
    as frame interval it selects the class of its index and is handed back
    unchanged. *)
Theorem mipi_csis_s_frame_interval_accepts_enumerated (BITS_PER_LONG : Z)
  (s s0 : imx290) (fie fie' : v4l2_subdev_frame_interval_enum) :
  32 <= BITS_PER_LONG ->
  0 <= fie_index fie ->
  imx290_enum_frame_interval s fie = Some (0, fie') ->
  exists f,
    imx290_fps_index f = Z.to_nat (fie_index fie) /\
    mipi_csis_s_frame_interval BITS_PER_LONG (fie_interval fie') s0
    = Some ((0, fie_interval fie'), set_fps s0 f).
Proof.
  intros Hbits Hi He.
  destruct (imx290_enum_frame_interval_ok s fie fie' Hi He)
    as (f & Hf & -> & _).
  exists f. split; [exact Hf|]. cbn [fie_interval].
  assert (H32 : 2 ^ 32 <= 2 ^ BITS_PER_LONG)
    by (apply Z.pow_le_mono_r; lia).
  unfold mipi_csis_s_frame_interval.
  destruct f; cbn [imx290_interval_of imx290_fps_index nth imx290_intervals
                   numerator denominator];
    rewrite !to_ulong_small by lia;
    rewrite frame_interval_loop_classes by lia;
    reflexivity.
Qed.

(** An instance: the third interval of 1920x1080 SRGGB10, on a 64-bit
    build. *)
Lemma mipi_csis_s_frame_interval_accepts_enumerated_witness :
  let s := imx290_probed 2 INCK_37 POWERED_IDLE [] in
  mipi_csis_s_frame_interval 64 {| numerator := 1; denominator := 50 |} s
  = Some ((0, {| numerator := 1; denominator := 50 |}), set_fps s FPS_50).
Proof.
  intros s.
  destruct (mipi_csis_s_frame_interval_accepts_enumerated 64 s s
              {| fie_index := 2; fie_code := MEDIA_BUS_FMT_SRGGB10_1X10;
                 fie_width := 1920; fie_height := 1080;
                 fie_interval := {| numerator := 0; denominator := 0 |} |}
              {| fie_index := 2; fie_code := MEDIA_BUS_FMT_SRGGB10_1X10;
                 fie_width := 1920; fie_height := 1080;
                 fie_interval := {| numerator := 1; denominator := 50 |} |})
    as (f & Hf & Hrun).
  - lia.
  - cbn. lia.
  - reflexivity.
  - destruct f; try discriminate Hf. exact Hrun.
Defined.

(** ** Streaming *)

Lemma cut_prefix_fail (f1 f2 new : list event) (ret : Z) :
  ret < 0 -> cut_at_failure f1 new ret -> cut_at_failure (f1 ++ f2) new ret.
Proof.
  intros Hneg [[-> _] | (_ & pre & a & v & post & -> & ->)]; [lia|].
  right. split; [exact Hneg|]. exists pre, a, v, (post ++ f2).
  rewrite <- app_assoc. auto.
Qed.

Lemma table_step (t : list imx290_regval) (s : imx290) :
  exists ret m' new,
    imx290_set_register_array t s = Some (ret, set_regmap s m') /\
    trace m' = trace (regmap s) ++ new /\
    cut_at_failure (table_events s t) new ret.
Proof.
  destruct (imx290_set_register_array_applied t s) as (ret & s' & Hrun & Ha).
  destruct (applied_cut _ _ _ _ Ha) as (new & Ht & Hc).
  destruct Ha as (m' & -> & _).
  exists ret, m', new. auto.
Qed.

(** A checked table application followed by [k]. *)
Lemma checked_step (t : list imx290_regval) (k : drv Z) (s : imx290)
  (full : list event) :
  (forall m1,
     exists ret s' new,
       k (set_regmap s m1) = Some (ret, s') /\
       trace (regmap s') = trace m1 ++ new /\
       cut_at_failure full new ret) ->
  exists ret s' new,
    (r <- imx290_set_register_array t ;;
     if r <? 0 then Ret r else k) s = Some (ret, s') /\
    trace (regmap s') = trace (regmap s) ++ new /\
    cut_at_failure (table_events s t ++ full) new ret.
Proof.
  intros Hk. unfold Bind.
  destruct (table_step t s) as (r & m1 & n1 & Hrun & Ht & Hc).
  rewrite Hrun.
  destruct Hc as [[-> ->] | Hfail].
  - cbn [Z.ltb Z.compare].
    destruct (Hk m1) as (ret & s' & new & Hrun' & Ht' & Hc').
    exists ret, s', (table_events s t ++ new).
    split; [exact Hrun'|]. split.
    + rewrite Ht', Ht, <- app_assoc. reflexivity.
    + apply cut_app_ok. exact Hc'.
  - assert (Hneg : r < 0) by (destruct Hfail; assumption).
    apply Z.ltb_lt in Hneg as Hb. rewrite Hb.
    exists r, (set_regmap s m1), n1. split; [reflexivity|].
    split; [exact Ht|].
    apply cut_prefix_fail; [exact Hneg | right; exact Hfail].
Qed.

Lemma standby_step (v : Z) (s : imx290) :
  exists ret m' new,
    (ret <- imx290_write_reg IMX290_STANDBY v ;;
     if ret <? 0 then Ret ret
     else msleep 30 ;;; imx290_write_reg IMX290_XMSTA v) s
    = Some (ret, set_regmap s m') /\
    trace m' = trace (regmap s) ++ new /\
    cut_at_failure (standby_events v) new ret.
Proof.
  unfold Bind.
  destruct (imx290_write_reg_cases IMX290_STANDBY v s) as [[e Hw] | [Hw _]];
    rewrite Hw.
  - cbn [Z.ltb Z.compare]. unfold Ret. eexists _, _, _.
    split; [reflexivity|]. cbn [trace]. split; [reflexivity|].
    apply cut_fail_here.
  - cbn [Z.ltb Z.compare]. unfold msleep, usleep_range, Modify.
    match goal with
    | |- context [imx290_write_reg IMX290_XMSTA v ?s1] =>
        destruct (imx290_write_reg_cases IMX290_XMSTA v s1)
          as [[e Hw2] | [Hw2 _]]; rewrite Hw2
    end; rewrite !set_regmap_twice; eexists _, _, _;
      (split; [reflexivity|]); cbn [regmap set_regmap trace];
      rewrite <- !app_assoc; (split; [reflexivity|]).
    + unfold standby_events. change (30 * 1000) with 30000.
      apply (cut_app_ok [EvWrite IMX290_STANDBY v 0; EvSleep 30000 30000]).
      apply cut_fail_here.
    + left. split; reflexivity.
Qed.

(** X20: stopping the stream writes 1 to the standby register, waits
    30 ms and writes 1 to the master-start register; if the first write
    fails its code is returned and the second is not issued, otherwise the
    result is that of the second.  Only the bus changes. *)
Theorem imx290_stop_streaming_spec (s : imx290) :
  exists ret m' new,
    imx290_stop_streaming s = Some (ret, set_regmap s m') /\
    trace m' = trace (regmap s) ++ new /\
    cut_at_failure
      [ EvWrite IMX290_STANDBY 0x01 0; EvSleep 30000 30000;
        EvWrite IMX290_XMSTA 0x01 0 ] new ret.
Proof. exact (standby_step 1 s). Qed.

Lemma write_current_format_checked (k : drv Z) (s : imx290) :
  fmt_code (current_format s) = MEDIA_BUS_FMT_SRGGB10_1X10
  \/ fmt_code (current_format s) = MEDIA_BUS_FMT_SRGGB12_1X12 ->
  (ret <- imx290_write_current_format ;;
   if ret <? 0 then Ret ret else k) s
  = (ret <- imx290_set_register_array (bit_depth_table s) ;;
     if ret <? 0 then Ret ret else k) s.
Proof.
  intros Hc. unfold imx290_write_current_format, bit_depth_table.
  unfold Bind at 1 2. unfold Get.
  assert (E : (if fmt_code (current_format s) =? MEDIA_BUS_FMT_SRGGB10_1X10
               then
                 ret <- imx290_set_register_array imx290_10bit_settings ;;
                 (if ret <? 0 then Ret ret else Ret 0)
               else
                 if fmt_code (current_format s)
                    =? MEDIA_BUS_FMT_SRGGB12_1X12
                 then
                   ret <- imx290_set_register_array imx290_12bit_settings ;;
                   (if ret <? 0 then Ret ret else Ret 0)
                 else Ret (Z.neg EINVAL)) s
              = imx290_set_register_array
                  (if fmt_code (current_format s)
                      =? MEDIA_BUS_FMT_SRGGB10_1X10
                   then imx290_10bit_settings
                   else imx290_12bit_settings) s).
  { destruct Hc as [-> | ->]; cbn [Z.eqb Pos.eqb MEDIA_BUS_FMT_SRGGB10_1X10
                                   MEDIA_BUS_FMT_SRGGB12_1X12];
      apply checked_table_run. }
  rewrite E. unfold Bind.
  destruct (imx290_set_register_array _ s) as [[r s1]|]; reflexivity.
Qed.

(** X21: starting the stream with no control to replay, for a stored
    catalog code and a current mode.  On a bus that accepts everything it
    applies the global init table, the bit-depth table and the table of the
    mode, each followed by its settle delay, then writes 0 to standby,
    waits 30 ms and writes 0 to master start, and returns 0.  On any bus
    it issues this sequence up to the first write that fails and returns
    the code of that write. *)
Theorem imx290_start_streaming_spec (s : imx290) (m : imx290_mode) :
  current_mode s = Some m ->
  fmt_code (current_format s) = MEDIA_BUS_FMT_SRGGB10_1X10
  \/ fmt_code (current_format s) = MEDIA_BUS_FMT_SRGGB12_1X12 ->
  exists ret s' new,
    imx290_start_streaming [] s = Some (ret, s') /\
    trace (regmap s') = trace (regmap s) ++ new /\
    cut_at_failure (start_streaming_events s m) new ret.
Proof.
  intros Hm Hc. unfold imx290_start_streaming, start_streaming_events.
  apply checked_step. intros m1.
  rewrite write_current_format_checked by exact Hc.
  change (bit_depth_table (set_regmap s m1)) with (bit_depth_table s).
  change (trace m1) with (trace (regmap (set_regmap s m1))).
  change (table_events s (bit_depth_table s))
    with (table_events (set_regmap s m1) (bit_depth_table s)).
  apply checked_step. intros m2. rewrite set_regmap_twice.
  unfold Bind at 1. unfold Get. unfold Bind at 1.
  cbn [current_mode set_regmap]. rewrite Hm. cbn [Lift Ret].
  change (trace m2) with (trace (regmap (set_regmap s m2))).
  change (table_events s (data m))
    with (table_events (set_regmap s m2) (data m)).
  apply checked_step. intros m3. rewrite set_regmap_twice.
  unfold Bind at 1. unfold Modify at 1.
  unfold Bind at 1. unfold Modify at 1.
  unfold Bind at 1. unfold Modify at 1.
  unfold Bind at 1. cbn [v4l2_ctrl_handler_setup Ret Z.eqb negb].
  match goal with
  | |- context [Bind _ _ ?s3] =>
      destruct (standby_step 0 s3) as (ret & m' & new & Hrun & Ht & Hcut)
  end.
  eexists _, _, _. split; [exact Hrun|].
  cbn [regmap set_regmap set_vmax set_reg_3007] in Ht |- *.
  split; [exact Ht | exact Hcut].
Qed.

(** An instance: the freshly probed device. *)
Lemma imx290_start_streaming_spec_witness :
  let s := imx290_probed 2 INCK_37 POWERED_IDLE [] in
  exists ret s' new,
    imx290_start_streaming [] s = Some (ret, s') /\
    trace (regmap s') = trace (regmap s) ++ new /\
    cut_at_failure (start_streaming_events s imx290_default_mode) new ret.
Proof.
  intros s. apply imx290_start_streaming_spec; [reflexivity | left; reflexivity].
Defined.

(** ** What a control update leaves alone *)

Lemma same_refl (s : imx290) : same_but_bus_and_flips s s.
Proof.
  exists (regmap s), (reg_3007 s). split; [destruct s|]; reflexivity.
Qed.

Lemma same_bus (s : imx290) (m' : regmap_t) :
  same_but_bus_and_flips s (set_regmap s m').
Proof.
  exists m', (reg_3007 s). split; [destruct s|]; reflexivity.
Qed.

Lemma same_trans (a b c : imx290) :
  same_but_bus_and_flips a b -> same_but_bus_and_flips b c ->
  same_but_bus_and_flips a c.
Proof.
  intros (m1 & r1 & -> & H1) (m2 & r2 & -> & H2).
  exists m2, r2. split; [reflexivity|].
  cbn [reg_3007 set_reg_3007] in H2. congruence.
Qed.

Lemma imx290_flip_keeps_other_bits (old : Z) (ctrl : v4l2_ctrl) :
  imx290_flip_r3007 old ctrl .& 0xfc = old .& 0xfc.
Proof.
  unfold imx290_flip_r3007, imx290_flip_msk.
  destruct (negb (ctrl_val ctrl =? 0)), (id ctrl =? V4L2_CID_HFLIP);
    rewrite to_u8_land_ones, <- Z.land_assoc;
    change (Z.ones 8 .& 0xfc) with 0xfc;
    rewrite ?Z.land_lor_distr_l, <- ?Z.land_assoc; cbn [BIT Z.shiftl Z.land
      Z.lnot Z.pred Z.add Z.opp Pos.shiftl Pos.shiftl_nat Pos.iter
      Z.pos_sub Pos.pred_double Pos.land Pos.succ N.succ_pos Z.of_N
      Pos.Nsucc_double Pos.Ndouble Pos.ldiff Z.succ Pos.pred_N];
    rewrite ?Z.land_0_r, ?Z.lor_0_r; reflexivity.
Qed.

Lemma imx290_set_flip_same (s : imx290) (ctrl : v4l2_ctrl) (ret : Z)
  (s' : imx290) :
  imx290_set_flip ctrl s = Some (ret, s') -> same_but_bus_and_flips s s'.
Proof.
  unfold imx290_set_flip, Bind, Get.
  destruct (table_step (imx290_flip_regs
                          (imx290_flip_r3007 (reg_3007 s) ctrl)) s)
    as (r & m1 & n1 & Hrun & _). rewrite Hrun.
  destruct (r <? 0); intros [= <- <-].
  - apply same_bus.
  - unfold Modify. eexists _, _. split; [reflexivity|].
    apply imx290_flip_keeps_other_bits.
Qed.

Lemma imx290_test_pattern_same (s : imx290) (ctrl : v4l2_ctrl) (ret : Z)
  (s' : imx290) :
  dev s <> OFF -> id ctrl = V4L2_CID_TEST_PATTERN ->
  imx290_set_ctrl ctrl s = Some (ret, s') ->
  exists m', s' = set_regmap s m'.
Proof.
  intros Hp Hid.
  unfold imx290_set_ctrl. unfold Bind at 1. rewrite (pm_powered s Hp).
  rewrite Hid.
  cbn [Z.eqb Pos.eqb V4L2_CID_TEST_PATTERN V4L2_CID_GAIN
       V4L2_CID_IMAGE_PROC_CLASS_BASE V4L2_CID_USER_BASE Z.add Pos.add].
  unfold imx290_write_reg, regmap_write, usleep_range, Modify, Bind, Get,
    Ret, pm_runtime_put.
  destruct (negb (ctrl_val ctrl =? 0)); [|destruct (bpp s =? 10)];
    intros [= <- <-]; eexists; reflexivity.
Qed.

(** X22: what a control update never touches.  Whatever the control and
    the bus, a control update leaves lane count, clock, frame-rate class,
    format, mode, bit depth, [vmax], power state and the two derived
    controls as they were; apart from the bus it can change only the
    cached flip register, and there only bits 0 and 1. *)
Theorem imx290_set_ctrl_frame (s : imx290) (ctrl : v4l2_ctrl) (ret : Z)
  (s' : imx290) :
  imx290_set_ctrl ctrl s = Some (ret, s') ->
  exists m' r,
    s' = set_reg_3007 (set_regmap s m') r /\
    r .& 0xfc = reg_3007 s .& 0xfc.
Proof.
  intros Hrun. change (same_but_bus_and_flips s s').
  destruct (dev s) eqn:Hd.
  { rewrite (imx290_set_ctrl_off _ _ Hd) in Hrun. injection Hrun as _ <-.
    apply same_refl. }
  all: assert (Hp : dev s <> OFF) by congruence.
  all: destruct (Z.eqb_spec (id ctrl) V4L2_CID_GAIN) as [E1|E1];
    [ rewrite (imx290_set_ctrl_gain s ctrl Hp E1) in Hrun;
      destruct (imx290_write_buffered_reg_cut IMX290_GAIN 1
                  (to_u32 (ctrl_val ctrl)) s ltac:(lia))
        as (r & m' & n & Hr & _);
      rewrite Hr in Hrun; injection Hrun as _ <-; apply same_bus |].
  all: destruct (Z.eqb_spec (id ctrl) V4L2_CID_TEST_PATTERN) as [E2|E2];
    [ destruct (imx290_test_pattern_same s ctrl ret s' Hp E2 Hrun)
        as (m' & ->); apply same_bus |].
  all: destruct (Z.eqb_spec (id ctrl) V4L2_CID_EXPOSURE) as [E3|E3];
    [ rewrite (imx290_set_ctrl_exposure s ctrl Hp E3) in Hrun;
      revert Hrun; unfold imx290_set_exposure, Bind, Get;
      destruct (vmax s =? 0);
      [ intros [= _ <-]; apply same_refl |];
      destruct (maximum ctrl =? 0); [discriminate|];
      match goal with
      | |- imx290_set_register_array ?t ?x = _ -> _ =>
          destruct (table_step t x) as (r & m' & n & Hr & _)
      end;
      rewrite Hr; intros [= _ <-]; apply same_bus |].
  all: destruct (Z.eqb_spec (id ctrl) V4L2_CID_VFLIP) as [E4|E4];
    [ rewrite (imx290_set_ctrl_flip s ctrl Hp (or_introl E4)) in Hrun;
      exact (imx290_set_flip_same _ _ _ _ Hrun) |].
  all: destruct (Z.eqb_spec (id ctrl) V4L2_CID_HFLIP) as [E5|E5];
    [ rewrite (imx290_set_ctrl_flip s ctrl Hp (or_intror E5)) in Hrun;
      exact (imx290_set_flip_same _ _ _ _ Hrun) |].
  all: destruct (Z.eqb_spec (id ctrl) V4L2_CID_IMX290_CG_SWITCH) as [E6|E6];
    [ rewrite (imx290_set_ctrl_cg s ctrl Hp E6) in Hrun;
      match type of Hrun with
      | imx290_set_register_array ?t ?x = _ =>
          destruct (table_step t x) as (r & m' & n & Hr & _)
      end;
      rewrite Hr in Hrun; injection Hrun as _ <-; apply same_bus |].
  all: destruct (Z.eqb_spec (id ctrl) V4L2_CID_LINK_FREQ) as [E7|E7];
    [ rewrite (imx290_set_ctrl_read_only s ctrl (or_introl E7)) in Hrun;
      injection Hrun as _ <-; apply same_refl |].
  all: destruct (Z.eqb_spec (id ctrl) V4L2_CID_PIXEL_RATE) as [E8|E8];
    [ rewrite (imx290_set_ctrl_read_only s ctrl (or_intror E8)) in Hrun;
      injection Hrun as _ <-; apply same_refl |].
  all: assert (Hbody : imx290_set_ctrl ctrl s = Some (Z.neg EINVAL, s))
    by (rewrite (imx290_set_ctrl_powered s ctrl (Ret (Z.neg EINVAL)) Hp);
        [reflexivity|];
        intros s0; unfold imx290_set_ctrl;
        apply Z.eqb_neq in E1, E2, E3, E4, E5, E6, E7, E8;
        rewrite E1, E2, E3, E4, E5, E6, E7, E8; reflexivity).
  all: rewrite Hbody in Hrun; injection Hrun as _ <-; apply same_refl.
Qed.

(** An instance: a V-flip update on a device whose cache holds the 720p
    window mode. *)
Lemma imx290_set_ctrl_frame_witness :
  let s := set_reg_3007 (imx290_probed 2 INCK_37 POWERED_IDLE []) 0x10 in
  exists m' r,
    set_reg_3007
      (set_regmap s
         {| faults := [];
            trace := [ EvWrite IMX290_REGHOLD 0x01 0; EvWrite 0x3007 0x11 0;
                       EvWrite IMX290_REGHOLD 0x00 0;
                       EvSleep 10000 11000 ] |}) 0x11
    = set_reg_3007 (set_regmap s m') r /\
    r .& 0xfc = 0x10 .& 0xfc.
Proof.
  intros s.
  apply (imx290_set_ctrl_frame s
           {| id := V4L2_CID_VFLIP; ctrl_val := 1; maximum := 1 |} 0).
  reflexivity.
Defined.

Lemma v4l2_ctrl_handler_setup_same (ctrls : list v4l2_ctrl) :
  forall s ret s',
    v4l2_ctrl_handler_setup ctrls s = Some (ret, s') ->
    same_but_bus_and_flips s s'.
Proof.
  induction ctrls as [|c l IH]; intros s ret s'.
  - intros [= _ <-]. apply same_refl.
  - cbn [v4l2_ctrl_handler_setup]. unfold Bind.
    destruct (imx290_set_ctrl c s) as [[r s1]|] eqn:Hc; [|discriminate].
    pose proof (imx290_set_ctrl_frame _ _ _ _ Hc) as H1.
    destruct (negb (r =? 0)).
    + intros [= _ <-]. exact H1.
    + intros Hrest. eapply same_trans; [exact H1 | eapply IH; exact Hrest].
Qed.

Lemma winmode_bits (old w : Z) :
  w = 0 \/ w = 16 ->
  to_u8 (to_u8 (old .& Z.lnot (Z.shiftl 7 4)) .| w) .& 0x70 = w.
Proof.
  intros Hw. rewrite !to_u8_land_ones.
  rewrite <- (Z.land_assoc _ (Z.ones 8) 0x70).
  change (Z.ones 8 .& 0x70) with 0x70.
  rewrite Z.land_lor_distr_l, <- !Z.land_assoc.
  change (Z.lnot (Z.shiftl 7 4) .& (Z.ones 8 .& 0x70)) with 0.
  rewrite Z.land_0_r. destruct Hw as [-> | ->]; reflexivity.
Qed.

(** X23: what a successful streaming start establishes, whatever
    controls are replayed.  The current mode is unchanged; [vmax] is 1125
    for a mode 1080 lines high and 750 otherwise; and the window-mode bits
    4 to 6 of the cached flip register are those of the mode, so that the
    flips replayed afterwards write them back unharmed. *)
Theorem imx290_start_streaming_establishes (ctrls : list v4l2_ctrl)
  (s s' : imx290) (m : imx290_mode) :
  current_mode s = Some m ->
  imx290_start_streaming ctrls s = Some (0, s') ->
  current_mode s' = Some m /\
  vmax s' = (if height m =? 1080 then 1125 else 750) /\
  reg_3007 s' .& 0x70 = imx290_get_winmode s'.
Proof.
  intros Hm. unfold imx290_start_streaming.
  unfold Bind at 1.
  destruct (table_step imx290_global_init_settings s)
    as (r1 & m1 & n1 & H1 & _). rewrite H1.
  destruct (Z.ltb_spec r1 0) as [L1|L1]; [intros [= E]; lia|].
  unfold Bind at 1.
  destruct (imx290_write_current_format (set_regmap s m1))
    as [[r2 s2]|] eqn:H2; [|discriminate].
  assert (Hs2 : exists m2, s2 = set_regmap s m2).
  { revert H2. unfold imx290_write_current_format, Bind, Get.
    repeat match goal with
           | |- context [if ?c =? ?d then _ else _] => destruct (c =? d)
           end;
      try match goal with
          | |- context [imx290_set_register_array ?t ?x] =>
              destruct (table_step t x) as (r & m2 & n & Hr & _);
              rewrite Hr, set_regmap_twice;
              destruct (r <? 0); intros [= _ <-]; exists m2; reflexivity
          end.
    intros [= _ <-]. exists m1. reflexivity. }
  destruct Hs2 as (m2 & ->).
  destruct (Z.ltb_spec r2 0) as [L2|L2]; [intros [= E]; lia|].
  unfold Bind at 1. unfold Get. unfold Bind at 1.
  cbn [current_mode set_regmap]. rewrite Hm. cbn [Lift Ret].
  unfold Bind at 1.
  destruct (table_step (data m) (set_regmap s m2))
    as (r3 & m3 & n3 & H3 & _). rewrite H3, set_regmap_twice.
  destruct (Z.ltb_spec r3 0) as [L3|L3]; [intros [= E]; lia|].
  unfold Bind at 1. unfold Modify at 1.
  unfold Bind at 1. unfold Modify at 1.
  unfold Bind at 1. unfold Modify at 1.
  unfold Bind at 1.
  match goal with
  | |- context [v4l2_ctrl_handler_setup ctrls ?x] =>
      set (s3 := x);
      destruct (v4l2_ctrl_handler_setup ctrls s3) as [[r4 s4]|] eqn:H4;
      [|discriminate]
  end.
  destruct (v4l2_ctrl_handler_setup_same _ _ _ _ H4) as (m4 & b4 & -> & Hb4).
  destruct (Z.eqb_spec r4 0) as [E4|E4]; cbn [negb];
    [|intros [= E]; contradiction].
  intros Hfin.
  destruct (standby_step 0 (set_reg_3007 (set_regmap s3 m4) b4))
    as (r5 & m5 & n5 & H5 & _).
  rewrite H5 in Hfin. injection Hfin as _ <-.
  split; [exact Hm|]. split; [reflexivity|].
  assert (Hw : imx290_get_winmode s = 0 \/ imx290_get_winmode s = 16).
  { unfold imx290_get_winmode. rewrite Hm.
    destruct (height m =? 1080); [left; reflexivity|].
    destruct (height m =? 720); [right|left]; reflexivity. }
  replace (imx290_get_winmode _) with (imx290_get_winmode s) by reflexivity.
  cbn [reg_3007 set_reg_3007 set_regmap].
  replace (b4 .& 0x70) with ((b4 .& 0xfc) .& 0x70)
    by (rewrite <- Z.land_assoc; reflexivity).
  rewrite Hb4. rewrite <- Z.land_assoc. change (0xfc .& 0x70) with 0x70.
  subst s3. cbn [reg_3007 set_reg_3007 set_regmap set_vmax].
  replace (imx290_get_winmode _) with (imx290_get_winmode s) by reflexivity.
  apply winmode_bits. exact Hw.
Qed.

(** An instance: the probed device with an H-flip to replay. *)
Lemma imx290_start_streaming_establishes_witness :
  let s := imx290_probed 2 INCK_37 POWERED_IDLE [] in
  let hflip := {| id := V4L2_CID_HFLIP; ctrl_val := 1; maximum := 1 |} in
  exists s',
    imx290_start_streaming [hflip] s = Some (0, s') /\
    current_mode s' = Some imx290_default_mode /\
    vmax s' = 1125 /\
    reg_3007 s' .& 0x70 = imx290_get_winmode s'.
Proof.
  intros s hflip.
  assert (H : exists s', imx290_start_streaming [hflip] s = Some (0, s'))
    by (vm_compute; eexists; reflexivity).
  destruct H as [s' H]. exists s'. split; [exact H|].
  apply (imx290_start_streaming_establishes [hflip] s s' imx290_default_mode);
    [reflexivity | exact H].
Defined.

(** ** Power callbacks *)

Lemma imx290_power_on_cases (p : platform) (s : imx290) :
  exists ret p' m',
    imx290_power_on p s = Some ((ret, p'), set_regmap s m') /\
    ((ret = 0 /\
      xclk_enable_count p' = xclk_enable_count p + 1 /\
      supplies_enable_count p' = supplies_enable_count p + 1 /\
      rst_gpio p' = 0)
     \/
     (ret < 0 /\
      xclk_enable_count p' = xclk_enable_count p /\
      supplies_enable_count p' = supplies_enable_count p /\
      ((rst_gpio p' = rst_gpio p /\ m' = regmap s) \/ rst_gpio p' = 1))).
Proof.
  unfold imx290_power_on, clk_prepare_enable, regulator_bulk_enable.
  destruct (xclk_outcome p) as [|e1] eqn:Hx.
  2:{ cbn. unfold Ret. exists (Z.neg e1), p, (regmap s).
      rewrite set_regmap_same. split; [reflexivity|]. right.
      repeat split; auto; lia. }
  cbn [supplies_outcome Z.eqb negb].
  destruct (supplies_outcome p) as [|e2] eqn:Hs.
  2:{ cbn. unfold Ret. eexists _, _, (regmap s).
      rewrite set_regmap_same. split; [reflexivity|]. right.
      cbn. repeat split; auto; lia. }
  cbn [Z.eqb negb]. unfold usleep_range, Modify.
  unfold Bind at 1. unfold Bind at 1. unfold Bind at 1.
  match goal with
  | |- context [imx290_set_register_array imx290_poweron_settings ?x] =>
      destruct (table_step imx290_poweron_settings x)
        as (r1 & m1 & n1 & H1 & _ & C1)
  end.
  rewrite H1, !set_regmap_twice.
  assert (S1 : r1 = 0 \/ r1 < 0)
    by (destruct C1 as [[-> _] | [Hn _]]; auto).
  destruct S1 as [-> | L1].
  - cbn [Z.ltb Z.compare]. unfold Bind at 1. unfold Get. unfold Bind at 1.
    cbn [type set_regmap].
    assert (H2 : exists r2 m2,
               (match type s with
                | IMX290_TYPE_290 =>
                    imx290_set_register_array imx290_model_290_settings
                | IMX290_TYPE_327 =>
                    imx290_set_register_array imx290_model_327_settings
                end) (set_regmap s m1) = Some (r2, set_regmap s m2)
               /\ (r2 = 0 \/ r2 < 0)).
    { destruct (type s);
        match goal with
        | |- context [imx290_set_register_array ?t ?x] =>
            destruct (table_step t x) as (r2 & m2 & n2 & H2 & _ & C2)
        end;
        exists r2, m2; rewrite H2, set_regmap_twice;
        (split; [reflexivity|]);
        destruct C2 as [[-> _] | [Hn _]]; auto. }
    destruct H2 as (r2 & m2 & H2 & [-> | L2]); rewrite H2.
    + cbn [Z.ltb Z.compare]. unfold Ret. eexists _, _, _.
      split; [reflexivity|]. left. cbn. auto.
    + apply Z.ltb_lt in L2 as B2. rewrite B2. unfold Ret. eexists _, _, _.
      split; [reflexivity|]. right. cbn.
      repeat split; auto; lia.
  - apply Z.ltb_lt in L1 as B1. rewrite B1. unfold Ret. eexists _, _, _.
    split; [reflexivity|]. right. cbn.
    repeat split; auto; lia.
Qed.

(** X24: powering on either succeeds, with the clock and the supplies
    each enabled once more and the reset line released, or fails with a
    negative code and unwinds: the enable counts are as before, and the
    reset line is asserted again unless the failure came before it was
    touched, in which case no register was written either.  Nothing but
    the bus changes in the device state. *)
Theorem imx290_power_on_spec (p : platform) (s : imx290) :
  exists ret p' m',
    imx290_power_on p s = Some ((ret, p'), set_regmap s m') /\
    ((ret = 0 /\
      xclk_enable_count p' = xclk_enable_count p + 1 /\
      supplies_enable_count p' = supplies_enable_count p + 1 /\
      rst_gpio p' = 0)
     \/
     (ret < 0 /\
      xclk_enable_count p' = xclk_enable_count p /\
      supplies_enable_count p' = supplies_enable_count p /\
      ((rst_gpio p' = rst_gpio p /\ m' = regmap s) \/ rst_gpio p' = 1))).
Proof. exact (imx290_power_on_cases p s). Qed.

(** X25: a power cycle is balanced.  After a successful power-on,
    powering off returns 0, brings the enable counts of the clock and of
    the supplies back to what they were before the power-on, and leaves the
    reset line asserted. *)
Theorem imx290_power_cycle_balanced (p p' : platform) (s s' : imx290) :
  imx290_power_on p s = Some ((0, p'), s') ->
  fst (imx290_power_off p') = 0 /\
  xclk_enable_count (snd (imx290_power_off p')) = xclk_enable_count p /\
  supplies_enable_count (snd (imx290_power_off p'))
    = supplies_enable_count p /\
  rst_gpio (snd (imx290_power_off p')) = 1.
Proof.
  intros Hrun.
  destruct (imx290_power_on_cases p s) as (ret & p1 & m1 & H1 & Hc).
  rewrite H1 in Hrun. injection Hrun as -> -> _.
  destruct Hc as [(_ & Hx & Hs & _) | (Hneg & _)]; [|lia].
  cbn. rewrite Hx, Hs. repeat split; lia.
Qed.

(** An instance: a cold platform and a bus that accepts everything. *)
Lemma imx290_power_cycle_balanced_witness :
  let p := {| xclk_enable_count := 0; supplies_enable_count := 0;
              rst_gpio := 1; xclk_outcome := BusOk;
              supplies_outcome := BusOk |} in
  exists p',
    fst (imx290_power_off p') = 0 /\
    xclk_enable_count (snd (imx290_power_off p')) = 0 /\
    supplies_enable_count (snd (imx290_power_off p')) = 0 /\
    rst_gpio (snd (imx290_power_off p')) = 1.
Proof.
  intros p.
  assert (H : exists p' s',
             imx290_power_on p (imx290_probed 2 INCK_37 OFF [])
             = Some ((0, p'), s'))
    by (vm_compute; eexists _, _; reflexivity).
  destruct H as (p' & s' & H). exists p'.
  exact (imx290_power_cycle_balanced p p' _ s' H).
Defined.

(** ** Link frequencies *)

Lemma link_freq_declared_In (f : Z) (l : list Z) :
  link_freq_declared f l = true <-> In f l.
Proof.
  induction l as [|a l IH]; cbn [link_freq_declared In].
  - split; [discriminate | contradiction].
  - destruct (Z.eqb_spec f a) as [E|E].
    + split; auto.
    + rewrite IH. split; [auto | intros [H | H]; [congruence | exact H]].
Qed.

Lemma check_link_freqs_loop_spec (freqs l : list Z) :
  Forall (fun f => f <> 0) freqs ->
  (check_link_freqs_loop freqs l = 0 /\ (forall f, In f freqs -> In f l))
  \/
  (exists pre post,
     freqs = pre ++ check_link_freqs_loop freqs l :: post /\
     (forall f, In f pre -> In f l) /\
     ~ In (check_link_freqs_loop freqs l) l /\
     check_link_freqs_loop freqs l <> 0).
Proof.
  induction 1 as [|a freqs Ha _ IH]; cbn [check_link_freqs_loop].
  - left. split; [reflexivity | contradiction].
  - destruct (link_freq_declared a l) eqn:Hd.
    + apply link_freq_declared_In in Hd.
      destruct IH as [[H0 Hall] | (pre & post & Hsplit & Hpre & Hnot & Hnz)].
      * left. split; [exact H0|]. intros f [<- | Hf]; auto.
      * right. exists (a :: pre), post. split; [cbn; congruence|].
        split; [intros f [<- | Hf]; auto | auto].
    + right. exists [], freqs. split; [reflexivity|].
      split; [contradiction|]. split; [|exact Ha].
      intros Hin. apply link_freq_declared_In in Hin. congruence.
Qed.

Lemma imx290_link_freqs_all (s : imx290) :
  firstn (Z.to_nat (imx290_link_freqs_num s)) (imx290_link_freqs_ptr s)
  = imx290_link_freqs_ptr s
  /\ Forall (fun f => f <> 0) (imx290_link_freqs_ptr s).
Proof.
  unfold imx290_link_freqs_num, imx290_link_freqs_ptr.
  destruct (nlanes s =? 4), (inck s); split; try reflexivity;
    repeat constructor; discriminate.
Qed.

(** X26: the link-frequency check of probe returns 0 exactly when every
    link frequency of the table selected by lane count and input clock is
    among those the endpoint declares; otherwise it returns the first
    table frequency that is missing. *)
Theorem imx290_check_link_freqs_spec (s : imx290) (link_frequencies : list Z) :
  let fq := imx290_check_link_freqs s link_frequencies in
  (fq = 0 <->
   forall f, In f (imx290_link_freqs_ptr s) -> In f link_frequencies) /\
  (fq <> 0 ->
   exists pre post,
     imx290_link_freqs_ptr s = pre ++ fq :: post /\
     (forall f, In f pre -> In f link_frequencies) /\
     ~ In fq link_frequencies).
Proof.
  intros fq. subst fq. unfold imx290_check_link_freqs.
  destruct (imx290_link_freqs_all s) as [-> Hnz].
  destruct (check_link_freqs_loop_spec _ link_frequencies Hnz)
    as [[H0 Hall] | (pre & post & Hsplit & Hpre & Hnot & Hne)].
  - rewrite H0. split; [split; auto | intros H; contradiction].
  - split.
    + split; [intros E; contradiction|].
      intros Hall. exfalso. apply Hnot, Hall.
      remember (check_link_freqs_loop _ link_frequencies) as r eqn:Hr.
      rewrite Hsplit. apply in_or_app. right. left. reflexivity.
    + intros _. exists pre, post. auto.
Qed.

(** An instance: an endpoint that declares the 1080p frequency only. *)
Lemma imx290_check_link_freqs_spec_witness :
  imx290_check_link_freqs (imx290_probed 2 INCK_37 OFF []) [445500000]
  = 297000000 /\
  exists pre post,
    imx290_link_freqs_ptr (imx290_probed 2 INCK_37 OFF [])
    = pre ++ imx290_check_link_freqs (imx290_probed 2 INCK_37 OFF [])
               [445500000] :: post /\
    (forall f, In f pre -> In f [445500000]) /\
    ~ In (imx290_check_link_freqs (imx290_probed 2 INCK_37 OFF [])
            [445500000]) [445500000].
Proof.
  split; [reflexivity|].
  apply (proj2 (imx290_check_link_freqs_spec
                  (imx290_probed 2 INCK_37 OFF []) [445500000])).
  discriminate.
Defined.

(** X27: the pixel rate does not depend on the lane count: two states
    with the same input clock, mode and bit depth, one with 2 lanes and one
    with 4, have the same pixel rate (or both none). *)
Theorem imx290_pixel_rate_lane_independent (a b : imx290) :
  nlanes a = 2 -> nlanes b = 4 ->
  inck a = inck b -> current_mode a = current_mode b -> bpp a = bpp b ->
  imx290_calc_pixel_rate a = imx290_calc_pixel_rate b.
Proof.
  intros Ha Hb Hi Hm Hbpp.
  unfold imx290_calc_pixel_rate, imx290_get_link_freq,
    imx290_get_link_freq_index, imx290_link_freqs_ptr.
  rewrite Ha, Hb, Hi, Hm, Hbpp.
  destruct (current_mode b) as [m|]; [|reflexivity].
  destruct (link_freq_index m <? 0); [reflexivity|].
  destruct (inck b); cbn [Z.eqb Pos.eqb];
    destruct (Z.to_nat (link_freq_index m)) as [|[|[|k]]];
    reflexivity.
Qed.

(** An instance: the probed device with 2 and with 4 lanes. *)
Lemma imx290_pixel_rate_lane_independent_witness :
  imx290_calc_pixel_rate (imx290_probed 2 INCK_74 OFF [])
  = imx290_calc_pixel_rate (imx290_probed 4 INCK_74 OFF []).
Proof.
  apply imx290_pixel_rate_lane_independent; reflexivity.
Defined.

(** ** Exposure update on the bus *)

Lemma selected_exposure_regs (s : imx290) (raw : Z) :
  selected s (imx290_exposure_regs raw) = imx290_exposure_regs raw.
Proof.
  unfold selected, imx290_exposure_regs. cbn [filter cond].
  rewrite !imx290_settings_match_0. reflexivity.
Qed.

(** C4 (as amended): with [vmax] still 0 the exposure update returns 0 and
    changes nothing.  With [vmax > 2] and [vmax - 2 <= 2^17], a positive
    control maximum such that [ctrl_max * (vmax - 2)] fits an unsigned
    int, and a control value in [0 .. ctrl_max], let
    [raw = vmax - 2 - max 1 (floor (c * (vmax - 2) / ctrl_max))]: the
    quotient is truncated, not rounded to nearest, [vmax - 2 - raw] is at
    least 1, and [raw] fits the 17 bits that are written.  The update
    writes 1 to the hold register 0x3001, the three bytes of [raw], low
    byte first, to 0x3020, 0x3021 and 0x3022, and 0 to the hold register,
    then waits the settle delay; the first write that fails ends the
    sequence and its code is the result; on a bus that accepts the five
    writes the result is 0.  Nothing but the bus changes. *)
Theorem imx290_set_exposure_spec (s : imx290) (ctrl : v4l2_ctrl) :
  (vmax s = 0 -> imx290_set_exposure ctrl s = Some (0, s)) /\
  (2 < vmax s -> vmax s - 2 <= 2 ^ 17 -> 0 < maximum ctrl ->
   0 <= ctrl_val ctrl <= maximum ctrl ->
   maximum ctrl * (vmax s - 2) < 2 ^ 32 ->
   let raw := vmax s - 2
              - Z.max 1 (ctrl_val ctrl * (vmax s - 2) / maximum ctrl) in
   let b0 := raw mod 256 in
   let b1 := raw / 256 mod 256 in
   let b2 := raw / 65536 in
   0 <= raw /\ 1 <= vmax s - 2 - raw /\
   b0 + 256 * b1 + 65536 * b2 = raw /\
   exists ret m' new,
     imx290_set_exposure ctrl s = Some (ret, set_regmap s m') /\
     trace m' = trace (regmap s) ++ new /\
     cut_at_failure
       [ EvWrite 0x3001 0x01 0;
         EvWrite 0x3020 b0 0; EvWrite 0x3021 b1 0; EvWrite 0x3022 b2 0;
         EvWrite 0x3001 0x00 0;
         EvSleep 10000 11000 ] new ret /\
     (Forall bus_ok (firstn 5 (faults (regmap s))) -> ret = 0)).
Proof.
  split.
  - intros H0. unfold imx290_set_exposure, Bind, Get. rewrite H0. reflexivity.
  - intros Hv H17 Hm Hc Hfit raw b0 b1 b2.
    pose proof (imx290_exposure_delta_floor _ _ Hv Hm _ Hc) as Hd.
    assert (Hraw : 0 <= raw < 2 ^ 17) by (subst raw; lia).
    destruct (imx290_exposure_regs_bytes raw Hraw) as [Hbytes Hsum].
    split; [lia|]. split; [subst raw; lia|]. split; [exact Hsum|].
    assert (Hbody : imx290_set_exposure ctrl s
                    = imx290_set_register_array (imx290_exposure_regs raw) s).
    { unfold imx290_set_exposure, Bind, Get.
      destruct (Z.eqb_spec (vmax s) 0); [lia|].
      destruct (Z.eqb_spec (maximum ctrl) 0); [lia|].
      rewrite (imx290_exposure_val_floor _ _ Hv Hm Hfit _ Hc). reflexivity. }
    assert (Hev : table_events s (imx290_exposure_regs raw)
                  = [ EvWrite 0x3001 0x01 0;
                      EvWrite 0x3020 b0 0; EvWrite 0x3021 b1 0;
                      EvWrite 0x3022 b2 0;
                      EvWrite 0x3001 0x00 0;
                      EvSleep 10000 11000 ]).
    { unfold table_events. rewrite selected_exposure_regs.
      unfold imx290_exposure_regs in Hbytes |- *.
      cbn [map val] in Hbytes. injection Hbytes as E0 E1 E2.
      unfold writes_ok. cbn [map reg val app]. rewrite E0, E1, E2.
      reflexivity. }
    destruct (table_step (imx290_exposure_regs raw) s)
      as (ret & m' & new & Hrun & Ht & Hcut).
    exists ret, m', new. rewrite Hbody, <- Hev.
    split; [exact Hrun|]. split; [exact Ht|]. split; [exact Hcut|].
    intros HF.
    pose proof (imx290_set_register_array_ok (imx290_exposure_regs raw) s)
      as Hok.
    rewrite selected_exposure_regs in Hok. specialize (Hok HF).
    rewrite Hok in Hrun. injection Hrun as <- _. reflexivity.
Qed.

(** An instance: the state after probe ([vmax] still 0), and the same
    state with the 1080p line total, where the control value 14 of 10000
    gives 1122, written as the bytes 98, 4 and 0. *)
Lemma imx290_set_exposure_spec_witness :
  let s0 := imx290_probed 2 INCK_37 POWERED_IDLE [] in
  let s := set_vmax s0 1125 in
  let ctrl := {| id := V4L2_CID_EXPOSURE; ctrl_val := 14; maximum := 10000 |} in
  imx290_set_exposure ctrl s0 = Some (0, s0) /\
  (0 <= 1122 /\ 1 <= 1125 - 2 - 1122 /\
   98 + 256 * 4 + 65536 * 0 = 1122 /\
   exists ret m' new,
     imx290_set_exposure ctrl s = Some (ret, set_regmap s m') /\
     trace m' = trace (regmap s) ++ new /\
     cut_at_failure
       [ EvWrite 0x3001 0x01 0;
         EvWrite 0x3020 98 0; EvWrite 0x3021 4 0; EvWrite 0x3022 0 0;
         EvWrite 0x3001 0x00 0;
         EvSleep 10000 11000 ] new ret /\
     (Forall bus_ok (firstn 5 (faults (regmap s))) -> ret = 0)).
Proof.
  intros s0 s ctrl. split.
  - apply (proj1 (imx290_set_exposure_spec s0 ctrl)). reflexivity.
  - apply (proj2 (imx290_set_exposure_spec s ctrl)); simpl; lia.
Defined.

